(** * pill-sync-bot: the reminder sweep and the command handlers of [app.py]

    A shallow embedding of the handlers of [src/app.py] and the proofs of
    the properties stated about them.

    Conventions of the embedding.

    - A DynamoDB item is a record whose optional attributes are [option]
      fields: the source reads them with [dict.get(key, default)], so an
      absent attribute is [None] and the default is applied where the source
      applies it.  The partition key ["chat_id"] is the key of the table
      (a [gmap]), not a field of the record.
    - The in-place mutations of [med] and [user_data] are written as state
      passing: every loop threads the current record.
    - The Python library ([str.lower], [zoneinfo.ZoneInfo],
      [datetime.fromisoformat], [datetime.strptime]) is an interface, the
      class [PyLib]; the theorems hold for every implementation of it, and
      [Concrete.py] is one that computes.
    - Outgoing Telegram traffic is symbolic: [get_msg] is a constructor that
      keeps the key, the language and the keyword arguments, since the
      table [messages.json] is data, not code.
    - An uncaught exception is a result of its own: [raised] for the sweep,
      no answer for a handler.  What was written before it stays written.
    - The access gate [restricted] is a function of the allow list, the
      handler and the update; the handlers are modelled as the functions
      it wraps, called with the chat and the arguments of the update.
    - Left out: the semaphore of [send_message_with_limit], which bounds
      the sends and catches their errors; the dispatcher of the bot
      library, which picks the handler of an update; and [lambda_handler],
      which decodes the event and calls the sweep or the dispatcher.
      [table.scan()] is taken to return every item. *)

From Stdlib Require Import ZArith Lia Ascii String.
From stdpp Require Import gmap strings list fin_maps.

Open Scope Z_scope.

(** ** Dates and times, as [datetime] has them *)

Record date := Date { year : Z; month : Z; day : Z }.

(** [utcoffset] is [None] for a naive datetime. *)
Record datetime := Datetime {
  dt_date : date;
  hour : Z;
  minute : Z;
  second : Z;
  microsecond : Z;
  utcoffset : option Z
}.

#[global] Instance date_eq_dec : EqDecision date.
Proof. solve_decision. Defined.

#[global] Instance datetime_eq_dec : EqDecision datetime.
Proof. solve_decision. Defined.

(** A time zone gives the offset from UTC, in seconds, in force at an
    instant (POSIX seconds). *)
Definition tzinfo : Type := Z -> Z.

(** Days since 1970-01-01 to the proleptic Gregorian calendar date. *)
Definition date_of_days (days : Z) : date :=
  let z := days + 719468 in
  let era := z `div` 146097 in
  let doe := z - era * 146097 in
  let yoe := (doe - doe `div` 1460 + doe `div` 36524 - doe `div` 146096) `div` 365 in
  let doy := doe - (365 * yoe + yoe `div` 4 - yoe `div` 100) in
  let mp := (5 * doy + 2) `div` 153 in
  let d := doy - (153 * mp + 2) `div` 5 + 1 in
  let m := if decide (mp < 10) then mp + 3 else mp - 9 in
  let y := yoe + era * 400 in
  {| year := if decide (m <= 2) then y + 1 else y; month := m; day := d |}.

(** [datetime.utcnow().astimezone(tz)].  The clock is read as POSIX
    microseconds; [utcnow()] is naive and [astimezone] reads a naive value
    in the zone of the process, which is UTC on the Lambda runtime, so the
    result is the wall clock of [tz] at that instant. *)
Definition astimezone (now_utc : Z) (tz : tzinfo) : datetime :=
  let off := tz (now_utc `div` 1000000) in
  let t := now_utc + off * 1000000 in
  let r := t `mod` 86400000000 in
  {| dt_date := date_of_days (t `div` 86400000000);
     hour := r `div` 3600000000;
     minute := (r `div` 60000000) `mod` 60;
     second := (r `div` 1000000) `mod` 60;
     microsecond := r `mod` 1000000;
     utcoffset := Some off |}.

(** Comparison of two datetimes that carry the same [tzinfo] object: the
    zone is ignored and the wall-clock fields are compared in order. *)
Definition datetime_lt (a b : datetime) : bool :=
  let ka := [year (dt_date a); month (dt_date a); day (dt_date a);
             hour a; minute a; second a; microsecond a] in
  let kb := [year (dt_date b); month (dt_date b); day (dt_date b);
             hour b; minute b; second b; microsecond b] in
  (fix lex (x y : list Z) : bool :=
     match x, y with
     | u :: x', v :: y' =>
         if decide (u < v) then true
         else if decide (v < u) then false
         else lex x' y'
     | _, _ => false
     end) ka kb.

(** Decimal rendering, zero padded to a fixed width. *)
Definition digit (n : Z) : ascii := ascii_of_nat (48 + Z.to_nat (n `mod` 10)).

Fixpoint pad (width : nat) (n : Z) : string :=
  match width with
  | O => EmptyString
  | S w => pad w (n `div` 10) +:+ String (digit n) EmptyString
  end.

(** [d.strftime("%Y-%m-%d")] *)
Definition strftime_Ymd (d : date) : string :=
  pad 4 (year d) +:+ "-" +:+ pad 2 (month d) +:+ "-" +:+ pad 2 (day d).

(** The offset part of [isoformat()]: sign, hours, minutes, and the seconds
    when they are not zero. *)
Definition format_offset (off : Z) : string :=
  let a := Z.abs off in
  (if decide (off < 0) then "-" else "+") +:+
  pad 2 (a `div` 3600) +:+ ":" +:+ pad 2 ((a `div` 60) `mod` 60) +:+
  (if decide (a `mod` 60 = 0) then "" else ":" +:+ pad 2 (a `mod` 60)).

(** [dt.isoformat()] *)
Definition isoformat (dt : datetime) : string :=
  strftime_Ymd (dt_date dt) +:+ "T" +:+
  pad 2 (hour dt) +:+ ":" +:+ pad 2 (minute dt) +:+ ":" +:+ pad 2 (second dt) +:+
  (if decide (microsecond dt = 0) then "" else "." +:+ pad 6 (microsecond dt)) +:+
  from_option format_offset "" (utcoffset dt).

#[global] Arguments astimezone : simpl never.
#[global] Arguments strftime_Ymd : simpl never.
#[global] Arguments isoformat : simpl never.

(** ** The stored records *)

(** One entry of ["medications"].  [add_medicine] writes the first four
    attributes; ["last_reminder_time"] appears with the first reminder. *)
Record medication := Medication {
  name : option string;
  dosage : option string;
  times : option (list string);
  acknowledged : option (gmap string string);
  last_reminder_time : option string
}.

(** One item of the table, without its key ["chat_id"]. *)
Record user_data := UserData {
  timezone : option string;
  medications : option (list medication);
  language : option string
}.

#[global] Instance medication_eq_dec : EqDecision medication.
Proof. solve_decision. Defined.

#[global] Instance user_data_eq_dec : EqDecision user_data.
Proof. solve_decision. Defined.

Definition set_last_reminder_time (v : string) (med : medication) : medication :=
  {| name := name med; dosage := dosage med; times := times med;
     acknowledged := acknowledged med; last_reminder_time := Some v |}.

Definition set_acknowledged (v : gmap string string) (med : medication) : medication :=
  {| name := name med; dosage := dosage med; times := times med;
     acknowledged := Some v; last_reminder_time := last_reminder_time med |}.

Definition set_medications (v : list medication) (u : user_data) : user_data :=
  {| timezone := timezone u; medications := Some v; language := language u |}.

Definition set_timezone_field (v : string) (u : user_data) : user_data :=
  {| timezone := Some v; medications := medications u; language := language u |}.

Definition set_language_field (v : string) (u : user_data) : user_data :=
  {| timezone := timezone u; medications := medications u; language := Some v |}.

(** The DynamoDB table, keyed by ["chat_id"]. *)
Abbreviation table := (gmap string user_data).

(** [get_user_data]: the stored item, or the default one; a missing
    ["language"] is filled in. *)
Definition get_user_data (tbl : table) (chat_id : string) : user_data :=
  let item :=
    default {| timezone := Some "UTC"; medications := Some []; language := Some "ru" |}
            (tbl !! chat_id) in
  match language item with
  | None => set_language_field "ru" item
  | Some _ => item
  end.

(** [save_user_data]: [put_item] replaces the item stored under the key. *)
Definition save_user_data (chat_id : string) (u : user_data) (tbl : table) : table :=
  <[chat_id := u]> tbl.

(** ** Outgoing messages *)

(** [get_msg(key, lang, **kwargs)], kept symbolic. *)
Inductive message := get_msg (key lang : string) (kwargs : list (string * string)).

(** The inline keyboard of a reminder: one button. *)
Record keyboard := InlineKeyboardButton { button_text : message; callback_data : string }.

(** One coroutine appended to [tasks]. *)
Inductive task :=
  send_message_with_limit (chat_id : string) (text : message) (reply_markup : keyboard).

(** What a handler answers: [update.message.reply_text(m)], or
    [query.edit_message_text]; the latter with the text of the message the
    button hangs on, when the new text is that text, a blank line and [m]. *)
Inductive reply :=
  | reply_text (m : message)
  | edit_message_text (original_text : option string) (m : message).

#[global] Instance message_eq_dec : EqDecision message.
Proof. solve_decision. Defined.

#[global] Instance keyboard_eq_dec : EqDecision keyboard.
Proof. solve_decision. Defined.

#[global] Instance task_eq_dec : EqDecision task.
Proof. solve_decision. Defined.

(** ** The library interface *)

Class PyLib := {
  (** [str.lower] *)
  lower : string -> string;
  (** [ZoneInfo(key)]; [None] when the constructor raises *)
  ZoneInfo : string -> option tzinfo;
  (** [datetime.fromisoformat(s)]; [None] when it raises *)
  fromisoformat : string -> option datetime;
  (** [datetime.strptime(s, "%H:%M").time()] as hour and minute; [None]
      when it raises *)
  strptime_HM : string -> option (Z * Z)
}.

(** ** The reminder sweep, [send_reminders_async] *)

(** Why the body of the inner loop leaves a fire time, or lets it through:
    one constructor per [continue] of the source, in order, and [due] for
    the path that reaches [tasks.append]. *)
Inductive verdict :=
  | already_acknowledged
  | already_sent
  | bad_time
  | not_time_yet
  | due.

#[global] Instance verdict_eq_dec : EqDecision verdict.
Proof. solve_decision. Defined.

(** How [send_reminders_async] ends: it returns after [asyncio.gather] has
    run the tasks, or an exception leaves the loop over the users. *)
Inductive completion :=
  | gathered (tasks : list task)
  | raised.

Record sweep_result := SweepResult {
  sweep_table : table;
  sweep_puts : list (string * user_data);
  sweep_end : completion
}.

Section Sweep.
Context `{PyLib}.

(** [try: tz = ZoneInfo(tz_str) except Exception: tz = ZoneInfo("UTC")];
    [None] when the handler itself raises. *)
Definition zone_or_utc (tz_str : string) : option tzinfo :=
  match ZoneInfo tz_str with
  | Some tz => Some tz
  | None => ZoneInfo "UTC"
  end.

Definition today_str (now_local : datetime) : string :=
  strftime_Ymd (dt_date now_local).

(** Lines 281-290: was a reminder stamped today?  An empty string is
    falsy; a string that does not parse is logged and ignored. *)
Definition sent_today (now_local : datetime) (med : medication) : bool :=
  match last_reminder_time med with
  | None => false
  | Some last_reminder_str =>
      if decide (last_reminder_str = "") then false
      else match fromisoformat last_reminder_str with
           | None => false
           | Some last_reminder_time =>
               bool_decide (dt_date last_reminder_time = dt_date now_local)
           end
  end.

(** Lines 298-301.  The zone of [scheduled_dt] is that of [now_local];
    its offset is only logged. *)
Definition scheduled_dt (now_local : datetime) (h m : Z) : datetime :=
  {| dt_date := dt_date now_local; hour := h; minute := m;
     second := 0; microsecond := 0; utcoffset := None |}.

(** Lines 275-305, the tests of the inner loop. *)
Definition evaluate (now_local : datetime) (acknowledged : gmap string string)
    (med : medication) (med_time : string) : verdict :=
  if decide (acknowledged !! med_time = Some (today_str now_local)) then
    already_acknowledged
  else if sent_today now_local med then already_sent
  else match strptime_HM med_time with
       | None => bad_time
       | Some (h, m) =>
           if datetime_lt now_local (scheduled_dt now_local h m)
           then not_time_yet
           else due
       end.

(** Lines 308-313, the reminder built for a due fire time. *)
Definition reminder (chat_id lang med_name : string) (med : medication)
    (med_time : string) : task :=
  send_message_with_limit chat_id
    (get_msg "reminder_message" lang
       [("medicine", med_name); ("dosage", default "None" (dosage med));
        ("time", med_time)])
    {| button_text := get_msg "ack_button" lang [];
       callback_data := "ack|" +:+ med_name +:+ "|" +:+ med_time |}.

(** The state the loops thread: the medication being processed, the
    tasks collected so far and the flag [user_modified]. *)
Definition sweep_state : Type := medication * list task * bool.

(** One iteration of [for med_time in med.get("times", [])]. *)
Definition remind_at (chat_id lang : string) (now_local : datetime)
    (med_name : string) (acknowledged : gmap string string)
    (st : sweep_state) (med_time : string) : sweep_state :=
  let '(med, tasks, user_modified) := st in
  match evaluate now_local acknowledged med med_time with
  | due =>
      (set_last_reminder_time (isoformat now_local) med,
       tasks ++ [reminder chat_id lang med_name med med_time],
       true)
  | _ => st
  end.

(** One iteration of [for med in medications]: [med_name] and
    [acknowledged] are read once, before the fire times. *)
Definition sweep_medication (chat_id lang : string) (now_local : datetime)
    (med : medication) (tasks : list task) (user_modified : bool)
    : sweep_state :=
  let med_name := default "" (name med) in
  let acknowledged := default ∅ (acknowledged med) in
  foldl (remind_at chat_id lang now_local med_name acknowledged)
        (med, tasks, user_modified) (default [] (times med)).

(** [for med in medications]: the entries are updated in place, in
    order. *)
Fixpoint sweep_medications (chat_id lang : string) (now_local : datetime)
    (meds : list medication) (tasks : list task) (user_modified : bool)
    : list medication * list task * bool :=
  match meds with
  | [] => ([], tasks, user_modified)
  | med :: rest =>
      let '(med', tasks', user_modified') :=
        sweep_medication chat_id lang now_local med tasks user_modified in
      let '(rest', tasks'', user_modified'') :=
        sweep_medications chat_id lang now_local rest tasks' user_modified' in
      (med' :: rest', tasks'', user_modified'')
  end.

(** Lines 265-317 for one user, the zone resolved: the record after the
    loop over the medications, the tasks and [user_modified].  A record
    without ["medications"] iterates over a fresh empty list. *)
Definition sweep_user (now_utc : Z) (tz : tzinfo) (chat_id : string)
    (user : user_data) (tasks : list task) : user_data * list task * bool :=
  let lang := default "ru" (language user) in
  let now_local := astimezone now_utc tz in
  match medications user with
  | None => (user, tasks, false)
  | Some meds =>
      let '(meds', tasks', user_modified) :=
        sweep_medications chat_id lang now_local meds tasks false in
      (set_medications meds' user, tasks', user_modified)
  end.

(** [for user in users], with the writes made on the way. *)
Fixpoint sweep_users (now_utc : Z) (users : list (string * user_data))
    (tbl : table) (puts : list (string * user_data)) (tasks : list task)
    : sweep_result :=
  match users with
  | [] => {| sweep_table := tbl; sweep_puts := puts; sweep_end := gathered tasks |}
  | (chat_id, user) :: rest =>
      match zone_or_utc (default "UTC" (timezone user)) with
      | None => {| sweep_table := tbl; sweep_puts := puts; sweep_end := raised |}
      | Some tz =>
          let '(user', tasks', user_modified) :=
            sweep_user now_utc tz chat_id user tasks in
          if user_modified then
            sweep_users now_utc rest (save_user_data chat_id user' tbl)
                        (puts ++ [(chat_id, user')]) tasks'
          else
            sweep_users now_utc rest tbl puts tasks'
      end
  end.

(** [send_reminders_async]: [table.scan()] lists the items, the loop runs
    over them, and the collected tasks are gathered at the end. *)
Definition send_reminders_async (now_utc : Z) (tbl : table) : sweep_result :=
  sweep_users now_utc (map_to_list tbl) tbl [] [].

End Sweep.

(** ** The command handlers and the acknowledgment callback *)

(** What one handler call does: the table after it, the items it wrote
    with [save_user_data], in order, and its answer; [None] for the answer
    when an exception leaves the handler. *)
Record outcome := Outcome {
  table_after : table;
  saved : list (string * user_data);
  answer : option reply
}.

(** [s.split(sep)] for a one-character separator. *)
Fixpoint split (sep : ascii) (s : string) : list string :=
  match s with
  | EmptyString => [EmptyString]
  | String c s' =>
      if decide (c = sep) then EmptyString :: split sep s'
      else match split sep s' with
           | [] => [String c EmptyString]
           | w :: ws => String c w :: ws
           end
  end.

(** Does [sep] occur in [s]? *)
Fixpoint occurs (sep : ascii) (s : string) : bool :=
  match s with
  | EmptyString => false
  | String c s' => bool_decide (c = sep) || occurs sep s'
  end.

Section Handlers.
Context `{PyLib}.

(** A handler that answers and writes nothing. *)
Definition answer_only (tbl : table) (r : reply) : outcome :=
  {| table_after := tbl; saved := []; answer := Some r |}.

(** A handler that writes one item, then answers. *)
Definition save_and_answer (tbl : table) (chat_id : string) (u : user_data)
    (r : reply) : outcome :=
  {| table_after := save_user_data chat_id u tbl;
     saved := [(chat_id, u)];
     answer := Some r |}.

(** [add_medicine].  [user_data["medications"]] raises [KeyError] on an
    item without the attribute. *)
Definition add_medicine (tbl : table) (chat_id : string) (args : list string)
    : outcome :=
  let user_data := get_user_data tbl chat_id in
  let lang := default "ru" (language user_data) in
  match args with
  | medicine_name :: dosage :: (_ :: _) as times =>
      match medications user_data with
      | None => {| table_after := tbl; saved := []; answer := None |}
      | Some meds =>
          let med := {| name := Some medicine_name; dosage := Some dosage;
                        times := Some times; acknowledged := Some ∅;
                        last_reminder_time := None |} in
          save_and_answer tbl chat_id (set_medications (meds ++ [med]) user_data)
            (reply_text (get_msg "medicine_added" lang
               [("medicine", medicine_name); ("dosage", dosage);
                ("times", String.concat ", " times)]))
      end
  | _ => answer_only tbl (reply_text (get_msg "addmedicine_usage" lang []))
  end.

(** The filter of [delete_medicine], line 153. *)
Definition other_name (medicine_name : string) (med : medication) : bool :=
  bool_decide (lower (default "" (name med)) ≠ lower medicine_name).

(** [delete_medicine] *)
Definition delete_medicine (tbl : table) (chat_id : string) (args : list string)
    : outcome :=
  let user_data := get_user_data tbl chat_id in
  let lang := default "ru" (language user_data) in
  match args with
  | [] => answer_only tbl (reply_text (get_msg "deletemedicine_usage" lang []))
  | medicine_name :: _ =>
      let medications := default [] (medications user_data) in
      let new_medications := List.filter (other_name medicine_name) medications in
      if decide (List.length new_medications = List.length medications) then
        answer_only tbl
          (reply_text (get_msg "medicine_not_found" lang [("medicine", medicine_name)]))
      else
        save_and_answer tbl chat_id (set_medications new_medications user_data)
          (reply_text (get_msg "medicine_deleted" lang [("medicine", medicine_name)]))
  end.

(** [set_timezone] *)
Definition set_timezone (tbl : table) (chat_id : string) (args : list string)
    : outcome :=
  let user_data := get_user_data tbl chat_id in
  let lang := default "ru" (language user_data) in
  match args with
  | [] => answer_only tbl (reply_text (get_msg "settimezone_usage" lang []))
  | tz :: _ =>
      save_and_answer tbl chat_id (set_timezone_field tz user_data)
        (reply_text (get_msg "timezone_set" lang [("timezone", tz)]))
  end.

(** [set_language] *)
Definition set_language (tbl : table) (chat_id : string) (args : list string)
    : outcome :=
  let user_data := get_user_data tbl chat_id in
  let current_lang := default "ru" (language user_data) in
  match args with
  | [] => answer_only tbl (reply_text (get_msg "setlanguage_usage" current_lang []))
  | arg :: _ =>
      let new_lang := lower arg in
      if bool_decide (new_lang ∉ ["ru"; "en"]) then
        answer_only tbl (reply_text (get_msg "setlanguage_usage" current_lang []))
      else
        save_and_answer tbl chat_id (set_language_field new_lang user_data)
          (reply_text (get_msg "language_set" new_lang []))
  end.

(** Lines 360-361, the test of the acknowledgment loop. *)
Definition ack_target (med_name med_time : string) (med : medication) : bool :=
  bool_decide (lower (default "" (name med)) = lower med_name)
  && bool_decide (med_time ∈ default [] (times med)).

(** Lines 362-364: the entry with [acknowledged[med_time] = today_str]. *)
Definition mark_acknowledged (med_time today : string) (med : medication)
    : medication :=
  set_acknowledged (<[med_time := today]> (default ∅ (acknowledged med))) med.

(** Lines 357-366: the loop stops at the first entry that passes both
    tests; [None] when [found] stays [False]. *)
Fixpoint acknowledge_first (med_name med_time today : string)
    (meds : list medication) : option (list medication) :=
  match meds with
  | [] => None
  | med :: rest =>
      if ack_target med_name med_time med then
        Some (mark_acknowledged med_time today med :: rest)
      else
        cons med <$> acknowledge_first med_name med_time today rest
  end.

(** [callback_acknowledge], for the callback data [data] of a button on
    a message whose text is [original_text]. *)
Definition callback_acknowledge (now_utc : Z) (tbl : table) (chat_id : string)
    (data : string) (original_text : string) : outcome :=
  let user_data := get_user_data tbl chat_id in
  let lang := default "ru" (language user_data) in
  let invalid := answer_only tbl (edit_message_text None (get_msg "ack_invalid" lang [])) in
  match split "|" data with
  | [tag; med_name; med_time] =>
      if decide (tag ≠ "ack") then invalid
      else
      let medications := default [] (medications user_data) in
      match zone_or_utc (default "UTC" (timezone user_data)) with
      | None => {| table_after := tbl; saved := []; answer := None |}
      | Some tz =>
          let today_str := today_str (astimezone now_utc tz) in
          match acknowledge_first med_name med_time today_str medications with
          | Some medications' =>
              save_and_answer tbl chat_id (set_medications medications' user_data)
                (edit_message_text (Some original_text)
                   (get_msg "acknowledged_success" lang []))
          | None =>
              answer_only tbl
                (edit_message_text None (get_msg "medicine_for_ack_not_found" lang []))
          end
      end
  | _ => invalid
  end.

End Handlers.

(** ** An implementation of the library interface that computes

    ASCII case folding, the fixed-offset zones of the zone database, and
    parsers for the two formats the program reads back: the output of
    [isoformat] and ["%H:%M"]. *)
Module Concrete.

Definition lower_ascii (c : ascii) : ascii :=
  let n := nat_of_ascii c in
  if decide (65 <= n <= 90)%nat then ascii_of_nat (n + 32) else c.

Fixpoint lower (s : string) : string :=
  match s with
  | EmptyString => EmptyString
  | String c s' => String (lower_ascii c) (lower s')
  end.

Definition ZoneInfo (key : string) : option tzinfo :=
  if decide (key = "UTC") then Some (λ _, 0)
  else if decide (key = "Etc/GMT-3") then Some (λ _, 10800)
  else if decide (key = "Etc/GMT+5") then Some (λ _, -18000)
  else if decide (key = "Etc/GMT-14") then Some (λ _, 50400)
  else None.

Definition digit_value (c : ascii) : option Z :=
  let n := nat_of_ascii c in
  if decide (48 <= n <= 57)%nat then Some (Z.of_nat n - 48) else None.

(** Reads exactly [n] decimal digits. *)
Fixpoint digits (n : nat) (acc : Z) (s : string) : option (Z * string) :=
  match n with
  | O => Some (acc, s)
  | S n' =>
      match s with
      | EmptyString => None
      | String c s' =>
          match digit_value c with
          | Some d => digits n' (10 * acc + d) s'
          | None => None
          end
      end
  end.

(** A whole string of exactly [n] digits. *)
Definition number (n : nat) (s : string) : option Z :=
  match digits n 0 s with
  | Some (v, EmptyString) => Some v
  | _ => None
  end.

(** One field of ["%H:%M"]: one or two digits. *)
Definition field (s : string) : option Z :=
  match number 2 s with
  | Some v => Some v
  | None => number 1 s
  end.

Definition strptime_HM (s : string) : option (Z * Z) :=
  match split ":" s with
  | [hs; ms] =>
      match field hs, field ms with
      | Some h, Some m =>
          if decide (h < 24 ∧ m < 60) then Some (h, m) else None
      | _, _ => None
      end
  | _ => None
  end.

Definition days_in_month (y m : Z) : Z :=
  if decide (m = 2) then
    if decide (y `mod` 4 = 0 ∧ (y `mod` 100 ≠ 0 ∨ y `mod` 400 = 0)) then 29 else 28
  else if decide (m = 4 ∨ m = 6 ∨ m = 9 ∨ m = 11) then 30
  else 31.

(** Reads [c] or fails. *)
Definition expect (c : ascii) (s : string) : option string :=
  match s with
  | String c' s' => if decide (c' = c) then Some s' else None
  | EmptyString => None
  end.

(** [HH[:MM[:SS]]] at the head of [s]. *)
Definition hh_mm_ss (s : string) : option (Z * Z * Z * string) :=
  '(h, s1) ← digits 2 0 s;
  match expect ":" s1 with
  | None => Some (h, 0, 0, s1)
  | Some s2 =>
      '(m, s3) ← digits 2 0 s2;
      match expect ":" s3 with
      | None => Some (h, m, 0, s3)
      | Some s4 => '(sec, s5) ← digits 2 0 s4; Some (h, m, sec, s5)
      end
  end.

(** [.fff] or [.ffffff], when there is a fraction. *)
Definition fraction (s : string) : option (Z * string) :=
  match expect "." s with
  | None => Some (0, s)
  | Some s1 =>
      match digits 6 0 s1 with
      | Some r => Some r
      | None => '(ms, s2) ← digits 3 0 s1; Some (ms * 1000, s2)
      end
  end.

(** The offset, when there is one: a sign and [HH:MM[:SS]]. *)
Definition offset (s : string) : option (option Z) :=
  match s with
  | EmptyString => Some None
  | String c s1 =>
      sign ← (if decide (c = "+"%char) then Some 1
              else if decide (c = "-"%char) then Some (-1) else None);
      '(h, m, sec, s2) ← hh_mm_ss s1;
      if decide (s2 = EmptyString ∧ h < 24 ∧ m < 60 ∧ sec < 60)
      then Some (Some (sign * (h * 3600 + m * 60 + sec)))
      else None
  end.

(** [YYYY-MM-DD], then nothing or one separator character, a time with
    an optional fraction and an optional offset. *)
Definition fromisoformat (s : string) : option datetime :=
  '(y, s1) ← digits 4 0 s;
  s2 ← expect "-" s1;
  '(mo, s3) ← digits 2 0 s2;
  s4 ← expect "-" s3;
  '(d, s5) ← digits 2 0 s4;
  if decide (1 <= y ∧ 1 <= mo <= 12 ∧ 1 <= d <= days_in_month y mo) then
    match s5 with
    | EmptyString => Some (Datetime (Date y mo d) 0 0 0 0 None)
    | String _ s6 =>
        '(h, mi, sec, s7) ← hh_mm_ss s6;
        '(us, s8) ← fraction s7;
        off ← offset s8;
        if decide (h < 24 ∧ mi < 60 ∧ sec < 60)
        then Some (Datetime (Date y mo d) h mi sec us off)
        else None
    end
  else None.

Definition py : PyLib := Build_PyLib lower ZoneInfo fromisoformat strptime_HM.

End Concrete.


(** ** The vocabulary of the statements *)

(** A fire time at [h]:[m] has been reached. *)
Definition reached (now_local : datetime) (h m : Z) : Prop :=
  h < hour now_local ∨ (h = hour now_local ∧ m <= minute now_local).

(** One write of the sweep, applied to the table. *)
Definition put (tbl : table) (p : string * user_data) : table :=
  save_user_data p.1 p.2 tbl.

(** The statement about [set_language] taken at its word: after the call
    with the argument [arg], the stored record carries [arg] as its
    language. *)
Definition language_overwritten `{PyLib} (tbl : table) (chat_id arg : string) : Prop :=
  ∃ u, table_after (set_language tbl chat_id [arg]) !! chat_id = Some u
       ∧ language u = Some arg.

(** The statement about the acknowledgment handler taken at its word:
    the matched medication is the first one whose name equals the given
    one up to case, and when the fire time is not among the times of that
    medication the handler writes nothing. *)
Definition matched_medication `{PyLib} (med_name : string)
    (meds : list medication) : option medication :=
  List.find (λ med, bool_decide (lower (default "" (name med)) = lower med_name))
            meds.

Definition untouched_without_the_time `{PyLib} (now_utc : Z) (tbl : table)
    (chat_id med_name med_time text : string) : Prop :=
  ∀ med,
    matched_medication med_name
      (default [] (medications (get_user_data tbl chat_id))) = Some med →
    med_time ∉ default [] (times med) →
    saved (callback_acknowledge now_utc tbl chat_id
             ("ack|" +:+ med_name +:+ "|" +:+ med_time) text) = [].

Section Vocabulary.
Context `{PyLib}.

(** The three conditions under which a fire time is due. *)
Definition due_conditions (now_local : datetime)
    (acknowledged : gmap string string) (med : medication) (med_time : string)
    : Prop :=
  acknowledged !! med_time ≠ Some (strftime_Ymd (dt_date now_local))
  ∧ (∀ s dt, last_reminder_time med = Some s → s ≠ "" →
             fromisoformat s = Some dt → dt_date dt ≠ dt_date now_local)
  ∧ (∃ h m, strptime_HM med_time = Some (h, m) ∧ reached now_local h m).

(** The stamp written at [now_local] is read back by [fromisoformat] as
    a datetime of the same date: what the library promises of
    [fromisoformat] on the output of [isoformat]. *)
Definition stamp_reads_back (now_local : datetime) : Prop :=
  ∃ dt, fromisoformat (isoformat now_local) = Some dt
        ∧ dt_date dt = dt_date now_local.

(** The first fire time of the list that is due for [med] as it is. *)
Fixpoint first_due (now_local : datetime) (acknowledged : gmap string string)
    (med : medication) (ts : list string) : option string :=
  match ts with
  | [] => None
  | t :: ts' =>
      if decide (evaluate now_local acknowledged med t = due) then Some t
      else first_due now_local acknowledged med ts'
  end.

(** What the sweep does to one medication taken alone: the entry it
    leaves and the reminders it dispatches for it. *)
Definition med_after (chat_id lang : string) (now_local : datetime)
    (med : medication) : medication :=
  (sweep_medication chat_id lang now_local med [] false).1.1.

Definition med_tasks (chat_id lang : string) (now_local : datetime)
    (med : medication) : list task :=
  (sweep_medication chat_id lang now_local med [] false).1.2.

(** The same for one user whose zone is resolved. *)
Definition user_after (now_utc : Z) (tz : tzinfo) (chat_id : string)
    (user : user_data) : user_data :=
  (sweep_user now_utc tz chat_id user []).1.1.

Definition user_tasks (now_utc : Z) (tz : tzinfo) (chat_id : string)
    (user : user_data) : list task :=
  (sweep_user now_utc tz chat_id user []).1.2.

(** The two tests of the loop, as a proposition. *)
Definition is_ack_target (med_name med_time : string) (med : medication) : Prop :=
  lower (default "" (name med)) = lower med_name
  ∧ med_time ∈ default [] (times med).

(** The names of a list of medications, as the handlers compare them. *)
Definition lowered_names (meds : list medication) : list string :=
  (λ med, lower (default "" (name med))) <$> meds.

(** The medications the handlers see for a chat. *)
Definition stored_medications (tbl : table) (chat_id : string) : list medication :=
  default [] (medications (get_user_data tbl chat_id)).

(** No two medications of the chat have names equal up to case. *)
Definition unique_names (tbl : table) (chat_id : string) : Prop :=
  NoDup (lowered_names (stored_medications tbl chat_id)).

End Vocabulary.

(** The chat a task sends to and the medication its text names: the
    reminders, among gathered tasks, that go to the chat [k] for the
    name [n], and the stored medications that carry that name. *)
Definition task_chat (x : task) : string :=
  match x with send_message_with_limit chat_id _ _ => chat_id end.

Definition task_medicine (x : task) : option string :=
  match x with
  | send_message_with_limit _ (get_msg _ _ kwargs) _ =>
      snd <$> List.find (λ p, bool_decide (p.1 = "medicine")) kwargs
  end.

Definition reminds (k n : string) (x : task) : bool :=
  bool_decide (task_chat x = k ∧ task_medicine x = Some n).

Definition named (n : string) (med : medication) : bool :=
  bool_decide (default "" (name med) = n).

(** A small table to run the handlers on: one user in UTC with one
    medication at 09:00, and the instants of 2024-01-01 used below. *)
Module Scenario.
Definition aspirin : medication :=
  {| name := Some "Aspirin"; dosage := Some "500mg"; times := Some ["09:00"];
     acknowledged := Some ∅; last_reminder_time := None |}.
Definition user : user_data :=
  {| timezone := Some "UTC"; medications := Some [aspirin]; language := Some "ru" |}.
Definition tbl : table := {[ "42" := user ]}.
Definition metformin : medication :=
  {| name := Some "Metformin"; dosage := Some "850mg";
     times := Some ["09:00"; "21:00"];
     acknowledged := Some ∅; last_reminder_time := None |}.
Definition mars_user : user_data :=
  {| timezone := Some "Mars/Olympus"; medications := Some [aspirin];
     language := Some "en" |}.
Definition mars_tbl : table := {[ "7" := mars_user ]}.
Definition idle_user : user_data :=
  {| timezone := Some "Etc/GMT-3";
     medications := Some [{| name := Some "Iron"; dosage := Some "1";
                             times := Some ["23:00"]; acknowledged := Some ∅;
                             last_reminder_time := None |}];
     language := Some "en" |}.
Definition three_users : table :=
  {[ "42" := user; "7" := mars_user; "9" := idle_user ]}.
Definition utc : tzinfo := λ _, 0.
Definition at_08_59 : Z := 1704099540000000.
Definition at_09_00 : Z := 1704099600000000.
Definition at_09_05 : Z := 1704099900000000.
Definition at_21_30 : Z := 1704144600000000.
End Scenario.

(** ** The rest of [app.py]: the allow list and the access gate *)






(** What the gate reads of an update: the sender of the message, or of
    the callback query.  [None] for a part the update does not have. *)
Record sender := Sender { username : option string }.

Record carrier := Carrier { from_user : option sender }.

Record update := Update {
  upd_message : option carrier;
  upd_callback_query : option carrier
}.

(** What the wrapper of [restricted] does with an update: it returns at
    once when the update has no user, it turns an unauthorized user away
    (with the reply "Access denied..." when the update has a message to
    reply to), or it runs the handler. *)
Inductive gate :=
  | no_user_data
  | access_denied (replied : bool)
  | handled (o : outcome).

(** Lines 42-46: the user the wrapper looks at. *)
Definition update_user (upd : update) : option sender :=
  match upd_message upd with
  | Some {| from_user := Some user |} => Some user
  | _ =>
      match upd_callback_query upd with
      | Some {| from_user := Some user |} => Some user
      | _ => None
      end
  end.

(** [restricted(func)] *)
Definition restricted `{PyLib} (ALLOWED_USERNAMES : list string)
    (func : update → outcome) (upd : update) : gate :=
  match update_user upd with
  | None => no_user_data
  | Some user =>
      match username user with
      | None => access_denied (bool_decide (is_Some (upd_message upd)))
      | Some name =>
          if bool_decide (name = "")
             || bool_decide (lower name ∉ lower <$> ALLOWED_USERNAMES)
          then access_denied (bool_decide (is_Some (upd_message upd)))
          else handled (func upd)
      end
  end.

(** ** The rest of [app.py]: the handlers that only read *)

(** [start] *)
Definition start (tbl : table) (chat_id : string) : outcome :=
  let user_data := get_user_data tbl chat_id in
  let lang := default "ru" (language user_data) in
  answer_only tbl (reply_text (get_msg "start" lang [])).

(** [echo] *)
Definition echo (tbl : table) (chat_id text : string) : outcome :=
  let user_data := get_user_data tbl chat_id in
  let lang := default "ru" (language user_data) in
  answer_only tbl (reply_text (get_msg "echo" lang [("text", text)])).

(** Lines 201-206, the annotation of the acknowledged times.  Its parts
    ["t: ack"] come in the order of [acknowledged.items()], the order of
    the stored dict, which the map of the model does not keep: the
    annotation is kept as the map it renders, without an order, and
    [no_ack_str] is the empty string of line 206. *)
Inductive ack_annotation :=
  | no_ack_str
  | ack_parts (acknowledged : gmap string string).

(** One line of [list_medicines]: the f-string of line 207 with its
    parts apart, the preposition being a looked-up message. *)
Record medicine_line := MedicineLine {
  line_name : string;
  line_dosage : string;
  line_preposition : message;
  line_times : string;
  line_ack_str : ack_annotation
}.

(** What [list_medicines] answers: the message for an empty list, or the
    lines that ["\n".join] puts together. *)
Inductive listing :=
  | listmedicines_empty (m : message)
  | final_message (message_lines : list medicine_line).

(** Lines 202-206: an empty dict is falsy and gives no annotation. *)
Definition ack_str (acknowledged : gmap string string) : ack_annotation :=
  if decide (acknowledged = ∅) then no_ack_str else ack_parts acknowledged.

(** [list_medicines] *)
Definition list_medicines (tbl : table) (chat_id : string) : listing :=
  let user_data := get_user_data tbl chat_id in
  let lang := default "ru" (language user_data) in
  let medications := default [] (medications user_data) in
  match medications with
  | [] => listmedicines_empty (get_msg "listmedicines_empty" lang [])
  | _ =>
      let preposition := get_msg "medicine_time_preposition" lang [] in
      final_message
        ((λ med,
            {| line_name :=
                 default (if decide (lang = "ru") then "Без имени" else "Unnamed")
                         (name med);
               line_dosage :=
                 default (if decide (lang = "ru") then "Не указана"
                          else "Not specified") (dosage med);
               line_preposition := preposition;
               line_times := String.concat ", " (default [] (times med));
               line_ack_str := ack_str (default ∅ (acknowledged med)) |})
         <$> medications)
  end.

(** ** Counting delimiters *)

(** How many times [sep] occurs in [s]. *)
Fixpoint count_sep (sep : ascii) (s : string) : nat :=
  match s with
  | EmptyString => O
  | String c s' => (if decide (c = sep) then 1 else 0) + count_sep sep s'
  end.

(** ** Records with one attribute changed or dropped *)

Definition set_times (v : list string) (med : medication) : medication :=
  {| name := name med; dosage := dosage med; times := Some v;
     acknowledged := acknowledged med;
     last_reminder_time := last_reminder_time med |}.

Definition del_last_reminder_time (med : medication) : medication :=
  {| name := name med; dosage := dosage med; times := times med;
     acknowledged := acknowledged med; last_reminder_time := None |}.

(** Two entries that differ at most in ["last_reminder_time"]. *)
Definition same_but_stamp (med med' : medication) : Prop :=
  name med' = name med ∧ dosage med' = dosage med ∧ times med' = times med
  ∧ acknowledged med' = acknowledged med.

(** A handler call that wrote nothing, or wrote one item for the chat
    [k] and changed the table by that write. *)
Definition touches_only_chat (tbl : table) (k : string) (out : outcome) : Prop :=
  (saved out = [] ∧ table_after out = tbl)
  ∨ ∃ u, saved out = [(k, u)] ∧ table_after out = <[k := u]> tbl.

(** A library in which no zone resolves, not even "UTC", and two more
    medications for the scenarios. *)
Module Scenario2.
Definition no_zones : PyLib :=
  Build_PyLib Concrete.lower (λ _, None) Concrete.fromisoformat Concrete.strptime_HM.
Definition garbled : medication :=
  {| name := Some "Aspirin"; dosage := Some "500mg";
     times := Some ["soon"; "09:00"];
     acknowledged := Some ∅; last_reminder_time := Some "yesterday" |}.
Definition piped : medication :=
  {| name := Some "A|B"; dosage := Some "1"; times := Some ["09:00"];
     acknowledged := Some ∅; last_reminder_time := None |}.
Definition bob : update :=
  {| upd_message := Some {| from_user := Some {| username := Some "BOB" |} |};
     upd_callback_query := None |}.
Definition nameless_press : update :=
  {| upd_message := None;
     upd_callback_query := Some {| from_user := Some {| username := None |} |} |}.
Definition vitamin : medication :=
  {| name := Some "Vitamin"; dosage := Some "1";
     times := Some ["21:00"; "soon"; "09:00"; "08:00"];
     acknowledged := Some ∅; last_reminder_time := None |}.
Definition busy_user : user_data :=
  {| timezone := Some "UTC";
     medications := Some [Scenario.metformin; vitamin; Scenario.aspirin];
     language := Some "en" |}.
Definition busy_tbl : table :=
  {[ "42" := busy_user; "7" := Scenario.mars_user; "9" := Scenario.idle_user ]}.
Definition aspirin_evening : medication :=
  {| name := Some "aspirin"; dosage := Some "100mg"; times := Some ["21:00"];
     acknowledged := Some ∅; last_reminder_time := None |}.
Definition twins_user : user_data :=
  {| timezone := Some "UTC";
     medications := Some [Scenario.aspirin; aspirin_evening; Scenario.metformin];
     language := Some "ru" |}.
Definition twins_tbl : table := {[ "42" := twins_user; "9" := Scenario.idle_user ]}.
End Scenario2.

(** * Properties *)

(** ** The calendar *)

Example date_of_days_2024 : date_of_days 19723 = Date 2024 1 1.
Proof. reflexivity. Qed.

Example date_of_days_leap : date_of_days 19782 = Date 2024 2 29.
Proof. reflexivity. Qed.


(** ** The wall clock produced by [astimezone] *)

Lemma astimezone_second_nonneg (now_utc : Z) (tz : tzinfo) :
  0 <= second (astimezone now_utc tz).
Proof. unfold astimezone; simpl. apply Z.mod_pos_bound. lia. Qed.

Lemma astimezone_microsecond_nonneg (now_utc : Z) (tz : tzinfo) :
  0 <= microsecond (astimezone now_utc tz).
Proof. unfold astimezone; simpl. apply Z.mod_pos_bound. lia. Qed.

(** [now_local < scheduled_dt] fails exactly when the fire time has been
    reached: the date parts are equal, and seconds and microseconds of
    [scheduled_dt] are zero. *)
Lemma datetime_lt_scheduled (n : datetime) (h m : Z) :
  0 <= second n → 0 <= microsecond n →
  datetime_lt n (scheduled_dt n h m) = false ↔ reached n h m.
Proof.
  destruct n as [[y mo d] hh mi s us off].
  unfold datetime_lt, scheduled_dt, reached; simpl. intros Hs Hu.
  repeat case_decide; split; intros; try done; lia.
Qed.

Lemma not_before_scheduled (now_utc : Z) (tz : tzinfo) (h m : Z) :
  let now_local := astimezone now_utc tz in
  datetime_lt now_local (scheduled_dt now_local h m) = false ↔ reached now_local h m.
Proof.
  intros now_local. apply datetime_lt_scheduled.
  - apply astimezone_second_nonneg.
  - apply astimezone_microsecond_nonneg.
Qed.

Section SweepFacts.
Context `{PyLib}.

(** No stamp of today: the attribute is absent, or empty, or does not
    parse, or parses to another date. *)
Lemma sent_today_false (now_local : datetime) (med : medication) :
  sent_today now_local med = false ↔
  ∀ s dt, last_reminder_time med = Some s → s ≠ "" →
          fromisoformat s = Some dt → dt_date dt ≠ dt_date now_local.
Proof.
  unfold sent_today. destruct (last_reminder_time med) as [s|]; [|by split].
  case_decide as Hs.
  { split; [|done]. intros _ s' dt [= <-]. done. }
  destruct (fromisoformat s) as [dt|] eqn:Hp.
  - rewrite bool_decide_eq_false. split.
    + intros Hne s' dt' [= <-] _ Hp'. congruence.
    + intros Hall. by apply (Hall s dt).
  - split; [|done]. intros _ s' dt' [= <-] _ Hp'. congruence.
Qed.

Lemma evaluate_due_iff (now_utc : Z) (tz : tzinfo)
    (acknowledged : gmap string string) (med : medication) (med_time : string) :
  evaluate (astimezone now_utc tz) acknowledged med med_time = due ↔
  due_conditions (astimezone now_utc tz) acknowledged med med_time.
Proof.
  unfold evaluate, due_conditions, today_str.
  case_decide as Hack.
  { split; [done|]. by intros [? _]. }
  destruct (sent_today _ med) eqn:Hsent.
  { split; [done|]. intros (_ & Hs & _).
    apply sent_today_false in Hs. congruence. }
  pose proof (proj1 (sent_today_false _ _) Hsent) as Hnone.
  destruct (strptime_HM med_time) as [[h m]|] eqn:Hp.
  - destruct (datetime_lt _ _) eqn:Hlt.
    + split; [done|]. intros (_ & _ & h' & m' & [= <- <-] & Hr).
      apply not_before_scheduled in Hr. congruence.
    + apply not_before_scheduled in Hlt. split; [|done].
      intros _. split_and!; [done..|]. by exists h, m.
  - split; [done|]. by intros (_ & _ & h' & m' & ? & _).
Qed.

(** The loop body either dispatches and stamps, or changes nothing. *)
Lemma remind_at_cases (chat_id lang : string) (now_local : datetime)
    (med_name : string) (acknowledged : gmap string string)
    (med : medication) (tasks : list task) (um : bool) (med_time : string) :
  (evaluate now_local acknowledged med med_time = due
   ∧ remind_at chat_id lang now_local med_name acknowledged (med, tasks, um) med_time
     = (set_last_reminder_time (isoformat now_local) med,
        tasks ++ [reminder chat_id lang med_name med med_time], true))
  ∨ (evaluate now_local acknowledged med med_time ≠ due
     ∧ remind_at chat_id lang now_local med_name acknowledged (med, tasks, um) med_time
       = (med, tasks, um)).
Proof.
  unfold remind_at. destruct (evaluate _ _ _ _); (by left) || (by right).
Qed.

End SweepFacts.

(** ** The stamp and the inner loop *)

Lemma append_nonempty (a b : string) : a ≠ "" → a +:+ b ≠ "".
Proof. by destruct a. Qed.

Lemma pad_nonempty (w : nat) (n : Z) : pad (S w) n ≠ "".
Proof. simpl. by destruct (pad w (n `div` 10)). Qed.

Lemma isoformat_nonempty (dt : datetime) : isoformat dt ≠ "".
Proof.
  unfold isoformat. apply append_nonempty.
  unfold strftime_Ymd. apply append_nonempty, pad_nonempty.
Qed.

Section StampFacts.
Context `{PyLib}.

Lemma sent_today_after_stamp (now1 now2 : datetime) (med : medication) :
  stamp_reads_back now1 → dt_date now2 = dt_date now1 →
  sent_today now2 (set_last_reminder_time (isoformat now1) med) = true.
Proof.
  intros (dt & Hp & Hd) Heq. unfold sent_today; simpl.
  destruct (decide (isoformat now1 = "")) as [He|He];
    [by destruct (isoformat_nonempty _ He)|].
  rewrite Hp. apply bool_decide_eq_true. congruence.
Qed.

Lemma evaluate_sent_today (now_local : datetime)
    (acknowledged : gmap string string) (med : medication) (t : string) :
  sent_today now_local med = true →
  evaluate now_local acknowledged med t = already_acknowledged
  ∨ evaluate now_local acknowledged med t = already_sent.
Proof.
  intros Hs. unfold evaluate. case_decide; [by left|]. rewrite Hs. by right.
Qed.

Lemma remind_at_sent_today (chat_id lang : string) (now_local : datetime)
    (med_name : string) (acknowledged : gmap string string)
    (med : medication) (tasks : list task) (um : bool) (t : string) :
  sent_today now_local med = true →
  remind_at chat_id lang now_local med_name acknowledged (med, tasks, um) t
  = (med, tasks, um).
Proof.
  intros Hs. unfold remind_at.
  by destruct (evaluate_sent_today now_local acknowledged med t Hs) as [-> | ->].
Qed.

Lemma foldl_remind_at_sent_today (chat_id lang : string) (now_local : datetime)
    (med_name : string) (acknowledged : gmap string string)
    (med : medication) (tasks : list task) (um : bool) (ts : list string) :
  sent_today now_local med = true →
  foldl (remind_at chat_id lang now_local med_name acknowledged) (med, tasks, um) ts
  = (med, tasks, um).
Proof.
  intros Hs. induction ts as [|t ts IH]; [done|].
  cbn [foldl]. by rewrite remind_at_sent_today.
Qed.

(** The inner loop dispatches for the first due fire time and for no
    other: the stamp it writes hides the rest of the list. *)
Lemma foldl_remind_at_first_due (chat_id lang : string) (now_local : datetime)
    (med_name : string) (acknowledged : gmap string string)
    (med : medication) (tasks : list task) (um : bool) (ts : list string) :
  stamp_reads_back now_local →
  foldl (remind_at chat_id lang now_local med_name acknowledged) (med, tasks, um) ts
  = match first_due now_local acknowledged med ts with
    | Some t =>
        (set_last_reminder_time (isoformat now_local) med,
         tasks ++ [reminder chat_id lang med_name med t], true)
    | None => (med, tasks, um)
    end.
Proof.
  intros Hrb. induction ts as [|t ts IH]; [done|].
  cbn [foldl first_due].
  destruct (remind_at_cases chat_id lang now_local med_name acknowledged
              med tasks um t) as [[Hd ->] | [Hd ->]].
  - rewrite decide_True by done.
    apply foldl_remind_at_sent_today. by apply sent_today_after_stamp.
  - by rewrite decide_False.
Qed.

Lemma first_due_Some (now_local : datetime) (acknowledged : gmap string string)
    (med : medication) (ts : list string) (t : string) :
  first_due now_local acknowledged med ts = Some t ↔
  ∃ before after, ts = before ++ t :: after
    ∧ evaluate now_local acknowledged med t = due
    ∧ ∀ t', t' ∈ before → evaluate now_local acknowledged med t' ≠ due.
Proof.
  induction ts as [|t0 ts IH]; simpl.
  { split; [done|]. intros (b & a & Hts & _). by destruct b. }
  case_decide as Hd.
  - split.
    + intros [= <-]. exists [], ts. split_and!; [done..|]. by intros ? ?%elem_of_nil.
    + intros ([|b0 b] & a & Hts & Hdue & Hb); simplify_eq/=; try done.
      exfalso. apply (Hb b0); [left | done].
  - rewrite IH. split.
    + intros (b & a & -> & Hdue & Hb). exists (t0 :: b), a.
      split_and!; [done..|]. intros t' [->|?]%elem_of_cons; auto.
    + intros ([|b0 b] & a & Hts & Hdue & Hb); simplify_eq/=; try done.
      exists b, a. split_and!; [done..|]. intros t' Ht'. apply Hb. by right.
Qed.

Lemma first_due_None (now_local : datetime) (acknowledged : gmap string string)
    (med : medication) (ts : list string) :
  first_due now_local acknowledged med ts = None ↔
  ∀ t, t ∈ ts → evaluate now_local acknowledged med t ≠ due.
Proof.
  induction ts as [|t0 ts IH]; simpl.
  { split; [|done]. by intros _ t ?%elem_of_nil. }
  case_decide as Hd.
  - split; [done|]. intros Hall. exfalso. apply (Hall t0); [left | done].
  - rewrite IH. split.
    + intros Hall t [->|?]%elem_of_cons; auto.
    + intros Hall t Ht. apply Hall. by right.
Qed.

(** [sweep_medication] adds its own tasks to those it is given, and
    raises the flag when it adds one. *)
Lemma foldl_remind_at_frame (chat_id lang : string) (now_local : datetime)
    (med_name : string) (acknowledged : gmap string string)
    (ts : list string) (med : medication) (tasks : list task) (um : bool) :
  foldl (remind_at chat_id lang now_local med_name acknowledged) (med, tasks, um) ts
  = let r := foldl (remind_at chat_id lang now_local med_name acknowledged)
                   (med, [], false) ts in
    (r.1.1, tasks ++ r.1.2, um || bool_decide (r.1.2 ≠ [])).
Proof.
  revert med tasks um. induction ts as [|t ts IH]; intros med tasks um.
  { simpl. by rewrite app_nil_r, orb_false_r. }
  cbn [foldl].
  destruct (remind_at_cases chat_id lang now_local med_name acknowledged
              med tasks um t) as [[Hd ->] | [Hd ->]];
  destruct (remind_at_cases chat_id lang now_local med_name acknowledged
              med [] false t) as [[Hd' ->] | [Hd' ->]]; try done.
  rewrite (IH _ (tasks ++ _) true), (IH _ ([] ++ _) true). simpl.
  rewrite <- app_assoc. simpl. by rewrite orb_true_r.
Qed.

End StampFacts.

Lemma elem_of_concat {A} (x : A) (ls : list (list A)) :
  x ∈ List.concat ls ↔ ∃ l, x ∈ l ∧ l ∈ ls.
Proof.
  induction ls as [|l0 ls IH]; simpl.
  - split; [by intros ?%elem_of_nil | by intros (l & _ & ?%elem_of_nil)].
  - rewrite elem_of_app, IH. split.
    + intros [Hx | (l & Hx & Hl)]; [exists l0 | exists l]; split; try done.
      * by left.
      * by right.
    + intros (l & Hx & [-> | Hl]%elem_of_cons); [by left | right; by exists l].
Qed.

(** ** One medication, one user *)

Section UserFacts.
Context `{PyLib}.

Lemma sweep_medication_frame (chat_id lang : string) (now_local : datetime)
    (med : medication) (tasks : list task) (um : bool) :
  sweep_medication chat_id lang now_local med tasks um
  = (med_after chat_id lang now_local med,
     tasks ++ med_tasks chat_id lang now_local med,
     um || bool_decide (med_tasks chat_id lang now_local med ≠ [])).
Proof.
  unfold med_after, med_tasks, sweep_medication.
  by rewrite foldl_remind_at_frame.
Qed.

Lemma sweep_medication_first_due (chat_id lang : string) (now_local : datetime)
    (med : medication) (tasks : list task) (um : bool) :
  stamp_reads_back now_local →
  sweep_medication chat_id lang now_local med tasks um
  = match first_due now_local (default ∅ (acknowledged med)) med
            (default [] (times med)) with
    | Some t =>
        (set_last_reminder_time (isoformat now_local) med,
         tasks ++ [reminder chat_id lang (default "" (name med)) med t], true)
    | None => (med, tasks, um)
    end.
Proof. intros Hrb. unfold sweep_medication. by apply foldl_remind_at_first_due. Qed.

Lemma sweep_medication_sent_today (chat_id lang : string) (now_local : datetime)
    (med : medication) (tasks : list task) (um : bool) :
  sent_today now_local med = true →
  sweep_medication chat_id lang now_local med tasks um = (med, tasks, um).
Proof. intros Hs. unfold sweep_medication. by apply foldl_remind_at_sent_today. Qed.

Lemma bool_decide_app_nonempty (a b : list task) :
  bool_decide (a ++ b ≠ []) = bool_decide (a ≠ []) || bool_decide (b ≠ []).
Proof.
  destruct a as [|x a]; [done|].
  rewrite (bool_decide_eq_true_2 (x :: a ≠ [])) by done.
  by rewrite (bool_decide_eq_true_2 ((x :: a) ++ b ≠ [])).
Qed.

Lemma sweep_medications_spec (chat_id lang : string) (now_local : datetime)
    (meds : list medication) (tasks : list task) (um : bool) :
  sweep_medications chat_id lang now_local meds tasks um
  = (med_after chat_id lang now_local <$> meds,
     tasks ++ List.concat (med_tasks chat_id lang now_local <$> meds),
     um || bool_decide (List.concat (med_tasks chat_id lang now_local <$> meds) ≠ [])).
Proof.
  revert tasks um. induction meds as [|med meds IH]; intros tasks um.
  { simpl. rewrite app_nil_r, orb_false_r. done. }
  cbn [sweep_medications]. rewrite sweep_medication_frame, IH.
  rewrite !fmap_cons. cbn [List.concat].
  by rewrite bool_decide_app_nonempty, <- app_assoc, orb_assoc.
Qed.

Lemma sweep_user_frame (now_utc : Z) (tz : tzinfo) (chat_id : string)
    (user : user_data) (tasks : list task) :
  sweep_user now_utc tz chat_id user tasks
  = (user_after now_utc tz chat_id user,
     tasks ++ user_tasks now_utc tz chat_id user,
     bool_decide (user_tasks now_utc tz chat_id user ≠ [])).
Proof.
  unfold user_after, user_tasks, sweep_user.
  destruct (medications user) as [meds|]; simpl.
  - rewrite !sweep_medications_spec. by simpl.
  - by rewrite app_nil_r.
Qed.

(** The record a user is left with: every medication swept on its own,
    in place. *)
Lemma user_after_medications (now_utc : Z) (tz : tzinfo) (chat_id : string)
    (user : user_data) :
  medications (user_after now_utc tz chat_id user)
  = fmap (M := list)
      (med_after chat_id (default "ru" (language user)) (astimezone now_utc tz))
    <$> medications user.
Proof.
  unfold user_after, sweep_user.
  destruct (medications user) as [meds|] eqn:Hm; simpl; [|by rewrite Hm].
  by rewrite sweep_medications_spec.
Qed.

Lemma user_tasks_concat (now_utc : Z) (tz : tzinfo) (chat_id : string)
    (user : user_data) :
  user_tasks now_utc tz chat_id user
  = List.concat (med_tasks chat_id (default "ru" (language user)) (astimezone now_utc tz)
            <$> default [] (medications user)).
Proof.
  unfold user_tasks, sweep_user.
  destruct (medications user) as [meds|]; simpl; [|done].
  by rewrite sweep_medications_spec.
Qed.

Lemma user_after_unchanged (now_utc : Z) (tz : tzinfo) (chat_id : string)
    (user : user_data) :
  timezone (user_after now_utc tz chat_id user) = timezone user
  ∧ language (user_after now_utc tz chat_id user) = language user.
Proof.
  unfold user_after, sweep_user.
  destruct (medications user) as [meds|]; simpl; [|done].
  by rewrite sweep_medications_spec.
Qed.

(** A medication for which nothing is dispatched is left as it is. *)
Lemma foldl_remind_at_quiet (chat_id lang : string) (now_local : datetime)
    (med_name : string) (acknowledged : gmap string string)
    (ts : list string) (med : medication) :
  (foldl (remind_at chat_id lang now_local med_name acknowledged)
         (med, [], false) ts).1.2 = [] →
  (foldl (remind_at chat_id lang now_local med_name acknowledged)
         (med, [], false) ts).1.1 = med.
Proof.
  induction ts as [|t ts IH]; [done|]. cbn [foldl].
  destruct (remind_at_cases chat_id lang now_local med_name acknowledged
              med [] false t) as [[Hd ->] | [Hd ->]]; [|done].
  rewrite foldl_remind_at_frame. simpl. done.
Qed.

Lemma med_after_quiet (chat_id lang : string) (now_local : datetime)
    (med : medication) :
  med_tasks chat_id lang now_local med = [] →
  med_after chat_id lang now_local med = med.
Proof. apply foldl_remind_at_quiet. Qed.

Lemma user_after_quiet (now_utc : Z) (tz : tzinfo) (chat_id : string)
    (user : user_data) :
  user_tasks now_utc tz chat_id user = [] →
  user_after now_utc tz chat_id user = user.
Proof.
  rewrite user_tasks_concat. unfold user_after, sweep_user.
  destruct user as [tzs [meds|] lng]; simpl; [|done].
  rewrite sweep_medications_spec. simpl. intros Hnil.
  unfold set_medications; simpl. do 2 f_equal.
  induction meds as [|med meds IH]; [done|].
  rewrite fmap_cons in Hnil. cbn [List.concat] in Hnil.
  apply app_eq_nil in Hnil as [Hmed Hrest].
  rewrite fmap_cons, med_after_quiet by done. f_equal. by apply IH.
Qed.

End UserFacts.

(** ** The whole table *)

Lemma foldl_put_lookup_notin (new : list (string * user_data)) (tbl : table)
    (k : string) :
  k ∉ new.*1 → foldl put tbl new !! k = tbl !! k.
Proof.
  revert tbl. induction new as [|[k' u'] new IH]; intros tbl Hk; [done|].
  rewrite fmap_cons in Hk. apply not_elem_of_cons in Hk as [Hne Hk].
  cbn [foldl]. rewrite IH by done. unfold put, save_user_data; simpl.
  by rewrite lookup_insert_ne.
Qed.

Lemma foldl_put_lookup_in (new : list (string * user_data)) (tbl : table)
    (k : string) (u : user_data) :
  NoDup new.*1 → (k, u) ∈ new → foldl put tbl new !! k = Some u.
Proof.
  revert tbl. induction new as [|[k' u'] new IH]; intros tbl Hnd Hin.
  { by apply elem_of_nil in Hin. }
  rewrite fmap_cons in Hnd. apply NoDup_cons in Hnd as [Hk' Hnd].
  cbn [foldl]. apply elem_of_cons in Hin as [[= <- <-] | Hin].
  - rewrite foldl_put_lookup_notin by done.
    unfold put, save_user_data; simpl. by rewrite lookup_insert_eq.
  - by apply IH.
Qed.

Lemma no_write_at_key (new : list (string * user_data)) (k : string) :
  k ∉ new.*1 → filter (λ p, p.1 = k) new = [].
Proof.
  induction new as [|[k' u'] new IH]; intros Hk; [done|].
  rewrite fmap_cons in Hk. apply not_elem_of_cons in Hk as [Hne Hk].
  rewrite filter_cons. case_decide as Hk'; simpl in Hk'; [done|]. by apply IH.
Qed.

Lemma writes_per_key (new : list (string * user_data)) (k : string) :
  NoDup new.*1 → (length (filter (λ p, p.1 = k) new) <= 1)%nat.
Proof.
  induction new as [|[k' u'] new IH]; intros Hnd; [simpl; lia|].
  rewrite fmap_cons in Hnd. apply NoDup_cons in Hnd as [Hk' Hnd].
  rewrite filter_cons. case_decide as Hk; simpl in Hk; [|by apply IH].
  subst k'. simpl. rewrite no_write_at_key by done. simpl; lia.
Qed.

Section TableFacts.
Context `{PyLib}.

(** The writes of the sweep: at the keys of the scan, in scan order, one
    for each user whose sweep dispatched something, with the record that
    user is left with; the table changes by these writes only. *)
Lemma sweep_users_spec (now_utc : Z) (users : list (string * user_data)) :
  ∀ (tbl : table) (puts : list (string * user_data)) (tasks : list task),
  ∃ new,
    sweep_puts (sweep_users now_utc users tbl puts tasks) = puts ++ new
    ∧ sweep_table (sweep_users now_utc users tbl puts tasks) = foldl put tbl new
    ∧ new.*1 `sublist_of` users.*1
    ∧ ∀ k u', (k, u') ∈ new →
        ∃ u tz, (k, u) ∈ users
          ∧ zone_or_utc (default "UTC" (timezone u)) = Some tz
          ∧ user_tasks now_utc tz k u ≠ []
          ∧ u' = user_after now_utc tz k u.
Proof.
  induction users as [|[k u] users IH]; intros tbl puts tasks.
  { exists []. simpl. rewrite app_nil_r. split_and!; [done..|].
    by intros ? ? ?%elem_of_nil. }
  cbn [sweep_users].
  destruct (zone_or_utc (default "UTC" (timezone u))) as [tz|] eqn:Hz.
  2:{ exists []. simpl. rewrite app_nil_r. split_and!; [done| done | |].
      - apply sublist_nil_l.
      - by intros ? ? ?%elem_of_nil. }
  rewrite sweep_user_frame.
  destruct (bool_decide (user_tasks now_utc tz k u ≠ [])) eqn:Hm.
  - apply bool_decide_eq_true in Hm.
    destruct (IH (save_user_data k (user_after now_utc tz k u) tbl)
                 (puts ++ [(k, user_after now_utc tz k u)])
                 (tasks ++ user_tasks now_utc tz k u))
      as (new & Hp & Ht & Hs & Hall).
    exists ((k, user_after now_utc tz k u) :: new).
    rewrite Hp, Ht, <- app_assoc. split_and!; [done | done | |].
    + rewrite !fmap_cons. by apply sublist_skip.
    + intros k' u' [[= -> ->] | Hin]%elem_of_cons.
      * exists u, tz. split_and!; [left | done..].
      * destruct (Hall k' u' Hin) as (u0 & tz0 & Hin0 & ?).
        exists u0, tz0. split; [by right | done].
  - destruct (IH tbl puts (tasks ++ user_tasks now_utc tz k u))
      as (new & Hp & Ht & Hs & Hall).
    exists new. split_and!; [done | done | |].
    + rewrite fmap_cons. by apply sublist_cons.
    + intros k' u' Hin. destruct (Hall k' u' Hin) as (u0 & tz0 & Hin0 & ?).
      exists u0, tz0. split; [by right | done].
Qed.

(** When the sweep returns, every user of the scan was processed: the
    zone resolved, and a user whose sweep dispatched something was
    written. *)
Lemma sweep_users_gathered (now_utc : Z) (users : list (string * user_data)) :
  ∀ (tbl : table) (puts : list (string * user_data)) (tasks tasks' : list task),
  sweep_end (sweep_users now_utc users tbl puts tasks) = gathered tasks' →
  ∀ k u, (k, u) ∈ users →
    ∃ tz, zone_or_utc (default "UTC" (timezone u)) = Some tz
      ∧ (user_tasks now_utc tz k u ≠ [] →
         (k, user_after now_utc tz k u)
           ∈ sweep_puts (sweep_users now_utc users tbl puts tasks)).
Proof.
  induction users as [|[k0 u0] users IH]; intros tbl puts tasks tasks' Hend k u Hin.
  { by apply elem_of_nil in Hin. }
  revert Hend. cbn [sweep_users].
  destruct (zone_or_utc (default "UTC" (timezone u0))) as [tz0|] eqn:Hz; [|done].
  rewrite sweep_user_frame.
  destruct (bool_decide (user_tasks now_utc tz0 k0 u0 ≠ [])) eqn:Hm; intros Hend.
  - apply elem_of_cons in Hin as [[= -> ->] | Hin].
    + exists tz0. split; [done|]. intros _.
      destruct (sweep_users_spec now_utc users
                  (save_user_data k0 (user_after now_utc tz0 k0 u0) tbl)
                  (puts ++ [(k0, user_after now_utc tz0 k0 u0)])
                  (tasks ++ user_tasks now_utc tz0 k0 u0)) as (new & -> & _).
      rewrite !elem_of_app, list_elem_of_singleton. auto.
    + by eapply IH.
  - apply elem_of_cons in Hin as [[= -> ->] | Hin].
    + exists tz0. split; [done|]. intros Hne.
      apply bool_decide_eq_false in Hm. done.
    + by eapply IH.
Qed.

(** The sweep returns whenever the fallback zone resolves. *)
Lemma sweep_users_returns (now_utc : Z) (users : list (string * user_data)) :
  is_Some (ZoneInfo "UTC") →
  ∀ (tbl : table) (puts : list (string * user_data)) (tasks : list task),
  ∃ tasks', sweep_end (sweep_users now_utc users tbl puts tasks) = gathered tasks'.
Proof.
  intros [utc Hutc]. induction users as [|[k u] users IH]; intros tbl puts tasks.
  { by eexists. }
  cbn [sweep_users].
  assert (is_Some (zone_or_utc (default "UTC" (timezone u)))) as [tz ->].
  { unfold zone_or_utc. destruct (ZoneInfo (default "UTC" (timezone u))); eauto. }
  rewrite sweep_user_frame. destruct (bool_decide _); apply IH.
Qed.

(** The gathered tasks are those of the users, in scan order. *)
Lemma sweep_users_tasks (now_utc : Z) (users : list (string * user_data)) :
  ∀ (tbl : table) (puts : list (string * user_data)) (tasks tasks' : list task),
  sweep_end (sweep_users now_utc users tbl puts tasks) = gathered tasks' →
  ∀ k u tz, (k, u) ∈ users →
    zone_or_utc (default "UTC" (timezone u)) = Some tz →
    ∀ x, x ∈ user_tasks now_utc tz k u → x ∈ tasks'.
Proof.
  assert (∀ users tbl puts tasks tasks',
            sweep_end (sweep_users now_utc users tbl puts tasks) = gathered tasks' →
            ∀ x, x ∈ tasks → x ∈ tasks') as Hkeep.
  { clear users. induction users as [|[k0 u0] users IH];
      intros tbl puts tasks tasks'; cbn [sweep_users].
    - by intros [= <-].
    - destruct (zone_or_utc (default "UTC" (timezone u0))) as [tz0|]; [|done].
      rewrite sweep_user_frame.
      destruct (bool_decide _); intros Hend x Hx;
        (eapply IH; [exact Hend|]); apply elem_of_app; by left. }
  induction users as [|[k0 u0] users IH];
    intros tbl puts tasks tasks' Hend k u tz Hin Hz x Hx.
  { by apply elem_of_nil in Hin. }
  revert Hend. cbn [sweep_users].
  destruct (zone_or_utc (default "UTC" (timezone u0))) as [tz0|] eqn:Hz0; [|done].
  rewrite sweep_user_frame.
  apply elem_of_cons in Hin as [[= -> ->] | Hin].
  - assert (tz0 = tz) as -> by congruence.
    destruct (bool_decide _); intros Hend;
      (eapply Hkeep; [exact Hend|]); apply elem_of_app; by right.
  - destruct (bool_decide _); intros Hend; by eapply IH.
Qed.

End TableFacts.

(** ** Counting the reminders of a chat and a name *)

Section CountFacts.
Context `{PyLib}.

Lemma reminds_reminder (k n chat_id lang med_name : string) (med : medication)
    (t : string) :
  reminds k n (reminder chat_id lang med_name med t)
  = bool_decide (chat_id = k ∧ med_name = n).
Proof.
  unfold reminds, reminder, task_chat, task_medicine. cbn [List.find fst].
  rewrite (bool_decide_eq_true_2 ("medicine" = "medicine")) by done.
  cbn [fmap option_fmap option_map snd].
  apply bool_decide_ext. split; intros [? ?]; split; congruence.
Qed.

Lemma filter_nil_of_false {A} (P : A → bool) (l : list A) :
  (∀ x, x ∈ l → P x = false) → List.filter P l = [].
Proof.
  induction l as [|x l IH]; intros Hall; simpl; [done|].
  rewrite (Hall x) by left. apply IH. intros y Hy. apply Hall. by right.
Qed.

Lemma filter_length_pos {A} (P : A → bool) (l : list A) (x : A) :
  x ∈ l → P x = true → (1 <= List.length (List.filter P l))%nat.
Proof.
  induction l as [|y l IH]; intros Hin HP; [by apply elem_of_nil in Hin|].
  simpl. apply elem_of_cons in Hin as [<- | Hin].
  - rewrite HP. simpl. lia.
  - destruct (P y); simpl; [lia | by apply IH].
Qed.

Lemma filter_length_zero {A} (P : A → bool) (l : list A) (x : A) :
  List.length (List.filter P l) = 0%nat → x ∈ l → P x = false.
Proof.
  intros Hlen Hin. destruct (P x) eqn:HP; [|done].
  pose proof (filter_length_pos P l x Hin HP). lia.
Qed.

(** Every task of the loop over the fire times goes to the chat of the
    user and names the medication of the loop. *)
Lemma foldl_remind_at_addressed (chat_id lang : string) (now_local : datetime)
    (med_name : string) (acknowledged : gmap string string) (ts : list string)
    (st : sweep_state) :
  Forall (λ x, task_chat x = chat_id ∧ task_medicine x = Some med_name) st.1.2 →
  Forall (λ x, task_chat x = chat_id ∧ task_medicine x = Some med_name)
         (foldl (remind_at chat_id lang now_local med_name acknowledged) st ts).1.2.
Proof.
  revert st. induction ts as [|t ts IH]; intros st Hst; [done|].
  cbn [foldl]. apply IH. destruct st as [[med tasks] um].
  destruct (remind_at_cases chat_id lang now_local med_name acknowledged
              med tasks um t) as [[_ ->] | [_ ->]]; [|done].
  simpl in *. apply Forall_app. split; [done|].
  apply Forall_singleton. split; [done|].
  pose proof (reminds_reminder chat_id med_name chat_id lang med_name med t) as Hr.
  rewrite bool_decide_eq_true_2 in Hr by done.
  unfold reminds in Hr. by apply bool_decide_eq_true in Hr as [_ ?].
Qed.

Lemma med_tasks_addressed (chat_id lang : string) (now_local : datetime)
    (med : medication) :
  Forall (λ x, task_chat x = chat_id
               ∧ task_medicine x = Some (default "" (name med)))
         (med_tasks chat_id lang now_local med).
Proof.
  unfold med_tasks, sweep_medication. by apply foldl_remind_at_addressed.
Qed.

Lemma filter_reminds_med_tasks (k n chat_id lang : string) (now_local : datetime)
    (med : medication) :
  chat_id ≠ k ∨ named n med = false →
  List.filter (reminds k n) (med_tasks chat_id lang now_local med) = [].
Proof.
  intros Hother. apply filter_nil_of_false. intros x Hx.
  pose proof (med_tasks_addressed chat_id lang now_local med) as Hall.
  rewrite Forall_forall in Hall. destruct (Hall x Hx) as [Hchat Hmed].
  unfold reminds. apply bool_decide_eq_false. intros [Hk Hn].
  destruct Hother as [Hne | Hname]; [congruence|].
  unfold named in Hname. apply bool_decide_eq_false in Hname. congruence.
Qed.

Lemma filter_reminds_other_chat (k n : string) (now_utc : Z) (tz : tzinfo)
    (chat_id : string) (user : user_data) :
  chat_id ≠ k →
  List.filter (reminds k n) (user_tasks now_utc tz chat_id user) = [].
Proof.
  intros Hne. apply filter_nil_of_false. intros x Hx.
  rewrite user_tasks_concat in Hx. apply elem_of_concat in Hx as (l & Hx & Hl).
  apply list_elem_of_fmap in Hl as (med & -> & _).
  pose proof (med_tasks_addressed chat_id
                (default "ru" (language user)) (astimezone now_utc tz) med) as Hall.
  rewrite Forall_forall in Hall. destruct (Hall x Hx) as [Hchat _].
  unfold reminds. apply bool_decide_eq_false. intros [Hk _]. congruence.
Qed.

(** Among what the sweep gathers, the reminders of a chat are those of
    the loop over the medications of that chat. *)
Lemma sweep_users_filter (now_utc : Z) (k n : string)
    (users : list (string * user_data)) :
  ∀ (tbl : table) (puts : list (string * user_data)) (tasks tasks' : list task),
  NoDup users.*1 →
  sweep_end (sweep_users now_utc users tbl puts tasks) = gathered tasks' →
  (k ∉ users.*1 →
   List.filter (reminds k n) tasks' = List.filter (reminds k n) tasks)
  ∧ ∀ u tz, (k, u) ∈ users →
      zone_or_utc (default "UTC" (timezone u)) = Some tz →
      List.filter (reminds k n) tasks'
      = List.filter (reminds k n) tasks
        ++ List.filter (reminds k n) (user_tasks now_utc tz k u).
Proof.
  induction users as [|[k0 u0] users IH]; intros tbl puts tasks tasks' Hnd.
  { cbn [sweep_users sweep_end]. intros [= <-]. split; [done|].
    by intros u tz ?%elem_of_nil. }
  cbn [sweep_users].
  destruct (zone_or_utc (default "UTC" (timezone u0))) as [tz0|] eqn:Hz0; [|done].
  rewrite sweep_user_frame. rewrite fmap_cons in Hnd. cbn [fst] in Hnd.
  apply NoDup_cons in Hnd as [Hk0 Hnd].
  assert (∀ tbl' puts',
            sweep_end (sweep_users now_utc users tbl' puts'
                         (tasks ++ user_tasks now_utc tz0 k0 u0)) = gathered tasks' →
            (k ∉ (k0, u0).1 :: users.*1 →
             List.filter (reminds k n) tasks' = List.filter (reminds k n) tasks)
            ∧ ∀ u tz, (k, u) ∈ (k0, u0) :: users →
                zone_or_utc (default "UTC" (timezone u)) = Some tz →
                List.filter (reminds k n) tasks'
                = List.filter (reminds k n) tasks
                  ++ List.filter (reminds k n) (user_tasks now_utc tz k u)) as Hstep.
  { intros tbl' puts' Hend.
    destruct (IH tbl' puts' _ tasks' Hnd Hend) as [Hout Hin]. split.
    - intros Hk. apply not_elem_of_cons in Hk as [Hne Hk]. cbn [fst] in Hne.
      rewrite (Hout Hk), List.filter_app.
      rewrite filter_reminds_other_chat by congruence. by rewrite app_nil_r.
    - intros u tz Hu Hz. apply elem_of_cons in Hu as [[= -> ->] | Hu].
      + assert (tz0 = tz) as -> by congruence.
        rewrite (Hout Hk0). by rewrite List.filter_app.
      + assert (k0 ≠ k) as Hne.
        { intros ->. apply Hk0. apply list_elem_of_fmap. by exists (k, u). }
        rewrite (Hin u tz Hu Hz), List.filter_app.
        rewrite (filter_reminds_other_chat k n now_utc tz0 k0 u0) by done.
        by rewrite app_nil_r. }
  destruct (bool_decide _); intros Hend; by eapply Hstep.
Qed.

(** The record the sweep leaves for a scanned user. *)
Lemma sweep_table_after (now_utc : Z) (tbl : table) (tasks : list task)
    (k : string) (u : user_data) (tz : tzinfo) :
  sweep_end (send_reminders_async now_utc tbl) = gathered tasks →
  tbl !! k = Some u →
  zone_or_utc (default "UTC" (timezone u)) = Some tz →
  sweep_table (send_reminders_async now_utc tbl) !! k
  = Some (user_after now_utc tz k u).
Proof.
  intros Hend Hk Hz. unfold send_reminders_async in *.
  assert ((k, u) ∈ map_to_list tbl) as Hscan by (by apply elem_of_map_to_list).
  destruct (sweep_users_spec now_utc (map_to_list tbl) tbl [] [])
    as (new & Hp & Ht & Hs & Hnew).
  assert (NoDup new.*1) as Hnd.
  { eapply sublist_NoDup; [|exact Hs]. apply NoDup_fst_map_to_list. }
  rewrite Ht.
  destruct (decide (user_tasks now_utc tz k u = [])) as [Hquiet | Hbusy].
  - rewrite user_after_quiet by done.
    rewrite foldl_put_lookup_notin; [done|].
    intros Hin. apply list_elem_of_fmap in Hin as ([k' u'] & Hk' & Hin).
    simpl in Hk'. subst k'.
    destruct (Hnew k u' Hin) as (u0 & tz0 & Hscan0 & Hz0 & Hbusy & _).
    apply elem_of_map_to_list in Hscan0.
    assert (u0 = u) as -> by congruence.
    assert (tz0 = tz) as -> by congruence. done.
  - destruct (sweep_users_gathered now_utc (map_to_list tbl) tbl [] [] tasks
                Hend k u Hscan) as (tz' & Hz' & Hput).
    assert (tz' = tz) as -> by congruence.
    specialize (Hput Hbusy). rewrite Hp in Hput. simpl in Hput.
    by apply foldl_put_lookup_in.
Qed.

(** One medication over two sweeps of the same local date. *)
Lemma med_tasks_same_date (k n lang : string) (now1 now2 : datetime)
    (med : medication) :
  stamp_reads_back now1 → stamp_reads_back now2 →
  dt_date now2 = dt_date now1 →
  (List.length (List.filter (reminds k n) (med_tasks k lang now1 med))
   + List.length (List.filter (reminds k n)
                    (med_tasks k lang now2 (med_after k lang now1 med)))
   <= List.length (List.filter (named n) [med]))%nat.
Proof.
  intros Hrb1 Hrb2 Hdate.
  destruct (named n med) eqn:Hnamed.
  2:{ rewrite !filter_reminds_med_tasks; [simpl; lia | | by right].
      right. unfold named in *. unfold med_after.
      rewrite (sweep_medication_first_due k lang now1 med [] false Hrb1).
      by destruct (first_due _ _ _ _). }
  cbn [List.filter]. rewrite Hnamed. cbn [List.length].
  pose proof (List.filter_length_le (reminds k n) (med_tasks k lang now1 med)).
  pose proof (List.filter_length_le (reminds k n)
                (med_tasks k lang now2 (med_after k lang now1 med))).
  assert (List.length (med_tasks k lang now1 med)
          + List.length (med_tasks k lang now2 (med_after k lang now1 med))
          <= 1)%nat; [|lia].
  unfold med_tasks, med_after.
  rewrite (sweep_medication_first_due k lang now1 med [] false Hrb1).
  destruct (first_due now1 _ med _) as [t|]; simpl.
  - rewrite sweep_medication_sent_today by (by apply sent_today_after_stamp).
    simpl. lia.
  - rewrite (sweep_medication_first_due k lang now2 med [] false Hrb2).
    destruct (first_due now2 _ med _); simpl; lia.
Qed.

Lemma concat_med_tasks_same_date (k n lang : string) (now1 now2 : datetime)
    (meds : list medication) :
  stamp_reads_back now1 → stamp_reads_back now2 →
  dt_date now2 = dt_date now1 →
  (List.length (List.filter (reminds k n)
                  (List.concat (med_tasks k lang now1 <$> meds)))
   + List.length (List.filter (reminds k n)
                    (List.concat (med_tasks k lang now2
                                    <$> (med_after k lang now1 <$> meds))))
   <= List.length (List.filter (named n) meds))%nat.
Proof.
  intros Hrb1 Hrb2 Hdate. induction meds as [|med meds IH]; [simpl; lia|].
  rewrite !fmap_cons. cbn [List.concat]. rewrite !List.filter_app, !length_app.
  pose proof (med_tasks_same_date k n lang now1 now2 med Hrb1 Hrb2 Hdate) as Hmed.
  change (med :: meds) with ([med] ++ meds).
  rewrite List.filter_app, length_app. lia.
Qed.

End CountFacts.

(** ** The acknowledgment loop *)

Section AckFacts.
Context `{PyLib}.

Lemma ack_target_true (med_name med_time : string) (med : medication) :
  ack_target med_name med_time med = true ↔ is_ack_target med_name med_time med.
Proof.
  unfold ack_target, is_ack_target.
  by rewrite andb_true_iff, !bool_decide_eq_true.
Qed.

Lemma ack_target_false (med_name med_time : string) (med : medication) :
  ack_target med_name med_time med = false ↔ ¬ is_ack_target med_name med_time med.
Proof. rewrite <- ack_target_true. by destruct (ack_target _ _ _). Qed.

Lemma ack_target_mark (med_name med_time t today : string) (med : medication) :
  ack_target med_name med_time (mark_acknowledged t today med)
  = ack_target med_name med_time med.
Proof. done. Qed.

Lemma mark_acknowledged_twice (t today : string) (med : medication) :
  mark_acknowledged t today (mark_acknowledged t today med)
  = mark_acknowledged t today med.
Proof.
  unfold mark_acknowledged, set_acknowledged; simpl.
  by rewrite insert_insert_eq.
Qed.

Lemma acknowledge_first_None (med_name med_time today : string)
    (meds : list medication) :
  acknowledge_first med_name med_time today meds = None ↔
  ∀ med, med ∈ meds → ¬ is_ack_target med_name med_time med.
Proof.
  induction meds as [|med meds IH]; simpl.
  { split; [|done]. by intros _ med ?%elem_of_nil. }
  destruct (ack_target med_name med_time med) eqn:Ht.
  - split; [done|]. intros Hall. apply ack_target_true in Ht.
    exfalso. apply (Hall med); [left | done].
  - apply ack_target_false in Ht. rewrite fmap_None, IH. split.
    + intros Hall m [-> | Hm]%elem_of_cons; auto.
    + intros Hall m Hm. apply Hall. by right.
Qed.

Lemma acknowledge_first_Some (med_name med_time today : string)
    (before after : list medication) (med : medication) :
  (∀ m, m ∈ before → ¬ is_ack_target med_name med_time m) →
  is_ack_target med_name med_time med →
  acknowledge_first med_name med_time today (before ++ med :: after)
  = Some (before ++ mark_acknowledged med_time today med :: after).
Proof.
  intros Hbefore Hmed. induction before as [|m before IH]; simpl.
  - apply ack_target_true in Hmed. by rewrite Hmed.
  - assert (ack_target med_name med_time m = false) as ->.
    { apply ack_target_false, Hbefore. left. }
    rewrite IH; [done|]. intros m' Hm'. apply Hbefore. by right.
Qed.

(** Running the loop on its own result changes nothing more. *)
Lemma acknowledge_first_again (med_name med_time today : string)
    (meds meds' : list medication) :
  acknowledge_first med_name med_time today meds = Some meds' →
  acknowledge_first med_name med_time today meds' = Some meds'.
Proof.
  revert meds'. induction meds as [|med meds IH]; intros meds'; simpl; [done|].
  destruct (ack_target med_name med_time med) eqn:Ht.
  - intros [= <-]. simpl. rewrite ack_target_mark, Ht.
    by rewrite mark_acknowledged_twice.
  - destruct (acknowledge_first med_name med_time today meds) as [r|] eqn:Hr;
      simpl; [|done].
    intros [= <-]. simpl. rewrite Ht. by rewrite (IH r).
Qed.

Lemma get_user_data_language (tbl : table) (chat_id : string) :
  is_Some (language (get_user_data tbl chat_id)).
Proof.
  unfold get_user_data.
  destruct (language (default _ (tbl !! chat_id))) eqn:Hl; [by rewrite Hl|].
  by eexists.
Qed.

(** Reading back an item that was just written, when it carries a
    language. *)
Lemma get_user_data_saved (tbl : table) (chat_id : string) (u : user_data) :
  is_Some (language u) →
  get_user_data (save_user_data chat_id u tbl) chat_id = u.
Proof.
  intros [l Hl]. unfold get_user_data, save_user_data.
  rewrite lookup_insert_eq. simpl. by rewrite Hl.
Qed.

End AckFacts.

(** ** Deleting and the settings *)

Lemma filter_sublist {A} (P : A → bool) (l : list A) :
  List.filter P l `sublist_of` l.
Proof.
  induction l as [|x l IH]; simpl; [done|].
  destruct (P x); [by apply sublist_skip | by apply sublist_cons].
Qed.

Lemma filter_elem_of {A} (P : A → bool) (l : list A) (x : A) :
  x ∈ List.filter P l ↔ x ∈ l ∧ P x = true.
Proof. rewrite !list_elem_of_In. apply List.filter_In. Qed.

Lemma filter_keeps_all {A} (P : A → bool) (l : list A) :
  List.length (List.filter P l) = List.length l ↔ ∀ x, x ∈ l → P x = true.
Proof.
  induction l as [|x l IH]; simpl.
  { split; [|done]. by intros _ x ?%elem_of_nil. }
  pose proof (List.filter_length_le P l) as Hle.
  destruct (P x) eqn:HP; simpl.
  - split.
    + intros Hlen y [-> | Hy]%elem_of_cons; [done|]. apply IH; [lia | done].
    + intros Hall. f_equal. apply IH. intros y Hy. apply Hall. by right.
  - split; [lia|]. intros Hall. specialize (Hall x (list_elem_of_here _ _)).
    congruence.
Qed.

(** ** Names as keys *)

Section NameFacts.
Context `{PyLib}.

Lemma get_user_data_medications (tbl : table) (chat_id : string) :
  medications (get_user_data tbl chat_id)
  = match tbl !! chat_id with Some u => medications u | None => Some [] end.
Proof.
  unfold get_user_data. destruct (tbl !! chat_id) as [u|]; simpl.
  - by destruct (language u).
  - done.
Qed.

Lemma stored_medications_insert_eq (tbl : table) (chat_id : string) (u : user_data) :
  stored_medications (<[chat_id := u]> tbl) chat_id = default [] (medications u).
Proof.
  unfold stored_medications.
  by rewrite get_user_data_medications, lookup_insert_eq.
Qed.

Lemma stored_medications_insert_ne (tbl : table) (k k' : string) (u : user_data) :
  k' ≠ k → stored_medications (<[k' := u]> tbl) k = stored_medications tbl k.
Proof.
  intros Hne. unfold stored_medications.
  by rewrite !get_user_data_medications, lookup_insert_ne.
Qed.

Lemma stored_medications_lookup (tbl : table) (chat_id : string) (u : user_data) :
  tbl !! chat_id = Some u →
  stored_medications tbl chat_id = default [] (medications u).
Proof.
  intros Hu. unfold stored_medications.
  by rewrite get_user_data_medications, Hu.
Qed.

(** A write keeps the names of [k] unique when, if it is a write for
    [k], the names of the written list are unique. *)
Lemma unique_names_insert (tbl : table) (k k' : string) (u : user_data) :
  unique_names tbl k →
  (k' = k → NoDup (lowered_names (default [] (medications u)))) →
  unique_names (<[k' := u]> tbl) k.
Proof.
  intros Hu Hnew. unfold unique_names.
  destruct (decide (k' = k)) as [-> | Hne].
  - rewrite stored_medications_insert_eq. by apply Hnew.
  - by rewrite stored_medications_insert_ne.
Qed.

Lemma remind_at_name (chat_id lang : string) (now_local : datetime)
    (med_name : string) (acknowledged : gmap string string)
    (st : sweep_state) (t : string) :
  name (remind_at chat_id lang now_local med_name acknowledged st t).1.1
  = name st.1.1.
Proof.
  destruct st as [[med tasks] um].
  by destruct (remind_at_cases chat_id lang now_local med_name acknowledged
                 med tasks um t) as [[_ ->] | [_ ->]].
Qed.

Lemma foldl_remind_at_name (chat_id lang : string) (now_local : datetime)
    (med_name : string) (acknowledged : gmap string string)
    (ts : list string) (st : sweep_state) :
  name (foldl (remind_at chat_id lang now_local med_name acknowledged) st ts).1.1
  = name st.1.1.
Proof.
  revert st. induction ts as [|t ts IH]; intros st; [done|].
  cbn [foldl]. by rewrite IH, remind_at_name.
Qed.

Lemma med_after_name (chat_id lang : string) (now_local : datetime)
    (med : medication) :
  name (med_after chat_id lang now_local med) = name med.
Proof. unfold med_after, sweep_medication. by rewrite foldl_remind_at_name. Qed.

Lemma lowered_names_med_after (chat_id lang : string) (now_local : datetime)
    (meds : list medication) :
  lowered_names (med_after chat_id lang now_local <$> meds) = lowered_names meds.
Proof.
  unfold lowered_names. rewrite <- list_fmap_compose.
  apply list_fmap_ext. intros i med _. simpl. by rewrite med_after_name.
Qed.

Lemma acknowledge_first_names (med_name med_time today : string)
    (meds meds' : list medication) :
  acknowledge_first med_name med_time today meds = Some meds' →
  lowered_names meds' = lowered_names meds.
Proof.
  revert meds'. induction meds as [|med meds IH]; intros meds'; simpl; [done|].
  destruct (ack_target med_name med_time med).
  - by intros [= <-].
  - destruct (acknowledge_first med_name med_time today meds) as [r|]; simpl; [|done].
    intros [= <-]. unfold lowered_names in *. rewrite !fmap_cons. f_equal.
    by apply IH.
Qed.

Lemma lowered_names_filter (P : medication → bool) (meds : list medication) :
  lowered_names (List.filter P meds) `sublist_of` lowered_names meds.
Proof. apply fmap_sublist, filter_sublist. Qed.

End NameFacts.

(** ** The callback data of a reminder *)

Lemma split_no_sep (sep : ascii) (a : string) :
  occurs sep a = false → split sep a = [a].
Proof.
  induction a as [|c a IH]; simpl; [done|].
  intros [Hc Ha]%orb_false_iff. apply bool_decide_eq_false in Hc.
  rewrite decide_False by done. by rewrite IH.
Qed.

Lemma split_append (sep : ascii) (a b : string) :
  occurs sep a = false → split sep (a +:+ String sep b) = a :: split sep b.
Proof.
  induction a as [|c a IH]; simpl.
  - intros _. by rewrite decide_True.
  - intros [Hc Ha]%orb_false_iff. apply bool_decide_eq_false in Hc.
    rewrite decide_False by done. by rewrite IH.
Qed.

(** The button of a reminder carries data that the acknowledgment handler
    splits back into the name and the fire time, when neither contains the
    delimiter. *)
Lemma split_callback_data (chat_id lang med_name med_time : string)
    (med : medication) :
  occurs "|" med_name = false → occurs "|" med_time = false →
  match reminder chat_id lang med_name med med_time with
  | send_message_with_limit _ _ markup =>
      split "|" (callback_data markup) = ["ack"; med_name; med_time]
  end.
Proof.
  intros Hn Ht. unfold reminder. cbn [callback_data].
  change ("ack|" +:+ med_name +:+ "|" +:+ med_time)
    with ("ack" +:+ String "|" (med_name +:+ String "|" med_time)).
  rewrite split_append by done. rewrite split_append by done.
  by rewrite split_no_sep.
Qed.

(** ** The scenarios of the specification, run *)

(** Scenario A: nothing at 08:59; one reminder and a stamp at 09:00;
    nothing at 09:05. *)
Example scenario_A_too_early :
  @send_reminders_async Concrete.py Scenario.at_08_59 Scenario.tbl
  = {| sweep_table := Scenario.tbl; sweep_puts := []; sweep_end := gathered [] |}.
Proof. vm_compute. reflexivity. Qed.

Example scenario_A_on_time :
  let stamped :=
    set_medications
      [set_last_reminder_time "2024-01-01T09:00:00+00:00" Scenario.aspirin]
      Scenario.user in
  @send_reminders_async Concrete.py Scenario.at_09_00 Scenario.tbl
  = {| sweep_table := {[ "42" := stamped ]};
       sweep_puts := [("42", stamped)];
       sweep_end :=
         gathered [@reminder "42" "ru" "Aspirin" Scenario.aspirin "09:00"] |}.
Proof. vm_compute. reflexivity. Qed.

Example scenario_A_second_sweep :
  let after := sweep_table (@send_reminders_async Concrete.py Scenario.at_09_00
                              Scenario.tbl) in
  @send_reminders_async Concrete.py Scenario.at_09_05 after
  = {| sweep_table := after; sweep_puts := []; sweep_end := gathered [] |}.
Proof. vm_compute. reflexivity. Qed.

(** Scenario C: after [/deletemedicine aspirin] the list is empty and the
    button of an old reminder finds nothing. *)
Example scenario_C_delete_then_acknowledge :
  let after :=
    table_after (@delete_medicine Concrete.py Scenario.tbl "42" ["aspirin"]) in
  @stored_medications after "42" = []
  ∧ @callback_acknowledge Concrete.py Scenario.at_09_05 after "42"
      "ack|Aspirin|09:00" "Take it"
    = {| table_after := after; saved := [];
         answer := Some (edit_message_text None
                           (get_msg "medicine_for_ack_not_found" "ru" [])) |}.
Proof. split; vm_compute; reflexivity. Qed.

(** Scenario D: two users are due at 09:00 UTC, a third (23:00 in
    Etc/GMT-3) is not; two reminders, two writes, the third record is not
    written. *)
Example scenario_D_three_users :
  let r := @send_reminders_async Concrete.py Scenario.at_09_00 Scenario.three_users in
  (∃ t1 t2, sweep_end r = gathered [t1; t2])
  ∧ List.length (sweep_puts r) = 2%nat
  ∧ ("9" ∉ (sweep_puts r).*1)
  ∧ sweep_table r !! "9" = Some Scenario.idle_user.
Proof.
  split_and!.
  - vm_compute. by eexists _, _.
  - vm_compute. reflexivity.
  - vm_compute. intros Hin.
    repeat (apply elem_of_cons in Hin as [Hin | Hin]; [discriminate|]).
    by apply elem_of_nil in Hin.
  - vm_compute. reflexivity.
Qed.

(** The stamp is read back by the parser at other instants and offsets
    too: with microseconds, east and west of UTC. *)
Example stamp_reads_back_examples :
  @stamp_reads_back Concrete.py (astimezone 1704144600123456 (λ _, 10800))
  ∧ @stamp_reads_back Concrete.py (astimezone Scenario.at_08_59 (λ _, -18000))
  ∧ @stamp_reads_back Concrete.py (astimezone 951782400000000 (λ _, 50400)).
Proof. split_and!; eexists; split; vm_compute; reflexivity. Qed.

(** * The claims *)


(** C2.  Two sweeps on the same local date of a user: the sweep at
    [now1] over the table, and a sweep at [now2] over the table the first
    one has stored.  Among all that the two sweeps gather, the reminders
    that go to the chat for a medication name are at most as many as the
    stored medications of that name: one medication gets at most one
    reminder in the two sweeps together, whatever its fire times.  When
    the first sweep has dispatched a reminder for a name, the table it
    has stored holds a medication of that name stamped with the local now
    of that sweep, and when the name is that of one medication only, the
    second sweep dispatches nothing for it.  The stamp is the one
    [isoformat] writes, and it is assumed to be read back by
    [fromisoformat] with its date. *)
Theorem C2_at_most_once_per_local_day `{PyLib} (now1 now2 : Z) (tbl : table)
    (tasks1 tasks2 : list task) (k : string) (u : user_data) (tz : tzinfo) :
  let now_local1 := astimezone now1 tz in
  let now_local2 := astimezone now2 tz in
  let stored := sweep_table (send_reminders_async now1 tbl) in
  let meds := default [] (medications u) in
  tbl !! k = Some u →
  zone_or_utc (default "UTC" (timezone u)) = Some tz →
  stamp_reads_back now_local1 →
  stamp_reads_back now_local2 →
  dt_date now_local2 = dt_date now_local1 →
  sweep_end (send_reminders_async now1 tbl) = gathered tasks1 →
  sweep_end (send_reminders_async now2 stored) = gathered tasks2 →
  (∀ n, (List.length (List.filter (reminds k n) (tasks1 ++ tasks2))
         <= List.length (List.filter (named n) meds))%nat)
  ∧ ∀ n x, x ∈ tasks1 → reminds k n x = true →
      (∃ u1 med1,
         stored !! k = Some u1
         ∧ med1 ∈ default [] (medications u1)
         ∧ named n med1 = true
         ∧ last_reminder_time med1 = Some (isoformat now_local1))
      ∧ (List.length (List.filter (named n) meds) = 1%nat →
         ∀ y, y ∈ tasks2 → reminds k n y = false).
Proof.
  intros now_local1 now_local2 stored meds Hk Hz Hrb1 Hrb2 Hdate Hend1 Hend2.
  set (lang := default "ru" (language u)).
  destruct (user_after_unchanged now1 tz k u) as [Htz1 Hlang1].
  pose proof (user_after_medications now1 tz k u) as Hafter.
  pose proof (sweep_table_after now1 tbl tasks1 k u tz Hend1 Hk Hz) as Hstored.
  fold stored in Hstored.
  remember (user_after now1 tz k u) as u1 eqn:Hu1.
  assert (default [] (medications u1) = med_after k lang now_local1 <$> meds)
    as Hmeds1.
  { rewrite Hafter. subst meds. by destruct (medications u). }
  assert (∀ n, List.filter (reminds k n) tasks1
               = List.filter (reminds k n)
                   (List.concat (med_tasks k lang now_local1 <$> meds))) as Hfirst.
  { intros n. unfold send_reminders_async in Hend1.
    destruct (sweep_users_filter now1 k n (map_to_list tbl) tbl [] [] tasks1
                (NoDup_fst_map_to_list tbl) Hend1) as [_ Hin].
    rewrite (Hin u tz) by (by try apply elem_of_map_to_list).
    by rewrite user_tasks_concat. }
  assert (∀ n, List.filter (reminds k n) tasks2
               = List.filter (reminds k n)
                   (List.concat (med_tasks k lang now_local2
                                   <$> (med_after k lang now_local1 <$> meds))))
    as Hsecond.
  { intros n. unfold send_reminders_async in Hend2.
    destruct (sweep_users_filter now2 k n (map_to_list stored) stored [] [] tasks2
                (NoDup_fst_map_to_list stored) Hend2) as [_ Hin].
    rewrite (Hin u1 tz); [| by apply elem_of_map_to_list | by rewrite Htz1].
    rewrite user_tasks_concat. by rewrite Hlang1, Hmeds1. }
  assert (∀ n, (List.length (List.filter (reminds k n) (tasks1 ++ tasks2))
                <= List.length (List.filter (named n) meds))%nat) as Hcount.
  { intros n. rewrite List.filter_app, length_app, Hfirst, Hsecond.
    by apply concat_med_tasks_same_date. }
  split; [exact Hcount|].
  intros n x Hx Hn. split.
  - assert (x ∈ List.filter (reminds k n) tasks1) as Hfx.
    { apply filter_elem_of. by split. }
    rewrite Hfirst in Hfx. apply filter_elem_of in Hfx as [Hfx _].
    apply elem_of_concat in Hfx as (l & Hxl & Hl).
    apply list_elem_of_fmap in Hl as (med & -> & Hmed).
    pose proof (med_tasks_addressed k lang now_local1 med) as Hall.
    rewrite Forall_forall in Hall. destruct (Hall x Hxl) as [_ Hname].
    unfold reminds in Hn. apply bool_decide_eq_true in Hn as [_ Hn'].
    exists u1, (med_after k lang now_local1 med). split_and!.
    + done.
    + rewrite Hmeds1. apply list_elem_of_fmap. by exists med.
    + unfold named, med_after. apply bool_decide_eq_true.
      rewrite (sweep_medication_first_due k lang now_local1 med [] false Hrb1).
      destruct (first_due _ _ _ _); simpl; congruence.
    + revert Hxl. unfold med_tasks, med_after.
      rewrite (sweep_medication_first_due k lang now_local1 med [] false Hrb1).
      destruct (first_due _ _ _ _); simpl; [done|]. by intros ?%elem_of_nil.
  - intros Hone y Hy.
    apply (filter_length_zero (reminds k n) tasks2 y); [|done].
    pose proof (Hcount n) as Hle.
    rewrite List.filter_app, length_app, Hone in Hle.
    pose proof (filter_length_pos (reminds k n) tasks1 x Hx Hn). lia.
Qed.

(** C3.  [last_reminder_time] is one field of the medication.  When the
    sweep at [now1] dispatches for a fire time [t] of a medication (the
    first of its list that is due), it dispatches for no other fire time
    of that medication, and at every instant [now2] of the same local date
    no fire time of the medication is due any more: an unacknowledged one
    is turned away as already sent, whatever the wall clock.  With the
    list [t1; t2] and both fire times reached, only [t1] gets a reminder
    that day.  The stamp is assumed to be read back by [fromisoformat]
    with its date. *)
Theorem C3_one_stamp_hides_the_other_fire_times `{PyLib} (now1 now2 : Z)
    (tz : tzinfo) (chat_id lang : string) (med : medication)
    (before after : list string) (t : string) (tasks : list task) (um : bool) :
  let now_local1 := astimezone now1 tz in
  let now_local2 := astimezone now2 tz in
  let acked := default ∅ (acknowledged med) in
  let med1 := set_last_reminder_time (isoformat now_local1) med in
  times med = Some (before ++ t :: after) →
  (∀ t', t' ∈ before → evaluate now_local1 acked med t' ≠ due) →
  evaluate now_local1 acked med t = due →
  stamp_reads_back now_local1 →
  dt_date now_local2 = dt_date now_local1 →
  sweep_medication chat_id lang now_local1 med tasks um
  = (med1, tasks ++ [reminder chat_id lang (default "" (name med)) med t], true)
  ∧ sweep_medication chat_id lang now_local2 med1 tasks um = (med1, tasks, um)
  ∧ ∀ t', t' ∈ before ++ t :: after →
      evaluate now_local2 (default ∅ (acknowledged med1)) med1 t' ≠ due
      ∧ (acked !! t' ≠ Some (strftime_Ymd (dt_date now_local2)) →
         evaluate now_local2 (default ∅ (acknowledged med1)) med1 t' = already_sent).
Proof.
  intros now_local1 now_local2 acked med1 Htimes Hbefore Hdue Hrb Hdate.
  assert (sent_today now_local2 med1 = true) as Hsent
    by (by apply sent_today_after_stamp).
  split_and!.
  - rewrite sweep_medication_first_due by done. rewrite Htimes. simpl.
    assert (first_due now_local1 acked med (before ++ t :: after) = Some t) as Hfd.
    { apply first_due_Some. by exists before, after. }
    fold acked. by rewrite Hfd.
  - by apply sweep_medication_sent_today.
  - intros t' _. simpl. fold acked. split.
    + by destruct (evaluate_sent_today now_local2 acked med1 t' Hsent) as [-> | ->].
    + intros Hack. unfold evaluate, today_str.
      rewrite decide_False by done. by rewrite Hsent.
Qed.

(** C4, as stated, fails: with two medications named "Aspirin" and
    "aspirin", the first at 09:00 and the second at 21:00, the button for
    21:00 is not turned away at the first one, whose name matches and
    which lacks that time; the handler goes on to the second one and
    writes. *)
Lemma C4_first_name_match_is_passed_over :
  ¬ untouched_without_the_time (H := Concrete.py) Scenario.at_09_05
      Scenario2.twins_tbl "42" "aspirin" "21:00" "Take it".
Proof.
  intros Hworded. specialize (Hworded Scenario.aspirin eq_refl).
  assert ("21:00" ∉ default [] (times Scenario.aspirin)) as Hlacks.
  { intros [Habs | []%elem_of_nil]%elem_of_cons. discriminate. }
  specialize (Hworded Hlacks). vm_compute in Hworded. discriminate.
Qed.

(** C4, amended.  The acknowledgment handler, for callback data that
    split into ["ack"], a name and a fire time, looks for the first
    medication whose name equals the given one up to case and whose times
    contain the fire time; a medication with a matching name that lacks
    the fire time is passed over.  When no medication passes both tests
    it answers not-found, writes nothing and leaves the table as it is.
    Otherwise the item written and stored has the medications of before
    with, in that one medication, [acknowledged[med_time]] set to today's
    local date and nothing else changed, and the time zone and the
    language of before. *)
Theorem C4_acknowledge_found_or_untouched `{PyLib} (now_utc : Z) (tbl : table)
    (chat_id data original_text med_name med_time : string) (tz : tzinfo) :
  let user_data := get_user_data tbl chat_id in
  let meds := default [] (medications user_data) in
  let lang := default "ru" (language user_data) in
  let today := strftime_Ymd (dt_date (astimezone now_utc tz)) in
  let out := callback_acknowledge now_utc tbl chat_id data original_text in
  split "|" data = ["ack"; med_name; med_time] →
  zone_or_utc (default "UTC" (timezone user_data)) = Some tz →
  ((∀ med, med ∈ meds →
      ¬ (lower (default "" (name med)) = lower med_name
         ∧ med_time ∈ default [] (times med))) →
   out = {| table_after := tbl; saved := [];
            answer := Some (edit_message_text None
                              (get_msg "medicine_for_ack_not_found" lang [])) |})
  ∧ (∀ before med after,
       meds = before ++ med :: after →
       (∀ m, m ∈ before →
          ¬ (lower (default "" (name m)) = lower med_name
             ∧ med_time ∈ default [] (times m))) →
       lower (default "" (name med)) = lower med_name →
       med_time ∈ default [] (times med) →
       ∃ u' med',
         table_after out !! chat_id = Some u'
         ∧ saved out = [(chat_id, u')]
         ∧ answer out
           = Some (edit_message_text (Some original_text)
                     (get_msg "acknowledged_success" lang []))
         ∧ medications u' = Some (before ++ med' :: after)
         ∧ timezone u' = timezone user_data
         ∧ language u' = language user_data
         ∧ default [] (medications (get_user_data (table_after out) chat_id))
           = before ++ med' :: after
         ∧ acknowledged med'
           = Some (<[med_time := today]> (default ∅ (acknowledged med)))
         ∧ default ∅ (acknowledged med') !! med_time = Some today
         ∧ (∀ t, t ≠ med_time →
                 default ∅ (acknowledged med') !! t
                 = default ∅ (acknowledged med) !! t)
         ∧ name med' = name med ∧ dosage med' = dosage med
         ∧ times med' = times med
         ∧ last_reminder_time med' = last_reminder_time med).
Proof.
  intros user_data meds lang today out Hsplit Hz.
  subst out. unfold callback_acknowledge. rewrite Hsplit.
  rewrite decide_False by (by intros ?).
  fold user_data. rewrite Hz. fold meds lang. unfold today_str. fold today.
  split.
  - intros Hnone.
    assert (acknowledge_first med_name med_time today meds = None) as ->; [|done].
    by apply acknowledge_first_None.
  - intros before med after Hmeds Hbefore Hname Htime.
    exists (set_medications (before ++ mark_acknowledged med_time today med :: after)
              user_data), (mark_acknowledged med_time today med).
    rewrite Hmeds, (acknowledge_first_Some med_name med_time today before after med);
      [| done | by split].
    unfold save_and_answer, save_user_data. cbn [table_after saved answer].
    rewrite lookup_insert_eq. split_and!; try done.
    + clearbody user_data. unfold get_user_data. rewrite lookup_insert_eq.
      cbn. by destruct (language user_data).
    + cbn. by rewrite lookup_insert_eq.
    + intros t Ht. cbn. by rewrite lookup_insert_ne.
Qed.

(** C5.  Acknowledging twice with the same arguments, at two instants of
    the same local date, leaves the table exactly as acknowledging once
    does; the second call writes the same item and gives the same answer
    as the first. *)
Theorem C5_acknowledge_idempotent `{PyLib} (now1 now2 : Z) (tbl : table)
    (chat_id data original_text : string) :
  let once := callback_acknowledge now1 tbl chat_id data original_text in
  let twice :=
    callback_acknowledge now2 (table_after once) chat_id data original_text in
  (∀ tz, zone_or_utc (default "UTC" (timezone (get_user_data tbl chat_id))) = Some tz →
         strftime_Ymd (dt_date (astimezone now2 tz))
         = strftime_Ymd (dt_date (astimezone now1 tz))) →
  table_after twice = table_after once
  ∧ saved twice = saved once
  ∧ answer twice = answer once.
Proof.
  intros once twice Hday. subst twice once. unfold callback_acknowledge.
  destruct (split "|" data) as [|a [|med_name [|med_time [|]]]] eqn:Hsplit;
    try done.
  destruct (decide (a ≠ "ack")) as [Hne | Heq]; [done|].
  destruct (zone_or_utc (default "UTC" (timezone (get_user_data tbl chat_id))))
    as [tz|] eqn:Hz; cbn; [|by rewrite Hz].
  unfold today_str in *. specialize (Hday tz eq_refl).
  destruct (acknowledge_first med_name med_time _
              (default [] (medications (get_user_data tbl chat_id))))
    as [meds'|] eqn:Hfirst; cbn.
  - rewrite get_user_data_saved by (cbn; apply get_user_data_language).
    cbn. rewrite Hz, Hday.
    rewrite (acknowledge_first_again _ _ _ _ _ Hfirst). cbn.
    unfold save_user_data, set_medications; cbn.
    by rewrite insert_insert_eq.
  - by rewrite Hz, Hday, Hfirst.
Qed.

(** C6, as stated, fails: with "Aspirin" in the list, [/addmedicine
    aspirin 1 10:00] stores a second entry whose name is equal up to
    case. *)
Lemma C6_add_medicine_duplicates :
  @unique_names Concrete.py Scenario.tbl "42"
  ∧ ¬ @unique_names Concrete.py
        (table_after (add_medicine Scenario.tbl "42"
                        ["aspirin"; "1"; "10:00"])) "42".
Proof.
  split.
  - unfold unique_names. vm_compute. apply NoDup_singleton.
  - unfold unique_names. vm_compute. intros Hnd.
    apply NoDup_cons in Hnd as [Hnotin _]. apply Hnotin. left.
Qed.

(** C6, amended.  The name of a medication is the key by which
    [delete_medicine] and the acknowledgment handler find it, compared up
    to case.  When the names of a chat are unique up to case, they stay so
    after [delete_medicine], [set_timezone], [set_language], the
    acknowledgment handler (for any chat) and the sweep.  [add_medicine]
    does not look at the names already there: called for the same chat
    with a name, a dosage and at least one time, it leaves the names
    unique exactly when the new name differs up to case from every name
    of the list. *)
Theorem C6_names_stay_unique_except_add `{PyLib} (tbl : table) (k : string) :
  unique_names tbl k →
  (∀ k' args, unique_names (table_after (delete_medicine tbl k' args)) k)
  ∧ (∀ k' args, unique_names (table_after (set_timezone tbl k' args)) k)
  ∧ (∀ k' args, unique_names (table_after (set_language tbl k' args)) k)
  ∧ (∀ now_utc k' data text,
       unique_names (table_after (callback_acknowledge now_utc tbl k' data text)) k)
  ∧ (∀ now_utc, unique_names (sweep_table (send_reminders_async now_utc tbl)) k)
  ∧ (∀ k' args, k' ≠ k → unique_names (table_after (add_medicine tbl k' args)) k)
  ∧ (∀ medicine_name dosage t ts,
       unique_names
         (table_after (add_medicine tbl k (medicine_name :: dosage :: t :: ts))) k
       ↔ lower medicine_name ∉ lowered_names (stored_medications tbl k)).
Proof.
  intros Hu. split_and!.
  - intros k' args. unfold delete_medicine.
    destruct args as [|medicine_name rest]; [done|].
    case_decide; [done|]. simpl. apply unique_names_insert; [done|].
    intros ->. simpl. eapply sublist_NoDup; [exact Hu|].
    apply lowered_names_filter.
  - intros k' args. unfold set_timezone. destruct args as [|tz rest]; [done|].
    simpl. apply unique_names_insert; [done|]. by intros ->.
  - intros k' args. unfold set_language. destruct args as [|arg rest]; [done|].
    destruct (bool_decide _); [done|].
    simpl. apply unique_names_insert; [done|]. by intros ->.
  - intros now_utc k' data text. unfold callback_acknowledge.
    destruct (split "|" data) as [|a [|med_name [|med_time [|]]]]; try done.
    case_decide; [done|].
    destruct (zone_or_utc _) as [tz|]; [|done].
    destruct (acknowledge_first _ _ _ _) as [meds'|] eqn:Hfirst; [|done].
    simpl. apply unique_names_insert; [done|]. intros ->. simpl.
    by rewrite (acknowledge_first_names _ _ _ _ _ Hfirst).
  - intros now_utc. unfold send_reminders_async.
    destruct (sweep_users_spec now_utc (map_to_list tbl) tbl [] [])
      as (new & _ & -> & Hs & Hall).
    assert (NoDup new.*1) as Hnd.
    { eapply sublist_NoDup; [|exact Hs]. apply NoDup_fst_map_to_list. }
    unfold unique_names in *.
    destruct (decide (k ∈ new.*1)) as [Hin | Hnotin].
    + apply list_elem_of_fmap in Hin as ([k' u'] & Hk' & Hin). simpl in Hk'. subst k'.
      destruct (Hall k u' Hin) as (u & tz & Hscan & _ & _ & ->).
      apply elem_of_map_to_list in Hscan.
      rewrite (stored_medications_lookup _ k (user_after now_utc tz k u))
        by (by apply foldl_put_lookup_in).
      rewrite (stored_medications_lookup tbl k u) in Hu by done.
      rewrite user_after_medications.
      destruct (medications u) as [meds|]; simpl in *; [|done].
      by rewrite lowered_names_med_after.
    + unfold stored_medications in *.
      by rewrite get_user_data_medications, foldl_put_lookup_notin,
        <- get_user_data_medications.
  - intros k' args Hne. unfold add_medicine.
    destruct args as [|a [|b [|c rest]]]; try done.
    destruct (medications _); [|done].
    simpl. apply unique_names_insert; [done|]. by intros ->.
  - intros medicine_name dosage t ts. unfold add_medicine.
    unfold unique_names in *.
    destruct (medications (get_user_data tbl k)) as [meds|] eqn:Hmeds.
    + assert (stored_medications tbl k = meds) as Hsm.
      { unfold stored_medications. by rewrite Hmeds. }
      rewrite Hsm in *.
      cbn [table_after save_and_answer save_user_data].
      rewrite stored_medications_insert_eq.
      cbn [medications set_medications default from_option].
      unfold lowered_names, id in *. rewrite fmap_app. cbn [fmap list_fmap].
      rewrite NoDup_app. split.
      * intros (_ & Hdisj & _) Hin. apply (Hdisj _ Hin). left.
      * intros Hnotin. split_and!; [done | | apply NoDup_singleton].
        intros x Hx ->%list_elem_of_singleton. done.
    + assert (stored_medications tbl k = []) as Hsm.
      { unfold stored_medications. by rewrite Hmeds. }
      cbn [table_after]. rewrite Hsm. split; [|intros _; apply NoDup_nil_2].
      by intros _ ?%elem_of_nil.
Qed.

(** C7, as stated, fails: [/setlanguage de] on a fresh table writes
    nothing, so no stored record carries ["de"]. *)
Lemma C7_set_language_validates :
  ¬ language_overwritten (H := Concrete.py) ∅ "42" "de".
Proof. intros (u & Hu & _). vm_compute in Hu. discriminate. Qed.

(** C7, amended.  [set_timezone], given an argument, stores that argument
    as the time zone of the chat, whatever the argument is: the item
    written and stored has it as its ["timezone"], and the medications
    and the language of before.  [set_language] lower-cases its argument;
    when the result is ["ru"] or ["en"] the item written and stored has it
    as its ["language"], and the time zone and the medications of before;
    otherwise the handler answers with the usage message and writes
    nothing. *)
Theorem C7_settings_overwrite `{PyLib} (tbl : table) (chat_id arg : string)
    (rest : list string) :
  let user_data := get_user_data tbl chat_id in
  let lang := default "ru" (language user_data) in
  let zone_set := set_timezone tbl chat_id (arg :: rest) in
  let language_set := set_language tbl chat_id (arg :: rest) in
  (∃ u', table_after zone_set !! chat_id = Some u'
       ∧ saved zone_set = [(chat_id, u')]
       ∧ timezone u' = Some arg
       ∧ medications u' = medications user_data
       ∧ language u' = language user_data
       ∧ timezone (get_user_data (table_after zone_set) chat_id) = Some arg
       ∧ answer zone_set
         = Some (reply_text (get_msg "timezone_set" lang [("timezone", arg)])))
  ∧ (lower arg = "ru" ∨ lower arg = "en" →
     ∃ u', table_after language_set !! chat_id = Some u'
         ∧ saved language_set = [(chat_id, u')]
         ∧ language u' = Some (lower arg)
         ∧ timezone u' = timezone user_data
         ∧ medications u' = medications user_data
         ∧ language (get_user_data (table_after language_set) chat_id)
           = Some (lower arg)
         ∧ answer language_set
           = Some (reply_text (get_msg "language_set" (lower arg) [])))
  ∧ (lower arg ≠ "ru" → lower arg ≠ "en" →
     language_set
     = {| table_after := tbl; saved := [];
          answer := Some (reply_text (get_msg "setlanguage_usage" lang [])) |}).
Proof.
  intros user_data lang zone_set language_set. split_and!.
  - exists (set_timezone_field arg user_data).
    unfold zone_set, set_timezone, save_and_answer, save_user_data.
    cbn [table_after saved answer]. fold user_data lang.
    rewrite lookup_insert_eq. split_and!; try done.
    clearbody user_data. unfold get_user_data. rewrite lookup_insert_eq.
    cbn. by destruct (language user_data).
  - intros Hok. exists (set_language_field (lower arg) user_data).
    unfold language_set, set_language. fold user_data.
    rewrite bool_decide_eq_false_2.
    2:{ intros Hnot. apply Hnot. rewrite !elem_of_cons. tauto. }
    unfold save_and_answer, save_user_data. cbn [table_after saved answer].
    rewrite lookup_insert_eq. split_and!; try done.
    clearbody user_data. unfold get_user_data. by rewrite lookup_insert_eq.
  - intros Hru Hen. unfold language_set, set_language. fold user_data lang.
    rewrite bool_decide_eq_true_2; [done|].
    rewrite !elem_of_cons, elem_of_nil. tauto.
Qed.

(** C8.  When the time zone stored for a user does not resolve (and "UTC"
    does), the sweep neither raises nor skips the user: it returns, and
    the user's reminders and record are those computed with the wall clock
    of UTC.  The acknowledgment handler answers as well, and the date it
    writes is the date of UTC. *)
Theorem C8_unresolved_zone_falls_back_to_utc `{PyLib} (now_utc : Z) (tbl : table)
    (k : string) (u : user_data) (tz_str : string) (utc : tzinfo) :
  ZoneInfo "UTC" = Some utc →
  tbl !! k = Some u →
  timezone u = Some tz_str →
  ZoneInfo tz_str = None →
  (∃ tasks,
     sweep_end (send_reminders_async now_utc tbl) = gathered tasks
     ∧ (∀ x, x ∈ user_tasks now_utc utc k u → x ∈ tasks)
     ∧ sweep_table (send_reminders_async now_utc tbl) !! k
       = Some (user_after now_utc utc k u))
  ∧ (∀ data original_text med_name med_time,
       split "|" data = ["ack"; med_name; med_time] →
       let user_data := get_user_data tbl k in
       let lang := default "ru" (language user_data) in
       let today := strftime_Ymd (dt_date (astimezone now_utc utc)) in
       let out := callback_acknowledge now_utc tbl k data original_text in
       is_Some (answer out)
       ∧ out = match acknowledge_first med_name med_time today
                       (default [] (medications user_data)) with
               | Some medications' =>
                   save_and_answer tbl k (set_medications medications' user_data)
                     (edit_message_text (Some original_text)
                        (get_msg "acknowledged_success" lang []))
               | None =>
                   answer_only tbl
                     (edit_message_text None
                        (get_msg "medicine_for_ack_not_found" lang []))
               end).
Proof.
  intros Hutc Hk Htz Hbad.
  assert (zone_or_utc (default "UTC" (timezone u)) = Some utc) as Hz.
  { unfold zone_or_utc. rewrite Htz. simpl. by rewrite Hbad. }
  split.
  - unfold send_reminders_async.
    destruct (sweep_users_returns now_utc (map_to_list tbl) (mk_is_Some _ _ Hutc)
                tbl [] []) as [tasks Hend].
    assert ((k, u) ∈ map_to_list tbl) as Hscan by (by apply elem_of_map_to_list).
    exists tasks. split_and!; [done | |].
    + by apply (sweep_users_tasks now_utc _ _ _ _ _ Hend k u utc Hscan Hz).
    + destruct (sweep_users_gathered now_utc _ _ _ _ _ Hend k u Hscan)
        as (tz' & Hz' & Hput).
      assert (tz' = utc) as -> by congruence.
      destruct (sweep_users_spec now_utc (map_to_list tbl) tbl [] [])
        as (new & Hp & Ht & Hs & Hall).
      assert (NoDup new.*1) as Hnd.
      { eapply sublist_NoDup; [|exact Hs]. apply NoDup_fst_map_to_list. }
      rewrite Hp in Hput. simpl in Hput. rewrite Ht.
      destruct (decide (user_tasks now_utc utc k u = [])) as [Hquiet | Hbusy].
      * rewrite user_after_quiet by done.
        rewrite foldl_put_lookup_notin; [done|].
        intros ([k' u'] & Hk' & Hin)%list_elem_of_fmap. simpl in Hk'. subst k'.
        destruct (Hall k u' Hin) as (u0 & tz0 & Hscan0 & Hz0 & Hne & _).
        apply elem_of_map_to_list in Hscan0.
        assert (u0 = u) as -> by congruence.
        assert (tz0 = utc) as -> by congruence. done.
      * apply foldl_put_lookup_in; [done|]. by apply Hput.
  - intros data original_text med_name med_time Hsplit user_data lang today out.
    assert (timezone user_data = Some tz_str) as Htz'.
    { subst user_data. unfold get_user_data. rewrite Hk. simpl.
      by destruct (language u). }
    subst out. unfold callback_acknowledge. rewrite Hsplit.
    rewrite decide_False by (by intros ?).
    fold user_data. rewrite Htz'. rewrite Htz in Hz. simpl in Hz. simpl.
    rewrite Hz. unfold today_str. fold today lang.
    split; [|done]. by destruct (acknowledge_first _ _ _ _).
Qed.

(** C9.  [delete_medicine], given a name, keeps exactly the medications
    whose name differs from it up to case, each one whole and in the
    original order.  When some name matches, the item written and stored
    has that list as its medications, so no medication of that name is
    left in the table, and the time zone and the language of before; when
    no medication's name matches the handler answers not-found and writes
    nothing. *)
Theorem C9_delete_removes_every_match `{PyLib} (tbl : table)
    (chat_id medicine_name : string) (rest : list string) :
  let user_data := get_user_data tbl chat_id in
  let meds := default [] (medications user_data) in
  let lang := default "ru" (language user_data) in
  let kept := List.filter (other_name medicine_name) meds in
  let out := delete_medicine tbl chat_id (medicine_name :: rest) in
  (kept `sublist_of` meds
   ∧ ∀ med, med ∈ kept ↔
       med ∈ meds ∧ lower (default "" (name med)) ≠ lower medicine_name)
  ∧ ((∃ med, med ∈ meds ∧ lower (default "" (name med)) = lower medicine_name) →
     (∃ u', table_after out !! chat_id = Some u'
          ∧ saved out = [(chat_id, u')]
          ∧ medications u' = Some kept
          ∧ timezone u' = timezone user_data
          ∧ language u' = language user_data)
     ∧ stored_medications (table_after out) chat_id = kept
     ∧ (∀ med, med ∈ stored_medications (table_after out) chat_id →
               lower (default "" (name med)) ≠ lower medicine_name)
     ∧ (∀ med, med ∈ meds →
               lower (default "" (name med)) ≠ lower medicine_name →
               med ∈ stored_medications (table_after out) chat_id)
     ∧ answer out
       = Some (reply_text (get_msg "medicine_deleted" lang
                             [("medicine", medicine_name)])))
  ∧ ((∀ med, med ∈ meds → lower (default "" (name med)) ≠ lower medicine_name) →
     out = {| table_after := tbl; saved := [];
              answer := Some (reply_text (get_msg "medicine_not_found" lang
                                            [("medicine", medicine_name)])) |}).
Proof.
  intros user_data meds lang kept out.
  assert (∀ med, med ∈ kept ↔
            med ∈ meds ∧ lower (default "" (name med)) ≠ lower medicine_name)
    as Hkept.
  { intros med. subst kept. rewrite filter_elem_of. unfold other_name.
    by rewrite bool_decide_eq_true. }
  split_and!.
  - apply filter_sublist.
  - exact Hkept.
  - intros (med & Hin & Hname).
    assert (out = save_and_answer tbl chat_id (set_medications kept user_data)
                    (reply_text (get_msg "medicine_deleted" lang
                                   [("medicine", medicine_name)]))) as ->.
    { subst out. unfold delete_medicine. fold user_data meds kept.
      rewrite decide_False; [done|].
      subst kept. rewrite filter_keeps_all. intros Hall.
      specialize (Hall med Hin). unfold other_name in Hall.
      by apply bool_decide_eq_true in Hall. }
    unfold save_and_answer, save_user_data. cbn [table_after saved answer].
    assert (stored_medications (<[chat_id := set_medications kept user_data]> tbl)
              chat_id = kept) as Hstored.
    { clearbody kept user_data. unfold stored_medications, get_user_data.
      rewrite lookup_insert_eq. cbn. by destruct (language user_data). }
    rewrite Hstored, lookup_insert_eq. split_and!.
    + by exists (set_medications kept user_data).
    + done.
    + intros med' Hmed'. by apply Hkept in Hmed' as [_ ?].
    + intros med' Hmed' Hother. by apply Hkept.
    + done.
  - intros Hnone. subst out. unfold delete_medicine.
    fold user_data meds kept. rewrite decide_True; [done|].
    subst kept. apply filter_keeps_all. intros med Hin.
    unfold other_name. apply bool_decide_eq_true. by apply Hnone.
Qed.

(** C10.  In one sweep the record of a user is written at most once.  A
    write for the key [k] happens only when the sweep dispatched something
    for that user, it carries the record as it is after the loop over all
    the medications of the user, and that is the record the table then
    holds; the table changes by the writes only.  A user for whom nothing
    is dispatched is not written: the record is untouched and stays in the
    table as it was. *)
Theorem C10_one_write_per_modified_user `{PyLib} (now_utc : Z) (tbl : table)
    (k : string) :
  let r := send_reminders_async now_utc tbl in
  (List.length (filter (λ p, p.1 = k) (sweep_puts r)) <= 1)%nat
  ∧ sweep_table r = foldl put tbl (sweep_puts r)
  ∧ (∀ u', (k, u') ∈ sweep_puts r →
       ∃ u tz, tbl !! k = Some u
         ∧ zone_or_utc (default "UTC" (timezone u)) = Some tz
         ∧ user_tasks now_utc tz k u ≠ []
         ∧ u' = user_after now_utc tz k u
         ∧ medications u'
           = fmap (M := list)
               (med_after k (default "ru" (language u)) (astimezone now_utc tz))
             <$> medications u
         ∧ sweep_table r !! k = Some u')
  ∧ (∀ u tz, tbl !! k = Some u →
       zone_or_utc (default "UTC" (timezone u)) = Some tz →
       user_tasks now_utc tz k u = [] →
       (k ∉ (sweep_puts r).*1)
       ∧ sweep_table r !! k = Some u
       ∧ user_after now_utc tz k u = u).
Proof.
  intros r. subst r. unfold send_reminders_async.
  destruct (sweep_users_spec now_utc (map_to_list tbl) tbl [] [])
    as (new & Hp & Ht & Hs & Hall).
  rewrite Hp, Ht. simpl.
  assert (NoDup new.*1) as Hnd.
  { eapply sublist_NoDup; [|exact Hs]. apply NoDup_fst_map_to_list. }
  split_and!.
  - by apply writes_per_key.
  - done.
  - intros u' Hin. destruct (Hall k u' Hin) as (u & tz & Hscan & Hz & Hne & ->).
    apply elem_of_map_to_list in Hscan.
    exists u, tz. split_and!; [done..| |].
    + apply user_after_medications.
    + by apply foldl_put_lookup_in.
  - intros u tz Hk Hz Hquiet.
    assert (k ∉ new.*1) as Hnot.
    { intros ((k' & u') & Hk' & Hin)%list_elem_of_fmap. simpl in Hk'. subst k'.
      destruct (Hall k u' Hin) as (u0 & tz0 & Hscan & Hz0 & Hne & _).
      apply elem_of_map_to_list in Hscan.
      assert (u0 = u) as -> by congruence.
      assert (tz0 = tz) as -> by congruence. done. }
    split_and!; [done | | by apply user_after_quiet].
    by rewrite foldl_put_lookup_notin.
Qed.

(** * The claims at work on the scenario table *)


(** Three medications, "Aspirin" at 09:00, "aspirin" at 21:00 and
    "Metformin" at 09:00 and 21:00.  The sweep of 09:00 reminds of the
    first and the third; the sweep of 21:30 over the table it has stored
    reminds of the second only: nothing more for "Metformin", which the
    table holds stamped with 09:00. *)
Lemma C2_second_sweep_sends_nothing :
  let tasks1 := [@reminder "42" "ru" "Aspirin" Scenario.aspirin "09:00";
                 @reminder "42" "ru" "Metformin" Scenario.metformin "09:00"] in
  let tasks2 := [@reminder "42" "ru" "aspirin" Scenario2.aspirin_evening "21:00"] in
  let stored :=
    sweep_table (@send_reminders_async Concrete.py Scenario.at_09_00
                   Scenario2.twins_tbl) in
  sweep_end (@send_reminders_async Concrete.py Scenario.at_09_00
               Scenario2.twins_tbl) = gathered tasks1
  ∧ sweep_end (@send_reminders_async Concrete.py Scenario.at_21_30 stored)
    = gathered tasks2
  ∧ (∀ y, y ∈ tasks2 → reminds "42" "Metformin" y = false)
  ∧ ∃ u1 med1,
      stored !! "42" = Some u1
      ∧ med1 ∈ default [] (medications u1)
      ∧ named "Metformin" med1 = true
      ∧ last_reminder_time med1 = Some "2024-01-01T09:00:00+00:00".
Proof.
  intros tasks1 tasks2 stored.
  assert (sweep_end (@send_reminders_async Concrete.py Scenario.at_09_00
                       Scenario2.twins_tbl) = gathered tasks1) as Hend1.
  { vm_compute. reflexivity. }
  assert (sweep_end (@send_reminders_async Concrete.py Scenario.at_21_30 stored)
          = gathered tasks2) as Hend2.
  { vm_compute. reflexivity. }
  destruct (C2_at_most_once_per_local_day (H := Concrete.py)
              Scenario.at_09_00 Scenario.at_21_30 Scenario2.twins_tbl
              tasks1 tasks2 "42" Scenario2.twins_user Scenario.utc)
    as [_ Hzero].
  - reflexivity.
  - reflexivity.
  - eexists. split; vm_compute; reflexivity.
  - eexists. split; vm_compute; reflexivity.
  - vm_compute. reflexivity.
  - exact Hend1.
  - exact Hend2.
  - destruct (Hzero "Metformin"
                (@reminder "42" "ru" "Metformin" Scenario.metformin "09:00"))
      as [Hstamp Hnone].
    + right. left.
    + vm_compute. reflexivity.
    + split_and!; [exact Hend1 | exact Hend2 | | exact Hstamp].
      apply Hnone. vm_compute. reflexivity.
Defined.

(** Two doses, 09:00 and 21:00: the sweep of 09:00 reminds of the first,
    and at 21:30 the second is turned away as already sent. *)
Lemma C3_evening_dose_never_reminded :
  (@sweep_medication Concrete.py "42" "ru"
     (astimezone Scenario.at_09_00 Scenario.utc) Scenario.metformin [] false).1.2
  = [@reminder "42" "ru" "Metformin" Scenario.metformin "09:00"]
  ∧ @evaluate Concrete.py (astimezone Scenario.at_21_30 Scenario.utc) ∅
      (set_last_reminder_time "2024-01-01T09:00:00+00:00" Scenario.metformin)
      "21:00" = already_sent.
Proof.
  destruct (C3_one_stamp_hides_the_other_fire_times (H := Concrete.py)
              Scenario.at_09_00 Scenario.at_21_30 Scenario.utc "42" "ru"
              Scenario.metformin [] ["21:00"] "09:00" [] false)
    as (Hfirst & _ & Hlater).
  - reflexivity.
  - by intros t' ?%elem_of_nil.
  - vm_compute. reflexivity.
  - eexists. split; vm_compute; reflexivity.
  - vm_compute. reflexivity.
  - split.
    + by rewrite Hfirst.
    + apply (Hlater "21:00").
      * right. left.
      * vm_compute. discriminate.
Defined.

(** Among "Aspirin" at 09:00, "aspirin" at 21:00 and "Metformin", the
    button [ack|ASPIRIN|21:00] acknowledges the second entry and leaves
    the two others as they are; the button for 10:00, a time of no
    medication, writes nothing. *)
Lemma C4_press_the_button :
  (∃ med',
     default []
       (medications
          (get_user_data
             (table_after
                (@callback_acknowledge Concrete.py Scenario.at_09_05
                   Scenario2.twins_tbl "42" "ack|ASPIRIN|21:00" "Take it"))
             "42"))
     = [Scenario.aspirin; med'; Scenario.metformin]
     ∧ name med' = Some "aspirin"
     ∧ acknowledged med' = Some {[ "21:00" := "2024-01-01" ]})
  ∧ saved (@callback_acknowledge Concrete.py Scenario.at_09_05
             Scenario2.twins_tbl "42" "ack|aspirin|10:00" "Take it") = [].
Proof.
  split.
  - destruct (C4_acknowledge_found_or_untouched (H := Concrete.py)
                Scenario.at_09_05 Scenario2.twins_tbl "42" "ack|ASPIRIN|21:00"
                "Take it" "ASPIRIN" "21:00" Scenario.utc) as [_ Hfound].
    + reflexivity.
    + reflexivity.
    + destruct (Hfound [Scenario.aspirin] Scenario2.aspirin_evening
                  [Scenario.metformin])
        as (u' & med' & _ & _ & _ & _ & _ & _ & Hstored & Hack & _ & _ & Hname & _).
      * reflexivity.
      * intros m [-> | []%elem_of_nil]%elem_of_cons [_ Htime].
        apply elem_of_cons in Htime as [Habs | []%elem_of_nil]. discriminate.
      * reflexivity.
      * left.
      * exists med'. split_and!; [exact Hstored | exact Hname | exact Hack].
  - destruct (C4_acknowledge_found_or_untouched (H := Concrete.py)
                Scenario.at_09_05 Scenario2.twins_tbl "42" "ack|aspirin|10:00"
                "Take it" "aspirin" "10:00" Scenario.utc) as [Hmissing _].
    + reflexivity.
    + reflexivity.
    + rewrite Hmissing; [reflexivity|].
      intros med Hin [_ Htime].
      apply elem_of_cons in Hin as [-> | Hin];
        [|apply elem_of_cons in Hin as [-> | Hin];
          [|apply elem_of_cons in Hin as [-> | []%elem_of_nil]]];
        vm_compute in Htime;
        repeat (apply elem_of_cons in Htime as [Habs | Htime]; [discriminate|]);
        by apply elem_of_nil in Htime.
Defined.

(** Pressing the button at 09:00 and again at 09:05 leaves the table as
    the first press did. *)
Lemma C5_press_twice :
  table_after
    (@callback_acknowledge Concrete.py Scenario.at_09_05
       (table_after (@callback_acknowledge Concrete.py Scenario.at_09_00
                       Scenario.tbl "42" "ack|aspirin|09:00" "Take it"))
       "42" "ack|aspirin|09:00" "Take it")
  = table_after (@callback_acknowledge Concrete.py Scenario.at_09_00
                   Scenario.tbl "42" "ack|aspirin|09:00" "Take it").
Proof.
  apply (C5_acknowledge_idempotent (H := Concrete.py)
           Scenario.at_09_00 Scenario.at_09_05 Scenario.tbl "42"
           "ack|aspirin|09:00" "Take it").
  intros tz Hz. vm_compute in Hz. injection Hz as <-. vm_compute. reflexivity.
Defined.

(** In a list of three medications with unique names, the names stay
    unique after [/deletemedicine METFORMIN], after the sweep of 09:05
    and after [/addmedicine Ibuprofen 200mg 08:00], and they do not after
    [/addmedicine ASPIRIN 1 10:00]. *)
Lemma C6_three_medications :
  @unique_names Concrete.py
    (table_after (@delete_medicine Concrete.py Scenario2.busy_tbl "42"
                    ["METFORMIN"])) "42"
  ∧ @unique_names Concrete.py
      (sweep_table (@send_reminders_async Concrete.py Scenario.at_09_05
                      Scenario2.busy_tbl)) "42"
  ∧ @unique_names Concrete.py
      (table_after (add_medicine Scenario2.busy_tbl "42"
                      ["Ibuprofen"; "200mg"; "08:00"])) "42"
  ∧ ¬ @unique_names Concrete.py
        (table_after (add_medicine Scenario2.busy_tbl "42"
                        ["ASPIRIN"; "1"; "10:00"])) "42".
Proof.
  destruct (C6_names_stay_unique_except_add (H := Concrete.py)
              Scenario2.busy_tbl "42")
    as (Hdelete & _ & _ & _ & Hsweep & _ & Hadd).
  - unfold unique_names. apply (bool_decide_unpack _). vm_compute. exact I.
  - split_and!.
    + exact (Hdelete "42" ["METFORMIN"]).
    + exact (Hsweep Scenario.at_09_05).
    + apply (proj2 (Hadd "Ibuprofen" "200mg" "08:00" [])).
      apply (bool_decide_unpack _). vm_compute. exact I.
    + intros Hunique.
      apply (proj1 (Hadd "ASPIRIN" "1" "10:00" [])) in Hunique.
      apply Hunique. vm_compute. do 2 right. left.
Defined.

(** A user whose zone is "Mars/Olympus" is reminded at 09:00 UTC. *)
Lemma C8_mars_user_is_reminded :
  ∃ tasks,
    sweep_end (@send_reminders_async Concrete.py Scenario.at_09_00 Scenario.mars_tbl)
    = gathered tasks
    ∧ @reminder "7" "en" "Aspirin" Scenario.aspirin "09:00" ∈ tasks.
Proof.
  destruct (C8_unresolved_zone_falls_back_to_utc (H := Concrete.py)
              Scenario.at_09_00 Scenario.mars_tbl "7" Scenario.mars_user
              "Mars/Olympus" Scenario.utc) as [(tasks & Hend & Hin & _) _].
  - reflexivity.
  - reflexivity.
  - reflexivity.
  - reflexivity.
  - exists tasks. split; [exact Hend|]. apply Hin. vm_compute. left.
Defined.

(** [/setlanguage EN] stores "en", and [/settimezone Mars/Phobos] is
    stored as it is. *)
Lemma C7_upper_case_language :
  language (get_user_data
              (table_after (@set_language Concrete.py Scenario.tbl "42" ["EN"]))
              "42")
  = Some "en".
Proof.
  destruct (C7_settings_overwrite (H := Concrete.py) Scenario.tbl "42" "EN" [])
    as (_ & Hstored & _).
  destruct Hstored as (u' & _ & _ & _ & _ & _ & Hread & _).
  - right. reflexivity.
  - exact Hread.
Defined.

(** [/deletemedicine METFORMIN] in a list of three: the two others are
    what the table holds afterwards, whole and in their order. *)
Lemma C9_delete_one_of_three :
  stored_medications
    (table_after (@delete_medicine Concrete.py Scenario2.busy_tbl "42"
                    ["METFORMIN"])) "42"
  = [Scenario2.vitamin; Scenario.aspirin].
Proof.
  destruct (C9_delete_removes_every_match (H := Concrete.py) Scenario2.busy_tbl
              "42" "METFORMIN" []) as (_ & Hfound & _).
  destruct Hfound as (_ & Hstored & _).
  - exists Scenario.metformin. split; [left | reflexivity].
  - rewrite Hstored. reflexivity.
Defined.

(** Of three users, the one with nothing due at 09:00 UTC is not written. *)
Lemma C10_idle_user_not_written :
  "9" ∉ (sweep_puts (@send_reminders_async Concrete.py Scenario.at_09_00
                       Scenario.three_users)).*1.
Proof.
  destruct (C10_one_write_per_modified_user (H := Concrete.py) Scenario.at_09_00
              Scenario.three_users "9") as (_ & _ & _ & Hquiet).
  apply (Hquiet Scenario.idle_user (λ _, 10800)); reflexivity.
Defined.

(** * Further properties of [app.py] *)

(** ** Adding and deleting *)

Lemma filter_filter_same {A} (P : A → bool) (l : list A) :
  List.filter P (List.filter P l) = List.filter P l.
Proof.
  induction l as [|x l IH]; simpl; [done|].
  destruct (P x) eqn:HP; simpl; [|done]. by rewrite HP, IH.
Qed.

Lemma filter_app_one {A} (P : A → bool) (l : list A) (x : A) :
  List.filter P (l ++ [x]) = List.filter P l ++ (if P x then [x] else []).
Proof. rewrite List.filter_app. done. Qed.

Lemma get_user_data_fields (tbl : table) (k : string) (u : user_data) :
  tbl !! k = Some u →
  timezone (get_user_data tbl k) = timezone u
  ∧ medications (get_user_data tbl k) = medications u
  ∧ language (get_user_data tbl k) = Some (default "ru" (language u)).
Proof.
  intros Hk. unfold get_user_data. rewrite Hk. simpl.
  by destruct u as [tz meds [l|]].
Qed.

Lemma get_user_data_saved_medications (tbl : table) (k : string)
    (meds : list medication) :
  get_user_data (save_user_data k (set_medications meds (get_user_data tbl k)) tbl) k
  = set_medications meds (get_user_data tbl k).
Proof. apply get_user_data_saved. apply get_user_data_language. Qed.

(** The loop over the fire times keeps what is gathered and reaches the
    first due time of the list. *)
Lemma foldl_remind_at_keeps `{PyLib} (chat_id lang : string)
    (now_local : datetime) (med_name : string)
    (acknowledged : gmap string string) (ts : list string) (st : sweep_state)
    (x : task) :
  x ∈ st.1.2 →
  x ∈ (foldl (remind_at chat_id lang now_local med_name acknowledged) st ts).1.2.
Proof.
  revert st. induction ts as [|t ts IH]; intros st Hx; [done|].
  cbn [foldl]. apply IH. destruct st as [[med tasks] um].
  destruct (remind_at_cases chat_id lang now_local med_name acknowledged
              med tasks um t) as [[_ ->] | [_ ->]]; [|done].
  simpl in *. apply elem_of_app. by left.
Qed.

Lemma foldl_remind_at_complete `{PyLib} (chat_id lang : string)
    (now_local : datetime) (med_name : string)
    (acknowledged : gmap string string) (before after : list string)
    (t : string) (med : medication) (tasks : list task) (um : bool) :
  (∀ t', t' ∈ before → evaluate now_local acknowledged med t' ≠ due) →
  evaluate now_local acknowledged med t = due →
  reminder chat_id lang med_name med t
  ∈ (foldl (remind_at chat_id lang now_local med_name acknowledged)
           (med, tasks, um) (before ++ t :: after)).1.2.
Proof.
  intros Hbefore Hdue. induction before as [|t0 before IH]; cbn [app foldl].
  - apply foldl_remind_at_keeps.
    destruct (remind_at_cases chat_id lang now_local med_name acknowledged
                med tasks um t) as [[_ ->] | [Hno _]]; [|done].
    simpl. apply elem_of_app. right. left.
  - destruct (remind_at_cases chat_id lang now_local med_name acknowledged
                med tasks um t0) as [[Hyes _] | [_ ->]].
    + exfalso. apply (Hbefore t0); [left | done].
    + apply IH. intros t' Ht'. apply Hbefore. by right.
Qed.

(** X2.  [add_medicine] with fewer than three arguments answers with the
    usage message and writes nothing; on an item without the attribute
    "medications" it raises and writes nothing.  With a name, a dosage
    and at least one time, the item it writes and stores has the
    medications of before followed by one new entry, and the time zone and
    the language of before.  The new entry has no acknowledgment and no
    stamp: the next sweep that returns reminds of it for the first of its
    times that parses and has been reached, also when the medication was
    added later in the day than that time. *)
Theorem X2_add_medicine_appends_one_entry `{PyLib} (tbl : table) (k : string)
    (args : list string) :
  let user_data := get_user_data tbl k in
  let lang := default "ru" (language user_data) in
  let out := add_medicine tbl k args in
  ((List.length args < 3)%nat →
   out = {| table_after := tbl; saved := [];
            answer := Some (reply_text (get_msg "addmedicine_usage" lang [])) |})
  ∧ (∀ n d t ts, args = n :: d :: t :: ts →
       let new := {| name := Some n; dosage := Some d; times := Some (t :: ts);
                     acknowledged := Some ∅; last_reminder_time := None |} in
       (medications user_data = None →
        out = {| table_after := tbl; saved := []; answer := None |})
       ∧ (∀ meds, medications user_data = Some meds →
            (∃ u', table_after out !! k = Some u'
                 ∧ saved out = [(k, u')]
                 ∧ medications u' = Some (meds ++ [new])
                 ∧ timezone u' = timezone user_data
                 ∧ language u' = language user_data)
            ∧ stored_medications (table_after out) k = meds ++ [new]
            ∧ timezone (get_user_data (table_after out) k) = timezone user_data
            ∧ language (get_user_data (table_after out) k) = language user_data
            ∧ ∀ now_utc tz tasks before t' after h m,
                t :: ts = before ++ t' :: after →
                (∀ t0 h0 m0, t0 ∈ before → strptime_HM t0 = Some (h0, m0) →
                             ¬ reached (astimezone now_utc tz) h0 m0) →
                strptime_HM t' = Some (h, m) →
                reached (astimezone now_utc tz) h m →
                zone_or_utc (default "UTC" (timezone user_data)) = Some tz →
                sweep_end (send_reminders_async now_utc (table_after out))
                = gathered tasks →
                reminder k lang n new t' ∈ tasks)).
Proof.
  intros user_data lang out. split.
  - intros Hlen. subst out. unfold add_medicine. fold user_data lang.
    destruct args as [|a [|b [|c rest]]]; simpl in Hlen; try done. lia.
  - intros n d t ts -> new. split.
    { intros Hnone. subst out. unfold add_medicine. fold user_data.
      by rewrite Hnone. }
    intros meds Hmeds.
    set (u' := set_medications (meds ++ [new]) user_data).
    assert (table_after out = <[k := u']> tbl ∧ saved out = [(k, u')])
      as [Htable Hsaved].
    { subst out. unfold add_medicine. fold user_data lang. by rewrite Hmeds. }
    assert (get_user_data (table_after out) k = u') as Hget.
    { rewrite Htable. apply get_user_data_saved. simpl.
      apply get_user_data_language. }
    rewrite Hsaved. unfold stored_medications. rewrite Hget, Htable.
    rewrite lookup_insert_eq. split_and!; try done.
    { by exists u'. }
    intros now_utc tz tasks before t' after h m Htimes Hbefore Hparse Hreached
      Hz Hend.
    unfold send_reminders_async in Hend.
    assert (reminder k (default "ru" (language u')) (default "" (name new)) new t'
            ∈ tasks) as Hin; [|exact Hin].
    apply (sweep_users_tasks now_utc _ _ _ _ _ Hend k u' tz).
    + apply elem_of_map_to_list. apply lookup_insert_eq.
    + done.
    + rewrite user_tasks_concat. apply elem_of_concat.
      exists (med_tasks k (default "ru" (language u'))
                (astimezone now_utc tz) new).
      split.
      * unfold med_tasks, sweep_medication. cbn [times new default].
        rewrite Htimes. apply foldl_remind_at_complete.
        -- intros t0 Ht0 Hdue. apply evaluate_due_iff in Hdue.
           destruct Hdue as (_ & _ & h0 & m0 & Hp0 & Hr0).
           by apply (Hbefore t0 h0 m0).
        -- apply evaluate_due_iff. unfold due_conditions. split_and!.
           ++ unfold new. cbn [acknowledged from_option id]. by rewrite lookup_empty.
           ++ by intros s dt [=].
           ++ by exists h, m.
      * apply list_elem_of_fmap. exists new. split; [done|].
        simpl. apply elem_of_app. right. left.
Qed.

(** X3.  Adding a medication and then deleting by its name, written in
    any case, leaves the chat with its former medications minus those whose
    name equals the new one up to case: the former list itself when no
    older entry had that name.  The second call answers that the
    medication was deleted. *)
Theorem X3_add_then_delete `{PyLib} (tbl : table) (k n n' d t : string)
    (ts rest : list string) :
  let lang := default "ru" (language (get_user_data tbl k)) in
  let added := table_after (add_medicine tbl k (n :: d :: t :: ts)) in
  let out := delete_medicine added k (n' :: rest) in
  is_Some (medications (get_user_data tbl k)) →
  lower n' = lower n →
  stored_medications (table_after out) k
  = List.filter (other_name n') (stored_medications tbl k)
  ∧ answer out
    = Some (reply_text (get_msg "medicine_deleted" lang [("medicine", n')]))
  ∧ ((∀ med, med ∈ stored_medications tbl k →
             lower (default "" (name med)) ≠ lower n) →
     stored_medications (table_after out) k = stored_medications tbl k).
Proof.
  intros lang added out [meds Hmeds] Hlower.
  assert (stored_medications tbl k = meds) as Hstored.
  { unfold stored_medications. by rewrite Hmeds. }
  set (new := {| name := Some n; dosage := Some d; times := Some (t :: ts);
                 acknowledged := Some ∅; last_reminder_time := None |}).
  set (user' := set_medications (meds ++ [new]) (get_user_data tbl k)).
  assert (added = <[k := user']> tbl) as Hadded.
  { subst added. unfold add_medicine. by rewrite Hmeds. }
  assert (get_user_data added k = user') as Hget.
  { rewrite Hadded. apply get_user_data_saved. simpl. apply get_user_data_language. }
  assert (List.filter (other_name n') (meds ++ [new]) = List.filter (other_name n') meds)
    as Hfilter.
  { rewrite filter_app_one. unfold other_name at 2. simpl.
    rewrite bool_decide_eq_false_2 by (by intros Hne; apply Hne).
    by rewrite app_nil_r. }
  assert (out = save_and_answer added k
                  (set_medications (List.filter (other_name n') meds) user')
                  (reply_text (get_msg "medicine_deleted" lang [("medicine", n')])))
    as Hout.
  { subst out. unfold delete_medicine. rewrite Hget. simpl. rewrite Hfilter.
    rewrite decide_False; [done|].
    pose proof (List.filter_length_le (other_name n') meds).
    rewrite length_app. simpl. lia. }
  rewrite Hout, Hstored. cbn [table_after answer save_and_answer save_user_data].
  rewrite stored_medications_insert_eq. simpl. split_and!; [done..|].
  intros Hnone. clear -Hnone Hlower. induction meds as [|med meds IH]; simpl; [done|].
  unfold other_name at 1. rewrite bool_decide_eq_true_2.
  - f_equal. apply IH. intros m Hm. apply Hnone. by right.
  - rewrite Hlower. apply Hnone. left.
Qed.

(** X4.  Deleting the same name a second time finds nothing: the answer
    is not-found and nothing is written, whatever the first call did. *)
Theorem X4_delete_again_finds_nothing `{PyLib} (tbl : table) (k n : string)
    (rest rest' : list string) :
  let lang := default "ru" (language (get_user_data tbl k)) in
  let once := table_after (delete_medicine tbl k (n :: rest)) in
  delete_medicine once k (n :: rest')
  = {| table_after := once; saved := [];
       answer := Some (reply_text (get_msg "medicine_not_found" lang
                                     [("medicine", n)])) |}.
Proof.
  intros lang once. subst once. unfold delete_medicine at 2 3.
  set (meds := default [] (medications (get_user_data tbl k))).
  destruct (decide (List.length (List.filter (other_name n) meds) = List.length meds))
    as [Hlen | Hlen]; cbn [table_after answer_only save_and_answer].
  - unfold delete_medicine. fold meds. by rewrite decide_True.
  - unfold delete_medicine.
    rewrite get_user_data_saved_medications.
    cbn [medications set_medications language default from_option].
    unfold id. rewrite filter_filter_same. by rewrite decide_True.
Qed.

(** X5.  Once a name is deleted, the acknowledgment handler finds no
    medication under it, up to case and whatever the fire time: the
    button of an old reminder gets the not-found answer and writes
    nothing. *)
Theorem X5_delete_then_acknowledge `{PyLib} (now_utc : Z) (tbl : table)
    (k n n' t data original_text : string) (rest : list string) (tz : tzinfo) :
  let lang := default "ru" (language (get_user_data tbl k)) in
  let deleted := table_after (delete_medicine tbl k (n :: rest)) in
  split "|" data = ["ack"; n'; t] →
  lower n' = lower n →
  zone_or_utc (default "UTC" (timezone (get_user_data tbl k))) = Some tz →
  callback_acknowledge now_utc deleted k data original_text
  = {| table_after := deleted; saved := [];
       answer := Some (edit_message_text None
                         (get_msg "medicine_for_ack_not_found" lang [])) |}.
Proof.
  intros lang deleted Hsplit Hname Hz.
  assert (timezone (get_user_data deleted k) = timezone (get_user_data tbl k)
          ∧ language (get_user_data deleted k) = language (get_user_data tbl k)
          ∧ ∀ med, med ∈ default [] (medications (get_user_data deleted k)) →
                   lower (default "" (name med)) ≠ lower n) as (Htz & Hl & Hnone).
  { subst deleted. unfold delete_medicine.
    set (meds := default [] (medications (get_user_data tbl k))).
    case_decide as Hlen; cbn [table_after answer_only save_and_answer].
    - split_and!; [done..|]. fold meds. intros med Hmed.
      pose proof (proj1 (filter_keeps_all _ _) Hlen med Hmed) as Hkept.
      clear Hlen. rename Hkept into Hlen.
      unfold other_name in Hlen. by apply bool_decide_eq_true in Hlen.
    - rewrite get_user_data_saved_medications.
      split_and!; [done..|]. simpl. intros med [_ Hmed]%filter_elem_of.
      unfold other_name in Hmed. by apply bool_decide_eq_true in Hmed. }
  unfold callback_acknowledge. rewrite Hsplit.
  rewrite decide_False by (by intros ?). rewrite Htz, Hz, Hl. fold lang.
  assert (∀ today, acknowledge_first n' t today
                     (default [] (medications (get_user_data deleted k))) = None)
    as ->; [|done].
  intros today. apply acknowledge_first_None.
  intros med Hmed [Hn _]. apply (Hnone med Hmed). congruence.
Qed.

(** ** What a handler may touch *)

Lemma answer_only_touches (tbl : table) (k : string) (r : reply) :
  touches_only_chat tbl k (answer_only tbl r).
Proof. by left. Qed.

Lemma save_and_answer_touches (tbl : table) (k : string) (u : user_data)
    (r : reply) :
  touches_only_chat tbl k (save_and_answer tbl k u r).
Proof. right. by exists u. Qed.

Lemma touches_only_chat_others (tbl : table) (k k' : string) (out : outcome) :
  touches_only_chat tbl k out → k' ≠ k → table_after out !! k' = tbl !! k'.
Proof.
  intros [[_ ->] | (u & _ & ->)] Hne; [done|]. by rewrite lookup_insert_ne.
Qed.

(** X6.  Every handler called for a chat writes at most one item, the
    item of that chat, and the table changes by that write only: the
    items of all other chats stay as they are.  [start] and [echo] write
    nothing at all. *)
Theorem X6_handlers_touch_one_chat `{PyLib} (now_utc : Z) (tbl : table)
    (k data text : string) (args : list string) :
  Forall (λ out, touches_only_chat tbl k out
                 ∧ ∀ k', k' ≠ k → table_after out !! k' = tbl !! k')
         [add_medicine tbl k args; delete_medicine tbl k args;
          set_timezone tbl k args; set_language tbl k args;
          callback_acknowledge now_utc tbl k data text]
  ∧ Forall (λ out, saved out = [] ∧ table_after out = tbl)
           [start tbl k; echo tbl k text].
Proof.
  assert (∀ out, touches_only_chat tbl k out →
            touches_only_chat tbl k out
            ∧ ∀ k', k' ≠ k → table_after out !! k' = tbl !! k') as Hboth.
  { intros out Hout. split; [done|]. intros k' Hne.
    by apply (touches_only_chat_others tbl k). }
  split; [|by repeat constructor].
  repeat apply Forall_cons_2; [..|apply Forall_nil_2]; apply Hboth.
  - unfold add_medicine. destruct args as [|a [|b [|c rest]]];
      try apply answer_only_touches.
    destruct (medications _); [apply save_and_answer_touches | by left].
  - unfold delete_medicine. destruct args; [apply answer_only_touches|].
    case_decide; [apply answer_only_touches | apply save_and_answer_touches].
  - unfold set_timezone. destruct args;
      [apply answer_only_touches | apply save_and_answer_touches].
  - unfold set_language. destruct args; [apply answer_only_touches|].
    destruct (_ || _) eqn:E || destruct (bool_decide _);
      [apply answer_only_touches | apply save_and_answer_touches].
  - unfold callback_acknowledge.
    destruct (split "|" data) as [|a [|b [|c [|]]]]; try apply answer_only_touches.
    case_decide; [apply answer_only_touches|].
    destruct (zone_or_utc _); [|by left].
    destruct (acknowledge_first _ _ _ _);
      [apply save_and_answer_touches | apply answer_only_touches].
Qed.

(** ** What the sweep changes, and what it sends *)

Section SweepMore.
Context `{PyLib}.

Lemma remind_at_same_but_stamp (chat_id lang : string) (now_local : datetime)
    (med_name : string) (acknowledged : gmap string string)
    (st : sweep_state) (t : string) :
  let st' := remind_at chat_id lang now_local med_name acknowledged st t in
  same_but_stamp st.1.1 st'.1.1
  ∧ (last_reminder_time st'.1.1 = last_reminder_time st.1.1
     ∨ last_reminder_time st'.1.1 = Some (isoformat now_local)).
Proof.
  destruct st as [[med tasks] um]. cbv zeta.
  destruct (remind_at_cases chat_id lang now_local med_name acknowledged
              med tasks um t) as [[_ ->] | [_ ->]]; simpl.
  - split; [done | by right].
  - split; [done | by left].
Qed.

Lemma foldl_remind_at_same_but_stamp (chat_id lang : string)
    (now_local : datetime) (med_name : string)
    (acknowledged : gmap string string) (ts : list string) (st : sweep_state) :
  let st' := foldl (remind_at chat_id lang now_local med_name acknowledged) st ts in
  same_but_stamp st.1.1 st'.1.1
  ∧ (last_reminder_time st'.1.1 = last_reminder_time st.1.1
     ∨ last_reminder_time st'.1.1 = Some (isoformat now_local)).
Proof.
  revert st. induction ts as [|t ts IH]; intros st; simpl.
  { split; [done | by left]. }
  destruct (IH (remind_at chat_id lang now_local med_name acknowledged st t))
    as [(Hn & Hd & Ht & Ha) Hs].
  destruct (remind_at_same_but_stamp chat_id lang now_local med_name
              acknowledged st t) as [(Hn' & Hd' & Ht' & Ha') Hs'].
  simpl in *. split.
  - unfold same_but_stamp. split_and!; congruence.
  - destruct Hs as [Hs | Hs]; [|by right].
    rewrite Hs. destruct Hs' as [Hs' | Hs']; [by left | by right].
Qed.

Lemma med_after_same_but_stamp (chat_id lang : string) (now_local : datetime)
    (med : medication) :
  same_but_stamp med (med_after chat_id lang now_local med)
  ∧ (last_reminder_time (med_after chat_id lang now_local med)
     = last_reminder_time med
     ∨ last_reminder_time (med_after chat_id lang now_local med)
       = Some (isoformat now_local)).
Proof.
  unfold med_after, sweep_medication.
  apply (foldl_remind_at_same_but_stamp _ _ _ _ _ _ (med, [], false)).
Qed.

(** The item of a chat after the sweep: the one it had, or the record
    the sweep of that user leaves. *)
Lemma sweep_table_lookup (now_utc : Z) (tbl : table) (k : string) :
  sweep_table (send_reminders_async now_utc tbl) !! k = tbl !! k
  ∨ ∃ u tz, tbl !! k = Some u
      ∧ zone_or_utc (default "UTC" (timezone u)) = Some tz
      ∧ sweep_table (send_reminders_async now_utc tbl) !! k
        = Some (user_after now_utc tz k u).
Proof.
  unfold send_reminders_async.
  destruct (sweep_users_spec now_utc (map_to_list tbl) tbl [] [])
    as (new & _ & -> & Hs & Hall).
  assert (NoDup new.*1) as Hnd.
  { eapply sublist_NoDup; [|exact Hs]. apply NoDup_fst_map_to_list. }
  destruct (decide (k ∈ new.*1)) as [Hin | Hnotin].
  - right. apply list_elem_of_fmap in Hin as ([k' u'] & Hk' & Hin).
    simpl in Hk'. subst k'.
    destruct (Hall k u' Hin) as (u & tz & Hscan & Hz & _ & ->).
    apply elem_of_map_to_list in Hscan. exists u, tz.
    split_and!; [done..|]. by apply foldl_put_lookup_in.
  - left. by apply foldl_put_lookup_notin.
Qed.

(** Every task of the inner loop beyond those it started with is the
    reminder of one of the fire times, judged due on an entry with the
    dosage of the medication. *)
Lemma foldl_remind_at_sound (chat_id lang : string) (now_local : datetime)
    (med_name : string) (acknowledged : gmap string string)
    (ts : list string) (st : sweep_state) (x : task) :
  x ∈ (foldl (remind_at chat_id lang now_local med_name acknowledged) st ts).1.2 →
  x ∈ st.1.2
  ∨ ∃ t cur, t ∈ ts
      ∧ dosage cur = dosage st.1.1
      ∧ x = reminder chat_id lang med_name cur t
      ∧ evaluate now_local acknowledged cur t = due.
Proof.
  revert st. induction ts as [|t ts IH]; intros st; simpl; [by left|].
  intros Hx. destruct (IH _ Hx) as [Hin | (t' & cur & Ht' & Hd & -> & Hdue)].
  - destruct st as [[med tasks] um].
    destruct (remind_at_cases chat_id lang now_local med_name acknowledged
                med tasks um t) as [[Hdue Heq] | [_ Heq]];
      rewrite Heq in Hin; simpl in Hin; [|by left].
    apply elem_of_app in Hin as [Hin | ->%list_elem_of_singleton]; [by left|].
    right. exists t, med. split_and!; [left | done..].
  - right. exists t', cur. split_and!; [by right | | done..].
    rewrite Hd.
    by destruct (remind_at_same_but_stamp chat_id lang now_local med_name
                   acknowledged st t) as [(_ & -> & _) _].
Qed.

(** The gathered tasks come from the users of the scan. *)
Lemma sweep_users_tasks_inv (now_utc : Z) (users : list (string * user_data)) :
  ∀ (tbl : table) (puts : list (string * user_data)) (tasks tasks' : list task),
  sweep_end (sweep_users now_utc users tbl puts tasks) = gathered tasks' →
  ∀ x, x ∈ tasks' →
    x ∈ tasks
    ∨ ∃ k u tz, (k, u) ∈ users
        ∧ zone_or_utc (default "UTC" (timezone u)) = Some tz
        ∧ x ∈ user_tasks now_utc tz k u.
Proof.
  induction users as [|[k0 u0] users IH]; intros tbl puts tasks tasks';
    cbn [sweep_users].
  { intros [= <-] x Hx. by left. }
  destruct (zone_or_utc (default "UTC" (timezone u0))) as [tz0|] eqn:Hz0; [|done].
  rewrite sweep_user_frame.
  assert (∀ tbl' puts',
            sweep_end (sweep_users now_utc users tbl' puts'
                         (tasks ++ user_tasks now_utc tz0 k0 u0)) = gathered tasks' →
            ∀ x, x ∈ tasks' →
              x ∈ tasks
              ∨ ∃ k u tz, (k, u) ∈ (k0, u0) :: users
                  ∧ zone_or_utc (default "UTC" (timezone u)) = Some tz
                  ∧ x ∈ user_tasks now_utc tz k u) as Hstep.
  { intros tbl' puts' Hend x Hx.
    destruct (IH _ _ _ _ Hend x Hx) as [Hin | (k & u & tz & Hin & Hz & Hxu)].
    - apply elem_of_app in Hin as [Hin | Hin]; [by left|].
      right. exists k0, u0, tz0. split_and!; [left | done..].
    - right. exists k, u, tz. split_and!; [by right | done..]. }
  destruct (bool_decide _); apply Hstep.
Qed.

End SweepMore.

(** X7.  The sweep neither adds nor removes a chat, and in the item of a
    chat it changes nothing but ["last_reminder_time"]: the time zone, the
    language and the list of medications (its length, its order, and the
    name, dosage, times and acknowledgments of every entry) are those of
    before, and a stamp is either the old one or the local now of this
    sweep. *)
Theorem X7_sweep_changes_stamps_only `{PyLib} (now_utc : Z) (tbl : table)
    (k : string) :
  let after := sweep_table (send_reminders_async now_utc tbl) in
  (after !! k = None ↔ tbl !! k = None)
  ∧ ∀ u', after !! k = Some u' →
      ∃ u, tbl !! k = Some u
        ∧ timezone u' = timezone u
        ∧ language u' = language u
        ∧ match medications u, medications u' with
          | None, None => True
          | Some meds, Some meds' =>
              Forall2
                (λ med med',
                   same_but_stamp med med'
                   ∧ (last_reminder_time med' = last_reminder_time med
                      ∨ ∃ tz, zone_or_utc (default "UTC" (timezone u)) = Some tz
                          ∧ last_reminder_time med'
                            = Some (isoformat (astimezone now_utc tz))))
                meds meds'
          | _, _ => False
          end.
Proof.
  intros after. subst after.
  destruct (sweep_table_lookup now_utc tbl k)
    as [Hsame | (u & tz & Hk & Hz & Hafter)].
  - rewrite Hsame. split; [done|]. intros u' Hu'. exists u'.
    split_and!; [done..|]. destruct (medications u') as [meds|]; [|done].
    apply Forall2_same_length_lookup_2; [done|].
    intros i med med' Hi Hi'. assert (med' = med) as -> by congruence.
    split; [done | by left].
  - rewrite Hafter, Hk. split; [done|]. intros u' [= <-]. exists u.
    destruct (user_after_unchanged now_utc tz k u) as [-> ->].
    split_and!; [done..|]. rewrite user_after_medications.
    destruct (medications u) as [meds|]; simpl; [|done].
    apply Forall2_fmap_r, Forall_Forall2_diag, Forall_forall. intros med _.
    destruct (med_after_same_but_stamp k (default "ru" (language u))
                (astimezone now_utc tz) med) as [Hsame [Hs | Hs]].
    + split; [done | by left].
    + split; [done|]. right. by exists tz.
Qed.

(** X8.  Every reminder the sweep sends is for a fire time of a stored
    medication of the chat it goes to, carries that medication's name and
    dosage and that fire time, also in the data of its button, and the
    fire time parses, has been reached on the local wall clock of the
    user and is not acknowledged for today's local date: nothing is sent
    early, for an acknowledged dose or for a malformed time. *)
Theorem X8_every_reminder_is_due `{PyLib} (now_utc : Z) (tbl : table)
    (tasks : list task) (x : task) :
  sweep_end (send_reminders_async now_utc tbl) = gathered tasks →
  x ∈ tasks →
  ∃ k u tz med t h m,
    tbl !! k = Some u
    ∧ zone_or_utc (default "UTC" (timezone u)) = Some tz
    ∧ med ∈ default [] (medications u)
    ∧ t ∈ default [] (times med)
    ∧ x = send_message_with_limit k
            (get_msg "reminder_message" (default "ru" (language u))
               [("medicine", default "" (name med));
                ("dosage", default "None" (dosage med)); ("time", t)])
            {| button_text := get_msg "ack_button" (default "ru" (language u)) [];
               callback_data := "ack|" +:+ default "" (name med) +:+ "|" +:+ t |}
    ∧ default ∅ (acknowledged med) !! t
      ≠ Some (strftime_Ymd (dt_date (astimezone now_utc tz)))
    ∧ strptime_HM t = Some (h, m)
    ∧ reached (astimezone now_utc tz) h m.
Proof.
  intros Hend Hx. unfold send_reminders_async in Hend.
  destruct (sweep_users_tasks_inv now_utc _ _ _ _ _ Hend x Hx)
    as [[]%elem_of_nil | (k & u & tz & Hscan & Hz & Hxu)].
  apply elem_of_map_to_list in Hscan.
  rewrite user_tasks_concat in Hxu.
  apply elem_of_concat in Hxu as (l & Hxl & Hl).
  apply list_elem_of_fmap in Hl as (med & -> & Hmed).
  unfold med_tasks, sweep_medication in Hxl.
  apply foldl_remind_at_sound in Hxl
    as [[]%elem_of_nil | (t & cur & Ht & Hd & -> & Hdue)].
  apply evaluate_due_iff in Hdue as (Hack & _ & h & m & Hp & Hr).
  exists k, u, tz, med, t, h, m. split_and!; try done.
  unfold reminder. simpl in Hd. by rewrite Hd.
Qed.

(** ** Stored data that does not parse *)

Section BadData.
Context `{PyLib}.

(** The tests of the loop read the acknowledgments they are given and the
    stamp of the entry, nothing else of it. *)
Lemma evaluate_reads_stamp_only (now_local : datetime)
    (acknowledged : gmap string string) (m1 m2 : medication) (t : string) :
  last_reminder_time m1 = last_reminder_time m2 →
  evaluate now_local acknowledged m1 t = evaluate now_local acknowledged m2 t.
Proof. intros Hs. unfold evaluate, sent_today. by rewrite Hs. Qed.

Lemma evaluate_unparseable (now_local : datetime)
    (acknowledged : gmap string string) (med : medication) (t : string) :
  strptime_HM t = None → evaluate now_local acknowledged med t ≠ due.
Proof.
  intros Hp. unfold evaluate. case_decide; [done|].
  destruct (sent_today _ _); [done|]. by rewrite Hp.
Qed.

(** Dropping the fire times that do not parse does not change the run of
    the inner loop. *)
Lemma foldl_remind_at_parseable (chat_id lang : string) (now_local : datetime)
    (med_name : string) (acknowledged : gmap string string)
    (ts : list string) (st : sweep_state) :
  foldl (remind_at chat_id lang now_local med_name acknowledged) st
        (filter (λ t, is_Some (strptime_HM t)) ts)
  = foldl (remind_at chat_id lang now_local med_name acknowledged) st ts.
Proof.
  revert st. induction ts as [|t ts IH]; intros st; [done|].
  rewrite filter_cons. case_decide as Hp; cbn [foldl]; [by rewrite IH|].
  rewrite IH. f_equal. destruct st as [[med tasks] um].
  destruct (remind_at_cases chat_id lang now_local med_name acknowledged
              med tasks um t) as [[Hdue _] | [_ ->]]; [|done].
  exfalso. apply (evaluate_unparseable now_local acknowledged med t); [|done].
  by apply eq_None_not_Some.
Qed.

(** The run of the inner loop on two entries that differ in their times
    only. *)
Lemma foldl_remind_at_times_blind (chat_id lang : string) (now_local : datetime)
    (med_name : string) (acknowledged : gmap string string)
    (ts v : list string) (med : medication) (tasks : list task) (um : bool) :
  let r := foldl (remind_at chat_id lang now_local med_name acknowledged)
                 (med, tasks, um) ts in
  foldl (remind_at chat_id lang now_local med_name acknowledged)
        (set_times v med, tasks, um) ts
  = (set_times v r.1.1, r.1.2, r.2).
Proof.
  revert med tasks um. induction ts as [|t ts IH]; intros med tasks um; [done|].
  cbn [foldl].
  destruct (remind_at_cases chat_id lang now_local med_name acknowledged
              med tasks um t) as [[Hdue ->] | [Hdue ->]];
  destruct (remind_at_cases chat_id lang now_local med_name acknowledged
              (set_times v med) tasks um t) as [[Hdue' ->] | [Hdue' ->]].
  - apply (IH (set_last_reminder_time (isoformat now_local) med)).
  - exfalso. apply Hdue'. by rewrite <- Hdue.
  - exfalso. apply Hdue. by rewrite <- Hdue'.
  - apply IH.
Qed.

(** The run of the inner loop on an entry whose stamp does not parse and
    on the same entry without a stamp: the same tasks and flag, and the
    same entry once a reminder has been stamped. *)
Lemma foldl_remind_at_bad_stamp (chat_id lang : string) (now_local : datetime)
    (med_name : string) (acknowledged : gmap string string)
    (ts : list string) (med : medication) (s : string) (tasks : list task)
    (um : bool) :
  last_reminder_time med = Some s →
  s = "" ∨ fromisoformat s = None →
  let r := foldl (remind_at chat_id lang now_local med_name acknowledged)
                 (med, tasks, um) ts in
  let r' := foldl (remind_at chat_id lang now_local med_name acknowledged)
                  (del_last_reminder_time med, tasks, um) ts in
  r'.1.2 = r.1.2 ∧ r'.2 = r.2
  ∧ (r.1.1 = med ∧ r'.1.1 = del_last_reminder_time med ∨ r'.1.1 = r.1.1).
Proof.
  intros Hs Hbad.
  assert (∀ t, evaluate now_local acknowledged (del_last_reminder_time med) t
               = evaluate now_local acknowledged med t) as Heval.
  { intros t. unfold evaluate, sent_today. simpl. rewrite Hs.
    destruct Hbad as [-> | Hbad]; [done|].
    repeat case_decide; try done. by rewrite Hbad. }
  revert tasks um. induction ts as [|t ts IH]; intros tasks um.
  { simpl. split_and!; [done..|]. by left. }
  cbn [foldl].
  destruct (remind_at_cases chat_id lang now_local med_name acknowledged
              med tasks um t) as [[Hdue ->] | [Hdue ->]];
  destruct (remind_at_cases chat_id lang now_local med_name acknowledged
              (del_last_reminder_time med) tasks um t)
    as [[Hdue' ->] | [Hdue' ->]].
  - split_and!; [done..|]. by right.
  - exfalso. apply Hdue'. by rewrite Heval.
  - exfalso. apply Hdue. by rewrite <- Heval.
  - apply IH.
Qed.

End BadData.

(** X9.  A fire time that [strptime] does not parse is skipped and the
    loop goes on: the medication gets the same reminders, the same stamp
    and the same flag as if its list held the parseable times only. *)
Theorem X9_unparseable_fire_times_are_skipped `{PyLib} (chat_id lang : string)
    (now_local : datetime) (med : medication) (tasks : list task) (um : bool) :
  let parseable :=
    filter (λ t, is_Some (strptime_HM t)) (default [] (times med)) in
  let swept := sweep_medication chat_id lang now_local med tasks um in
  let cleaned :=
    sweep_medication chat_id lang now_local (set_times parseable med) tasks um in
  cleaned.1.2 = swept.1.2
  ∧ cleaned.2 = swept.2
  ∧ last_reminder_time cleaned.1.1 = last_reminder_time swept.1.1
  ∧ ∀ t, strptime_HM t = None →
         reminder chat_id lang (default "" (name med)) med t
         ∉ med_tasks chat_id lang now_local med.
Proof.
  intros parseable swept cleaned. subst swept cleaned.
  unfold sweep_medication. cbn [name acknowledged times set_times default from_option].
  unfold id. rewrite foldl_remind_at_times_blind. cbv zeta. cbn [fst snd].
  subst parseable. rewrite foldl_remind_at_parseable.
  split_and!; [done..|].
  intros t Hp Hin. unfold med_tasks, sweep_medication in Hin.
  apply foldl_remind_at_sound in Hin
    as [[]%elem_of_nil | (t' & cur & _ & _ & Heq & Hdue)].
  assert (t' = t) as -> by (unfold reminder in Heq; congruence).
  by apply (evaluate_unparseable now_local (default ∅ (acknowledged med)) cur t).
Qed.

(** X10.  A stamp that is empty or that [fromisoformat] rejects does not
    hold reminders back: the medication gets the reminders, and the user
    the flag, it would get with no stamp at all. *)
Theorem X10_unparseable_stamp_is_ignored `{PyLib} (chat_id lang : string)
    (now_local : datetime) (med : medication) (s : string)
    (tasks : list task) (um : bool) :
  let swept := sweep_medication chat_id lang now_local med tasks um in
  let fresh :=
    sweep_medication chat_id lang now_local (del_last_reminder_time med) tasks um in
  last_reminder_time med = Some s →
  s = "" ∨ fromisoformat s = None →
  fresh.1.2 = swept.1.2 ∧ fresh.2 = swept.2.
Proof.
  intros swept fresh Hs Hbad. subst swept fresh. unfold sweep_medication.
  cbn [name acknowledged times del_last_reminder_time].
  destruct (foldl_remind_at_bad_stamp chat_id lang now_local
              (default "" (name med)) (default ∅ (acknowledged med))
              (default [] (times med)) med s tasks um Hs Hbad) as (Ht & Hu & _).
  done.
Qed.

(** ** The data of the button *)

Lemma split_nonempty (sep : ascii) (s : string) : split sep s ≠ [].
Proof.
  induction s as [|c s IH]; simpl; [done|].
  case_decide; [done|]. by destruct (split sep s).
Qed.

Lemma length_split (sep : ascii) (s : string) :
  List.length (split sep s) = S (count_sep sep s).
Proof.
  induction s as [|c s IH]; simpl; [done|].
  case_decide; simpl; [by rewrite IH|].
  pose proof (split_nonempty sep s). by destruct (split sep s).
Qed.

Lemma count_sep_append (sep : ascii) (a b : string) :
  count_sep sep (a +:+ b) = (count_sep sep a + count_sep sep b)%nat.
Proof. induction a as [|c a IH]; simpl; [done|]. rewrite IH. lia. Qed.

Lemma occurs_count_sep (sep : ascii) (s : string) :
  occurs sep s = false ↔ count_sep sep s = O.
Proof.
  induction s as [|c s IH]; simpl; [done|].
  rewrite orb_false_iff, IH, bool_decide_eq_false.
  case_decide; split; try done; try lia. by intros [? ?].
Qed.

(** A string with one delimiter is two strings without any, around it. *)
Lemma count_sep_one (sep : ascii) (s : string) :
  count_sep sep s = 1%nat →
  ∃ a b, s = a +:+ String sep b ∧ occurs sep a = false ∧ occurs sep b = false.
Proof.
  induction s as [|c s IH]; simpl; [done|].
  case_decide as Hc.
  - intros Hn. exists EmptyString, s. subst c. split_and!; [done..|].
    apply occurs_count_sep. lia.
  - intros Hn. destruct (IH Hn) as (a & b & -> & Ha & Hb).
    exists (String c a), b. split_and!; [done | | done].
    simpl. rewrite Ha. by rewrite bool_decide_eq_false_2.
Qed.

Lemma split_ack_prefix (rest : string) :
  split "|" ("ack|" +:+ rest) = "ack" :: split "|" rest.
Proof.
  change ("ack|" +:+ rest) with ("ack" +:+ String "|" rest).
  by rewrite split_append.
Qed.

(** The handler on data whose split has not three parts. *)
Lemma callback_acknowledge_invalid `{PyLib} (now_utc : Z) (tbl : table)
    (k data text : string) :
  List.length (split "|" data) ≠ 3%nat →
  callback_acknowledge now_utc tbl k data text
  = answer_only tbl
      (edit_message_text None
         (get_msg "ack_invalid" (default "ru" (language (get_user_data tbl k))) [])).
Proof.
  intros Hlen. unfold callback_acknowledge.
  by destruct (split "|" data) as [|a [|b [|c [|]]]].
Qed.

(** The handler on data that split into ["ack"], a name and a time. *)
Lemma callback_acknowledge_valid `{PyLib} (now_utc : Z) (tbl : table)
    (k data text n t : string) :
  split "|" data = ["ack"; n; t] →
  answer (callback_acknowledge now_utc tbl k data text)
  ≠ Some (edit_message_text None
            (get_msg "ack_invalid" (default "ru" (language (get_user_data tbl k))) [])).
Proof.
  intros Hsplit. unfold callback_acknowledge. rewrite Hsplit.
  rewrite decide_False by (by intros ?).
  destruct (zone_or_utc _); [|done]. by destruct (acknowledge_first _ _ _ _).
Qed.

(** X11.  The callback handler is registered for data that begin with
    ["ack|"].  On such data the first part is always ["ack"], and the
    handler answers that the data are invalid, without writing,
    exactly when what follows the prefix does not hold one more
    delimiter; with exactly one, what follows is a name and a fire time
    free of delimiters, and the answer is another one. *)
Theorem X11_ack_data_need_one_more_delimiter `{PyLib} (now_utc : Z)
    (tbl : table) (k rest text : string) :
  let lang := default "ru" (language (get_user_data tbl k)) in
  let invalid := edit_message_text None (get_msg "ack_invalid" lang []) in
  let out := callback_acknowledge now_utc tbl k ("ack|" +:+ rest) text in
  (count_sep "|" rest ≠ 1%nat →
   out = {| table_after := tbl; saved := []; answer := Some invalid |})
  ∧ (count_sep "|" rest = 1%nat →
     answer out ≠ Some invalid
     ∧ ∃ n t, rest = n +:+ "|" +:+ t
         ∧ occurs "|" n = false ∧ occurs "|" t = false
         ∧ split "|" ("ack|" +:+ rest) = ["ack"; n; t]).
Proof.
  intros lang invalid out. split.
  - intros Hn. subst out. rewrite callback_acknowledge_invalid; [done|].
    rewrite split_ack_prefix. simpl. rewrite length_split. lia.
  - intros Hn. destruct (count_sep_one "|" rest Hn) as (n & t & -> & Hnn & Ht).
    assert (split "|" ("ack|" +:+ n +:+ String "|" t) = ["ack"; n; t]) as Hsplit.
    { rewrite split_ack_prefix, split_append by done. by rewrite split_no_sep. }
    split; [by apply (callback_acknowledge_valid _ _ _ _ _ n t)|].
    by exists n, t.
Qed.

(** X12.  The button of a reminder for a medication whose name, or for a
    fire time that, contains the delimiter can never acknowledge: the
    handler answers that the data are invalid and writes nothing. *)
Theorem X12_delimiter_in_name_blocks_acknowledgment `{PyLib} (now_utc : Z)
    (tbl : table) (k chat_id lang med_name med_time text : string)
    (med : medication) :
  occurs "|" med_name = true ∨ occurs "|" med_time = true →
  match reminder chat_id lang med_name med med_time with
  | send_message_with_limit _ _ markup =>
      callback_acknowledge now_utc tbl k (callback_data markup) text
      = {| table_after := tbl; saved := [];
           answer :=
             Some (edit_message_text None
                     (get_msg "ack_invalid"
                        (default "ru" (language (get_user_data tbl k))) [])) |}
  end.
Proof.
  intros Hocc. unfold reminder. cbn [callback_data].
  rewrite callback_acknowledge_invalid; [done|].
  rewrite split_ack_prefix. simpl. rewrite length_split.
  change (med_name +:+ "|" +:+ med_time)
    with (med_name +:+ String "|" med_time).
  rewrite count_sep_append. simpl.
  assert (count_sep "|" med_name ≠ O ∨ count_sep "|" med_time ≠ O) as Hc.
  { destruct Hocc as [Ho | Ho]; [left | right];
      intros Hz%occurs_count_sep; congruence. }
  lia.
Qed.

(** ** Pressing the button, then sweeping *)

Lemma acknowledge_first_Some_inv `{PyLib} (med_name med_time today : string)
    (meds meds' : list medication) :
  acknowledge_first med_name med_time today meds = Some meds' →
  ∃ before med after,
    meds = before ++ med :: after
    ∧ is_ack_target med_name med_time med
    ∧ meds' = before ++ mark_acknowledged med_time today med :: after.
Proof.
  revert meds'. induction meds as [|med meds IH]; intros meds'; simpl; [done|].
  destruct (ack_target med_name med_time med) eqn:Ht.
  - intros [= <-]. exists [], med, meds. split_and!; [done | | done].
    by apply ack_target_true.
  - destruct (acknowledge_first med_name med_time today meds) as [r|]; [|done].
    simpl. intros [= <-].
    destruct (IH r eq_refl) as (before & m & after & -> & Hm & ->).
    by exists (med :: before), m, after.
Qed.

(** X13.  The button of a reminder is accepted.  For a stored medication
    and one of its fire times, neither the name nor the time containing
    the delimiter, and the zone of the user resolving, the handler called
    with the data the sweep puts in the button answers with the success
    text appended to the text of the message, and the item it writes and
    stores has the time zone and the language of before, as many
    medications as before, and among them a medication of that name and
    fire time with today's local date recorded at that fire time. *)
Theorem X13_button_of_a_reminder_is_accepted `{PyLib} (now_utc : Z)
    (tbl : table) (k text : string) (med : medication) (t : string)
    (tz : tzinfo) :
  let user_data := get_user_data tbl k in
  let lang := default "ru" (language user_data) in
  let med_name := default "" (name med) in
  let today := strftime_Ymd (dt_date (astimezone now_utc tz)) in
  med ∈ stored_medications tbl k →
  t ∈ default [] (times med) →
  occurs "|" med_name = false →
  occurs "|" t = false →
  zone_or_utc (default "UTC" (timezone user_data)) = Some tz →
  match reminder k lang med_name med t with
  | send_message_with_limit _ _ markup =>
      let out := callback_acknowledge now_utc tbl k (callback_data markup) text in
      answer out
      = Some (edit_message_text (Some text) (get_msg "acknowledged_success" lang []))
      ∧ ∃ u' med',
          table_after out !! k = Some u'
          ∧ saved out = [(k, u')]
          ∧ timezone u' = timezone user_data
          ∧ language u' = language user_data
          ∧ List.length (default [] (medications u'))
            = List.length (stored_medications tbl k)
          ∧ med' ∈ default [] (medications u')
          ∧ med' ∈ stored_medications (table_after out) k
          ∧ lower (default "" (name med')) = lower med_name
          ∧ t ∈ default [] (times med')
          ∧ default ∅ (acknowledged med') !! t = Some today
  end.
Proof.
  intros user_data lang med_name today Hmed Ht Hn Hnt Hz.
  pose proof (split_callback_data k lang med_name t med Hn Hnt) as Hsplit.
  unfold reminder in *. cbn [callback_data] in *.
  unfold callback_acknowledge. rewrite Hsplit.
  rewrite decide_False by (by intros ?).
  fold user_data. rewrite Hz. fold lang. unfold today_str. fold today.
  destruct (acknowledge_first med_name t today (default [] (medications user_data)))
    as [meds'|] eqn:Hfirst.
  - split; [done|].
    destruct (acknowledge_first_Some_inv _ _ _ _ _ Hfirst)
      as (before & m & after & Hmeds & [Hname Htime] & ->).
    exists (set_medications (before ++ mark_acknowledged t today m :: after)
              user_data), (mark_acknowledged t today m).
    unfold save_and_answer, save_user_data. cbn [table_after saved].
    assert (mark_acknowledged t today m
            ∈ before ++ mark_acknowledged t today m :: after) as Hin.
    { apply elem_of_app. right. left. }
    rewrite lookup_insert_eq. split_and!; try done.
    + unfold stored_medications. fold user_data. rewrite Hmeds. cbn.
      by rewrite !length_app.
    + clearbody user_data. unfold stored_medications, get_user_data.
      rewrite lookup_insert_eq. cbn. by destruct (language user_data).
    + simpl. by rewrite lookup_insert_eq.
  - exfalso.
    apply (proj1 (acknowledge_first_None _ _ _ _) Hfirst med Hmed). by split.
Qed.

(** X14.  An acknowledged dose is not reminded of again that day.  When
    the handler has recorded the acknowledgment of a fire time, the
    written record holds a medication of that name with that fire time
    for which the sweep, at every instant of the same local date and
    whatever the wall clock and the stamp, turns the fire time away as
    already acknowledged. *)
Theorem X14_acknowledged_dose_is_not_reminded `{PyLib} (now1 : Z) (tbl : table)
    (k data text n t : string) (tz : tzinfo) (u' : user_data) :
  split "|" data = ["ack"; n; t] →
  zone_or_utc (default "UTC" (timezone (get_user_data tbl k))) = Some tz →
  saved (callback_acknowledge now1 tbl k data text) = [(k, u')] →
  timezone u' = timezone (get_user_data tbl k)
  ∧ ∃ med', med' ∈ default [] (medications u')
      ∧ lower (default "" (name med')) = lower n
      ∧ t ∈ default [] (times med')
      ∧ ∀ now2 stamp chat_id lang,
          strftime_Ymd (dt_date (astimezone now2 tz))
          = strftime_Ymd (dt_date (astimezone now1 tz)) →
          let now_local2 := astimezone now2 tz in
          let med2 := set_last_reminder_time stamp med' in
          evaluate now_local2 (default ∅ (acknowledged med')) med' t
          = already_acknowledged
          ∧ evaluate now_local2 (default ∅ (acknowledged med2)) med2 t
            = already_acknowledged
          ∧ reminder chat_id lang (default "" (name med')) med' t
            ∉ med_tasks chat_id lang now_local2 med'.
Proof.
  intros Hsplit Hz. unfold callback_acknowledge. rewrite Hsplit.
  rewrite decide_False by (by intros ?). rewrite Hz. unfold today_str.
  destruct (acknowledge_first n t _ _) as [meds'|] eqn:Hfirst; [|done].
  cbn [saved save_and_answer]. intros [= <-]. split; [done|].
  destruct (acknowledge_first_Some_inv _ _ _ _ _ Hfirst)
    as (before & m & after & _ & [Hname Htime] & ->).
  exists (mark_acknowledged t (strftime_Ymd (dt_date (astimezone now1 tz))) m).
  split_and!; [| done | done |].
  { simpl. apply elem_of_app. right. left. }
  intros now2 stamp chat_id lang Hday. set (now_local2 := astimezone now2 tz).
  assert (∀ cur, evaluate now_local2
                   (<[t := strftime_Ymd (dt_date (astimezone now1 tz))]>
                      (default ∅ (acknowledged m))) cur t
                 = already_acknowledged) as Heval.
  { intros cur. unfold evaluate, today_str. subst now_local2.
    rewrite Hday. by rewrite decide_True by apply lookup_insert_eq. }
  split_and!; [apply Heval | apply Heval |].
  intros Hin. unfold med_tasks, sweep_medication in Hin.
  apply foldl_remind_at_sound in Hin
    as [[]%elem_of_nil | (t' & cur & _ & _ & Heq & Hdue)].
  assert (t' = t) as -> by (unfold reminder in Heq; congruence).
  cbn [acknowledged mark_acknowledged set_acknowledged default from_option] in Hdue.
  unfold id in Hdue. by rewrite Heval in Hdue.
Qed.

(** ** The access gate *)


(** X15.  The wrapper runs the handler exactly for an update whose sender
    (of the message, else of the callback query) has a non-empty user
    name that equals, up to case, a name of the allow list; a sender
    without a user name is turned away whatever the list holds.  A user
    who is turned away gets the reply only when the update has a message,
    and an update without a sender gets nothing. *)
Theorem X15_gate_runs_handler_for_listed_users_only `{PyLib}
    (ALLOWED_USERNAMES : list string) (func : update → outcome) (upd : update) :
  (∀ o, restricted ALLOWED_USERNAMES func upd = handled o ↔
        o = func upd
        ∧ ∃ user name, update_user upd = Some user
            ∧ username user = Some name
            ∧ name ≠ ""
            ∧ lower name ∈ lower <$> ALLOWED_USERNAMES)
  ∧ (∀ replied, restricted ALLOWED_USERNAMES func upd = access_denied replied →
                (replied = true ↔ is_Some (upd_message upd)))
  ∧ (restricted ALLOWED_USERNAMES func upd = no_user_data ↔ update_user upd = None).
Proof.
  unfold restricted.
  destruct (update_user upd) as [user|] eqn:Hu.
  2:{ split_and!; [|done|done]. intros o. split; [done|].
      by intros (_ & user & name & ? & _). }
  destruct (username user) as [name|] eqn:Hn.
  2:{ split_and!.
      - intros o. split; [done|]. intros (_ & user' & name & [= <-] & ? & _).
        congruence.
      - intros replied [= <-]. by rewrite bool_decide_eq_true.
      - done. }
  destruct (bool_decide (name = "")) eqn:Hempty; simpl.
  { apply bool_decide_eq_true in Hempty. split_and!.
    - intros o. split; [done|].
      intros (_ & user' & name' & [= <-] & Hn' & Hne & _). congruence.
    - intros replied [= <-]. by rewrite bool_decide_eq_true.
    - done. }
  apply bool_decide_eq_false in Hempty.
  destruct (bool_decide (lower name ∉ lower <$> ALLOWED_USERNAMES)) eqn:Hin.
  - apply bool_decide_eq_true in Hin. split_and!.
    + intros o. split; [done|].
      intros (_ & user' & name' & [= <-] & Hn' & _ & Hl). congruence.
    + intros replied [= <-]. by rewrite bool_decide_eq_true.
    + done.
  - apply bool_decide_eq_false in Hin. split_and!; [|done|done].
    intros o. split.
    + intros [= <-]. split; [done|]. exists user, name.
      split_and!; [done..|]. by destruct (decide (lower name ∈ lower <$> ALLOWED_USERNAMES)).
    + by intros [-> _].
Qed.


(** ** When no zone resolves *)

Lemma sweep_users_raises `{PyLib} (now_utc : Z) (users : list (string * user_data))
    (k : string) (u : user_data) :
  (k, u) ∈ users →
  zone_or_utc (default "UTC" (timezone u)) = None →
  ∀ (tbl : table) (puts : list (string * user_data)) (tasks : list task),
  sweep_end (sweep_users now_utc users tbl puts tasks) = raised.
Proof.
  intros Hin Hz. induction users as [|[k0 u0] users IH]; intros tbl puts tasks.
  { by apply elem_of_nil in Hin. }
  cbn [sweep_users].
  destruct (zone_or_utc (default "UTC" (timezone u0))) as [tz0|] eqn:Hz0; [|done].
  apply elem_of_cons in Hin as [[= -> ->] | Hin]; [congruence|].
  rewrite sweep_user_frame. destruct (bool_decide _); by apply IH.
Qed.

(** X17.  The fallback [ZoneInfo("UTC")] is outside the [try].  When the
    zone of one stored user does not resolve and "UTC" does not either,
    the sweep raises: no task is gathered, whoever else was due.  The
    acknowledgment handler of that user raises as well, on well-formed
    data, before it writes. *)
Theorem X17_unresolved_fallback_raises `{PyLib} (now_utc : Z) (tbl : table)
    (k : string) (u : user_data) :
  ZoneInfo "UTC" = None →
  tbl !! k = Some u →
  ZoneInfo (default "UTC" (timezone u)) = None →
  sweep_end (send_reminders_async now_utc tbl) = raised
  ∧ ∀ data text n t,
      split "|" data = ["ack"; n; t] →
      callback_acknowledge now_utc tbl k data text
      = {| table_after := tbl; saved := []; answer := None |}.
Proof.
  intros Hutc Hk Hbad.
  assert (zone_or_utc (default "UTC" (timezone u)) = None) as Hz.
  { unfold zone_or_utc. by rewrite Hbad. }
  split.
  - unfold send_reminders_async. apply (sweep_users_raises now_utc _ k u); [|done].
    by apply elem_of_map_to_list.
  - intros data text n t Hsplit. unfold callback_acknowledge. rewrite Hsplit.
    rewrite decide_False by (by intros ?).
    destruct (get_user_data_fields tbl k u Hk) as (-> & _). by rewrite Hz.
Qed.

(** ** Listing *)

(** X18.  [list_medicines] answers with the message for an empty list
    exactly when the chat has no medication.  After [add_medicine] has
    stored a medication the listing is never empty: it is the lines of
    before followed by one line for the new medication, with its name,
    its dosage, its times joined by ", " and no acknowledgment shown. *)
Theorem X18_listing_after_add `{PyLib} (tbl : table) (k n d t : string)
    (ts : list string) :
  let lang := default "ru" (language (get_user_data tbl k)) in
  let added := table_after (add_medicine tbl k (n :: d :: t :: ts)) in
  let lines_before :=
    match list_medicines tbl k with
    | listmedicines_empty _ => []
    | final_message lines => lines
    end in
  is_Some (medications (get_user_data tbl k)) →
  (list_medicines tbl k = listmedicines_empty (get_msg "listmedicines_empty" lang [])
   ↔ stored_medications tbl k = [])
  ∧ List.length lines_before = List.length (stored_medications tbl k)
  ∧ list_medicines added k
    = final_message
        (lines_before
         ++ [{| line_name := n; line_dosage := d;
                line_preposition := get_msg "medicine_time_preposition" lang [];
                line_times := String.concat ", " (t :: ts);
                line_ack_str := no_ack_str |}]).
Proof.
  intros lang added lines_before [meds Hmeds].
  assert (stored_medications tbl k = meds) as Hstored.
  { unfold stored_medications. by rewrite Hmeds. }
  set (new := {| name := Some n; dosage := Some d; times := Some (t :: ts);
                 acknowledged := Some ∅; last_reminder_time := None |}).
  assert (get_user_data added k = set_medications (meds ++ [new]) (get_user_data tbl k))
    as Hget.
  { subst added. unfold add_medicine. rewrite Hmeds.
    apply get_user_data_saved_medications. }
  subst lines_before. rewrite Hstored.
  unfold list_medicines. rewrite Hget, Hmeds.
  cbn [medications set_medications language default from_option]. unfold id.
  fold lang. split_and!.
  - by destruct meds.
  - destruct meds; [done|]. by rewrite length_fmap.
  - destruct meds as [|m ms]; [done|].
    cbn [app]. by rewrite fmap_cons, fmap_app.
Qed.

(** ** No due medication is passed over *)

(** X19.  No due medication is passed over.  When the sweep returns, a
    stored medication that has a due fire time gets the reminder of the
    first due fire time of its list, whatever the other users, the other
    medications and the other times are. *)
Theorem X19_every_due_medication_is_reminded `{PyLib} (now_utc : Z)
    (tbl : table) (tasks : list task) (k : string) (u : user_data)
    (tz : tzinfo) (med : medication) (before after : list string) (t : string) :
  let now_local := astimezone now_utc tz in
  let acked := default ∅ (acknowledged med) in
  sweep_end (send_reminders_async now_utc tbl) = gathered tasks →
  tbl !! k = Some u →
  zone_or_utc (default "UTC" (timezone u)) = Some tz →
  med ∈ default [] (medications u) →
  times med = Some (before ++ t :: after) →
  (∀ t', t' ∈ before → evaluate now_local acked med t' ≠ due) →
  evaluate now_local acked med t = due →
  reminder k (default "ru" (language u)) (default "" (name med)) med t ∈ tasks.
Proof.
  intros now_local acked Hend Hk Hz Hmed Htimes Hbefore Hdue.
  unfold send_reminders_async in Hend.
  apply (sweep_users_tasks now_utc _ _ _ _ _ Hend k u tz);
    [by apply elem_of_map_to_list | done |].
  rewrite user_tasks_concat. apply elem_of_concat.
  exists (med_tasks k (default "ru" (language u)) now_local med). split.
  - unfold med_tasks, sweep_medication. rewrite Htimes. simpl.
    by apply foldl_remind_at_complete.
  - apply list_elem_of_fmap. by exists med.
Qed.

(** * The further properties at work *)

(** Ibuprofen added, then [/deletemedicine IBUPROFEN]: Aspirin is what is
    left. *)
Lemma X3_ibuprofen_comes_and_goes :
  stored_medications
    (table_after
       (@delete_medicine Concrete.py
          (table_after (add_medicine Scenario.tbl "42"
                          ["Ibuprofen"; "200mg"; "08:00"]))
          "42" ["IBUPROFEN"])) "42"
  = [Scenario.aspirin].
Proof.
  destruct (X3_add_then_delete (H := Concrete.py) Scenario.tbl "42"
              "Ibuprofen" "IBUPROFEN" "200mg" "08:00" [] [])
    as (_ & _ & Hsame).
  - by eexists.
  - reflexivity.
  - rewrite Hsame; [reflexivity|].
    intros med [-> | []%elem_of_nil]%elem_of_cons. vm_compute. discriminate.
Defined.

(** After [/deletemedicine aspirin] the button of the old reminder finds
    nothing. *)
Lemma X5_old_button_after_delete :
  answer
    (@callback_acknowledge Concrete.py Scenario.at_09_05
       (table_after (@delete_medicine Concrete.py Scenario.tbl "42" ["aspirin"]))
       "42" "ack|Aspirin|09:00" "Take it")
  = Some (edit_message_text None (get_msg "medicine_for_ack_not_found" "ru" [])).
Proof.
  rewrite (X5_delete_then_acknowledge (H := Concrete.py) Scenario.at_09_05
             Scenario.tbl "42" "aspirin" "Aspirin" "09:00" "ack|Aspirin|09:00"
             "Take it" [] Scenario.utc); reflexivity.
Defined.

(** The reminder of 09:00 is for a stored medication and one of its
    times. *)
Lemma X8_the_reminder_of_nine :
  ∃ k u med t,
    Scenario.tbl !! k = Some u
    ∧ med ∈ default [] (medications u)
    ∧ t ∈ default [] (times med).
Proof.
  destruct (X8_every_reminder_is_due (H := Concrete.py) Scenario.at_09_00
              Scenario.tbl
              [@reminder "42" "ru" "Aspirin" Scenario.aspirin "09:00"]
              (@reminder "42" "ru" "Aspirin" Scenario.aspirin "09:00"))
    as (k & u & tz & med & t & h & m & Hk & _ & Hmed & Ht & _).
  - vm_compute. reflexivity.
  - left.
  - by exists k, u, med, t.
Defined.

(** A medication stamped "yesterday", with the times "soon" and 09:00, is
    reminded of at 09:00. *)
Lemma X10_garbled_stamp :
  (@sweep_medication Concrete.py "42" "ru"
     (astimezone Scenario.at_09_00 Scenario.utc) Scenario2.garbled [] false).1.2
  = [@reminder "42" "ru" "Aspirin" Scenario2.garbled "09:00"].
Proof.
  destruct (X10_unparseable_stamp_is_ignored (H := Concrete.py) "42" "ru"
              (astimezone Scenario.at_09_00 Scenario.utc) Scenario2.garbled
              "yesterday" [] false) as [Htasks _].
  - reflexivity.
  - right. reflexivity.
  - rewrite <- Htasks. vm_compute. reflexivity.
Defined.

(** The button of a reminder for "A|B" is of no use. *)
Lemma X12_button_of_a_piped_name :
  @callback_acknowledge Concrete.py Scenario.at_09_05
    {[ "42" := set_medications [Scenario2.piped] Scenario.user ]} "42"
    "ack|A|B|09:00" "Take it"
  = {| table_after := {[ "42" := set_medications [Scenario2.piped] Scenario.user ]};
       saved := [];
       answer := Some (edit_message_text None (get_msg "ack_invalid" "ru" [])) |}.
Proof.
  exact (X12_delimiter_in_name_blocks_acknowledgment (H := Concrete.py)
           Scenario.at_09_05
           {[ "42" := set_medications [Scenario2.piped] Scenario.user ]}
           "42" "42" "ru" "A|B" "09:00" "Take it" Scenario2.piped
           (or_introl eq_refl)).
Defined.

(** The button of the 09:00 reminder for "Vitamin", the second of three
    medications, is accepted, and the table then holds the
    acknowledgment. *)
Lemma X13_button_of_the_scenario :
  answer (@callback_acknowledge Concrete.py Scenario.at_09_05
            Scenario2.busy_tbl "42" "ack|Vitamin|09:00" "Take it")
  = Some (edit_message_text (Some "Take it") (get_msg "acknowledged_success" "en" []))
  ∧ ∃ med',
      med' ∈ stored_medications
               (table_after
                  (@callback_acknowledge Concrete.py Scenario.at_09_05
                     Scenario2.busy_tbl "42" "ack|Vitamin|09:00" "Take it"))
               "42"
      ∧ @lower Concrete.py (default "" (name med')) = "vitamin"
      ∧ default ∅ (acknowledged med') !! "09:00" = Some "2024-01-01".
Proof.
  pose proof (X13_button_of_a_reminder_is_accepted (H := Concrete.py)
                Scenario.at_09_05 Scenario2.busy_tbl "42" "Take it"
                Scenario2.vitamin "09:00" Scenario.utc) as Haccepted.
  destruct Haccepted
    as (Hanswer & u' & med' & _ & _ & _ & _ & _ & _ & Hstored & Hname & _ & Hack).
  - right. left.
  - do 2 right. left.
  - reflexivity.
  - reflexivity.
  - reflexivity.
  - split; [exact Hanswer|]. exists med'.
    split_and!; [exact Hstored | exact Hname | exact Hack].
Defined.

(** Acknowledged at 08:59, the 09:00 dose is turned away at 21:30. *)
Lemma X14_acknowledged_before_nine :
  ∃ med',
    @lower Concrete.py (default "" (name med')) = @lower Concrete.py "aspirin"
    ∧ @evaluate Concrete.py (astimezone Scenario.at_21_30 Scenario.utc)
        (default ∅ (acknowledged med')) med' "09:00" = already_acknowledged.
Proof.
  destruct (X14_acknowledged_dose_is_not_reminded (H := Concrete.py)
              Scenario.at_08_59 Scenario.tbl "42" "ack|aspirin|09:00" "Take it"
              "aspirin" "09:00" Scenario.utc
              (set_medications
                 [mark_acknowledged "09:00" "2024-01-01" Scenario.aspirin]
                 Scenario.user))
    as (_ & med' & _ & Hname & _ & Hlater).
  - reflexivity.
  - reflexivity.
  - reflexivity.
  - exists med'. split; [exact Hname|].
    apply (Hlater Scenario.at_21_30 "" "42" "ru"). vm_compute. reflexivity.
Defined.

(** With no zone database the sweep of the scenario raises. *)
Lemma X17_sweep_without_zones :
  sweep_end (@send_reminders_async Scenario2.no_zones Scenario.at_09_00 Scenario.tbl)
  = raised.
Proof.
  apply (X17_unresolved_fallback_raises (H := Scenario2.no_zones)
           Scenario.at_09_00 Scenario.tbl "42" Scenario.user); reflexivity.
Defined.

(** Ibuprofen added to the scenario shows on the second line. *)
Lemma X18_two_lines :
  ∃ line,
    list_medicines (table_after (add_medicine Scenario.tbl "42"
                                   ["Ibuprofen"; "200mg"; "08:00"; "20:00"])) "42"
    = final_message
        [line;
         {| line_name := "Ibuprofen"; line_dosage := "200mg";
            line_preposition := get_msg "medicine_time_preposition" "ru" [];
            line_times := "08:00, 20:00"; line_ack_str := no_ack_str |}].
Proof.
  destruct (X18_listing_after_add (H := Concrete.py) Scenario.tbl "42"
              "Ibuprofen" "200mg" "08:00" ["20:00"]) as (_ & _ & Hlist).
  - by eexists.
  - rewrite Hlist. by eexists.
Defined.

(** The sweep of 09:05 over three users.  "Vitamin", the second of the
    three medications of chat 42, lists 21:00 (not reached), "soon" (not
    a time), 09:00 and 08:00: it is reminded of for 09:00, among the four
    reminders of that sweep. *)
Lemma X19_late_sweep :
  ∃ tasks,
    sweep_end (@send_reminders_async Concrete.py Scenario.at_09_05
                 Scenario2.busy_tbl) = gathered tasks
    ∧ List.length tasks = 4%nat
    ∧ @reminder "42" "en" "Vitamin" Scenario2.vitamin "09:00" ∈ tasks.
Proof.
  assert (∃ tasks,
            sweep_end (@send_reminders_async Concrete.py Scenario.at_09_05
                         Scenario2.busy_tbl) = gathered tasks
            ∧ List.length tasks = 4%nat) as (tasks & Hend & Hlen).
  { eexists. split; [vm_compute; reflexivity | reflexivity]. }
  exists tasks. split_and!; [exact Hend | exact Hlen |].
  apply (X19_every_due_medication_is_reminded (H := Concrete.py)
           Scenario.at_09_05 Scenario2.busy_tbl tasks "42" Scenario2.busy_user
           Scenario.utc Scenario2.vitamin ["21:00"; "soon"] ["08:00"] "09:00"
           Hend).
  - reflexivity.
  - reflexivity.
  - right. left.
  - reflexivity.
  - intros t' Hin.
    apply elem_of_cons in Hin as [-> | Hin];
      [|apply elem_of_cons in Hin as [-> | []%elem_of_nil]];
      vm_compute; discriminate.
  - vm_compute. reflexivity.
Defined.

(** [/addmedicine Ibuprofen 200mg 21:00 08:00 09:00] sent after 09:00 to
    a chat with three medications: the entry comes fourth, and the sweep
    of 09:05 reminds of it for 08:00, the first of its times that has
    been reached. *)
Lemma X2_ibuprofen_is_appended :
  let new := {| name := Some "Ibuprofen"; dosage := Some "200mg";
                times := Some ["21:00"; "08:00"; "09:00"];
                acknowledged := Some ∅; last_reminder_time := None |} in
  let added :=
    table_after (add_medicine Scenario2.busy_tbl "42"
                   ["Ibuprofen"; "200mg"; "21:00"; "08:00"; "09:00"]) in
  stored_medications added "42"
  = [Scenario.metformin; Scenario2.vitamin; Scenario.aspirin; new]
  ∧ ∃ tasks,
      sweep_end (@send_reminders_async Concrete.py Scenario.at_09_05 added)
      = gathered tasks
      ∧ @reminder "42" "en" "Ibuprofen" new "08:00" ∈ tasks.
Proof.
  intros new added.
  destruct (X2_add_medicine_appends_one_entry (H := Concrete.py)
              Scenario2.busy_tbl "42"
              ["Ibuprofen"; "200mg"; "21:00"; "08:00"; "09:00"]) as [_ Hadd].
  destruct (Hadd "Ibuprofen" "200mg" "21:00" ["08:00"; "09:00"] eq_refl)
    as [_ Hmeds].
  destruct (Hmeds [Scenario.metformin; Scenario2.vitamin; Scenario.aspirin]
              eq_refl) as (_ & Hstored & _ & _ & Hsweep).
  split; [exact Hstored|].
  assert (∃ tasks,
            sweep_end (@send_reminders_async Concrete.py Scenario.at_09_05 added)
            = gathered tasks) as [tasks Hend].
  { eexists. vm_compute. reflexivity. }
  exists tasks. split; [exact Hend|].
  apply (Hsweep Scenario.at_09_05 Scenario.utc tasks ["21:00"] "08:00" ["09:00"]
           8 0).
  - reflexivity.
  - intros t0 h0 m0 [-> | []%elem_of_nil]%elem_of_cons Hparse Hreached.
    vm_compute in Hparse. injection Hparse as <- <-.
    vm_compute in Hreached. destruct Hreached as [Hlt | [Heq _]]; discriminate.
  - reflexivity.
  - left. reflexivity.
  - reflexivity.
  - exact Hend.
Defined.

(** The data of the scenario's button hold one delimiter after the
    prefix: the answer is not the one for invalid data. *)
Lemma X11_data_of_the_scenario :
  answer (@callback_acknowledge Concrete.py Scenario.at_09_05 Scenario.tbl "42"
            "ack|Aspirin|09:00" "Take it")
  ≠ Some (edit_message_text None (get_msg "ack_invalid" "ru" [])).
Proof.
  destruct (X11_ack_data_need_one_more_delimiter (H := Concrete.py)
              Scenario.at_09_05 Scenario.tbl "42" "Aspirin|09:00" "Take it")
    as [_ Hone].
  exact (proj1 (Hone eq_refl)).
Defined.

(** With "bob" on the list, BOB's [/start] is run. *)
Lemma X15_bob_may_start :
  @restricted Concrete.py ["bob"] (λ _, start Scenario.tbl "42") Scenario2.bob
  = handled (start Scenario.tbl "42").
Proof.
  destruct (X15_gate_runs_handler_for_listed_users_only (H := Concrete.py)
              ["bob"] (λ _, start Scenario.tbl "42") Scenario2.bob)
    as (Hruns & _ & _).
  apply Hruns. split; [reflexivity|].
  exists {| username := Some "BOB" |}, "BOB".
  split_and!; [reflexivity | reflexivity | discriminate | vm_compute; left].
Defined.


(** A press by a sender without a user name is turned away, and there is
    no message to reply to. *)
Example nameless_press_is_turned_away :
  @restricted Concrete.py ["bob"] (λ _, start Scenario.tbl "42")
    Scenario2.nameless_press
  = access_denied false.
Proof. reflexivity. Qed.
